(** * Multilingual campus chatbot: classification engine and conversation store

    A shallow embedding of [language_processor.py], [chatbot_engine.py],
    [conversation_logger.py] and the [/chat] route of [BACKEND/main.py],
    followed by the properties of the specification that were checked
    against it.

    Conventions.
    - A Python [str] is a list of Unicode code points ([pystr]).  Literals are
      written as UTF-8 text and decoded by [u].
    - The scores of the engine are kept by the exact rational ([Qc]) they
      stand for; the constants 0.0, 0.6, 0.8 and 0.9 are the fractions 0,
      3/5, 4/5 and 9/10.  Where the program computes with a score, in the
      running average of [daily_stats], the arithmetic is that of binary64
      ([round64]), on the binary64 number nearest to the score.
    - Functions of libraries the program calls ([str.lower], [re]'s word
      class, [difflib.SequenceMatcher.ratio], [langdetect.detect]) are the
      fields of [PyLib]; what a theorem needs to know about them is one of
      its hypotheses.
    - The SQLite database is a record of three tables; a [with
      sqlite3.connect(...)] block that ends in [conn.commit()] is one
      transaction. *)

From Stdlib Require Import ZArith NArith QArith Qcanon Qround Qpower Qabs Lqa.
From Stdlib Require Import List String Ascii Bool Lia.
From stdpp Require Import base option list gmap fin_maps.
Import ListNotations.

Local Open Scope Z_scope.

(** ** Python strings *)

Module PyStr.

Definition pystr : Type := list N.

(** One code point read from the front of a UTF-8 byte sequence, with the
    number of continuation bytes that follow the lead byte. *)
Definition lead (b : N) : N * nat :=
  if (b <? 128)%N then (b, 0%nat)
  else if (b <? 224)%N then (N.land b 31, 1%nat)
  else if (b <? 240)%N then (N.land b 15, 2%nat)
  else (N.land b 7, 3%nat).

Fixpoint utf8_decode (acc : N) (more : nat) (bs : list N) : pystr :=
  match bs with
  | [] => []
  | b :: bs' =>
      match more with
      | O =>
          let '(v, k) := lead b in
          match k with
          | O => v :: utf8_decode 0%N O bs'
          | S _ => utf8_decode v k bs'
          end
      | S O => (N.lor (N.shiftl acc 6) (N.land b 63)) :: utf8_decode 0%N O bs'
      | S k => utf8_decode (N.lor (N.shiftl acc 6) (N.land b 63)) k bs'
      end
  end.

(** The [str] written by a source literal. *)
Definition u (s : string) : pystr :=
  utf8_decode 0%N O (List.map N_of_ascii (list_ascii_of_string s)).

Definition str_eqb (a b : pystr) : bool := bool_decide (a = b).

(** [s.startswith(p)] *)
Fixpoint starts_with (p s : pystr) : bool :=
  match p, s with
  | [], _ => true
  | _ :: _, [] => false
  | c :: p', d :: s' => (c =? d)%N && starts_with p' s'
  end.

(** [needle in hay] *)
Fixpoint contains (needle hay : pystr) : bool :=
  starts_with needle hay ||
  match hay with
  | [] => false
  | _ :: hay' => contains needle hay'
  end.

(** [str.isspace] on one code point. *)
Definition is_space (c : N) : bool :=
  ((9 <=? c) && (c <=? 13) || (28 <=? c) && (c <=? 32)
   || (c =? 133) || (c =? 160) || (c =? 5760)
   || (8192 <=? c) && (c <=? 8202)
   || (c =? 8232) || (c =? 8233) || (c =? 8239) || (c =? 8287)
   || (c =? 12288))%N.

Fixpoint lstrip (s : pystr) : pystr :=
  match s with
  | c :: s' => if is_space c then lstrip s' else s
  | [] => []
  end.

(** [s.strip()] *)
Definition strip (s : pystr) : pystr := rev (lstrip (rev (lstrip s))).

(** [len(s)] *)
Definition len (s : pystr) : Z := Z.of_nat (length s).

(** Number of characters of [s] that are not whitespace. *)
Definition non_space_count (s : pystr) : Z :=
  Z.of_nat (length (List.filter (fun c => negb (is_space c)) s)).

(** Lower-casing of the Basic Latin letters, every other code point kept. *)
Definition ascii_lower_char (c : N) : N :=
  if ((65 <=? c) && (c <=? 90))%N then (c + 32)%N else c.

Definition ascii_lower (s : pystr) : pystr := List.map ascii_lower_char s.

Definition is_ascii (s : pystr) : bool := forallb (fun c => (c <? 128)%N) s.

(** Order of two texts under SQLite's BINARY collation: byte-wise on the
    UTF-8 encoding, which orders texts as their code points do. *)
Fixpoint text_ltb (a b : pystr) : bool :=
  match a, b with
  | [], [] => false
  | [], _ :: _ => true
  | _ :: _, [] => false
  | c :: a', d :: b' =>
      if (c <? d)%N then true
      else if (d <? c)%N then false
      else text_ltb a' b'
  end.

(** [d.get(key)] / [key in d] on a dict kept in insertion order. *)
Fixpoint dict_get {V : Type} (d : list (pystr * V)) (key : pystr) : option V :=
  match d with
  | [] => None
  | (k, v) :: d' => if str_eqb k key then Some v else dict_get d' key
  end.


(** [re.sub(r'\s+', ' ', s)]: every run of whitespace becomes one space;
    [in_run] tells that the character before was whitespace. *)
Fixpoint collapse_spaces (in_run : bool) (s : pystr) : pystr :=
  match s with
  | [] => []
  | c :: s' =>
      if is_space c
      then (if in_run then collapse_spaces true s'
            else 32%N :: collapse_spaces true s')
      else c :: collapse_spaces false s'
  end.

(** [s.split()]: the maximal runs of non-whitespace characters; [cur] is
    the run being read, last character first. *)
Fixpoint split_spaces (cur : pystr) (s : pystr) : list pystr :=
  match s with
  | [] => match cur with [] => [] | _ :: _ => [rev cur] end
  | c :: s' =>
      if is_space c
      then match cur with
           | [] => split_spaces [] s'
           | _ :: _ => rev cur :: split_spaces [] s'
           end
      else split_spaces (c :: cur) s'
  end.

(** [x in l] for a list of strings. *)
Definition str_in (x : pystr) (l : list pystr) : bool :=
  existsb (str_eqb x) l.

End PyStr.
Export PyStr.

(** ** Floats *)

Definition float : Type := Qc.

Definition f0_0 : float := Q2Qc (0 # 1).
Definition f0_6 : float := Q2Qc (6 # 10).
Definition f0_8 : float := Q2Qc (8 # 10).
Definition f0_9 : float := Q2Qc (9 # 10).
Definition f1_0 : float := Q2Qc (1 # 1).

(** An [int] as a float operand. *)
Definition of_int (n : Z) : float := Q2Qc (inject_Z n).

(** [x < y] and [x > y] on floats. *)
Definition flt (x y : float) : bool :=
  match (x ?= y)%Qc with Lt => true | _ => false end.

Definition fgt (x y : float) : bool := flt y x.

(** ** Binary64 arithmetic *)

(** What a float of the program holds: a binary64 number, kept by its
    value (the two zeros are one), an infinity or nan. *)
Inductive binary64 : Type :=
| Finite (x : float)
| Infinity (negative : bool)
| NaN.

(** The largest [e] with [2 ^ e <= x], for [x > 0]. *)
Definition ilog2 (x : Q) : Z :=
  let t := Z.log2 (Qnum x) - Z.log2 (Z.pos (Qden x)) in
  if Qle_bool (2 ^ t)%Q x then t else t - 1.

(** The integer nearest to [x], the even one of two that are equally near. *)
Definition nearest_even (x : Q) : Z :=
  let f := Qfloor x in
  match (x - inject_Z f ?= 1 # 2)%Q with
  | Lt => f
  | Gt => f + 1
  | Eq => if Z.even f then f else f + 1
  end.

(** [x > 0] rounded to 53 significant bits, to the nearest and to the even
    one of two neighbours equally near; the unit of the last place is no
    smaller than that of the subnormal numbers, [2 ^ -1074]. *)
Definition round_positive (x : Q) : Q :=
  let e := Z.max (ilog2 x - 52) (-1074) in
  (inject_Z (nearest_even (x / 2 ^ e)) * 2 ^ e)%Q.

(** The binary64 result of an operation whose exact result is [x]:
    rounded, or an infinity from [2 ^ 1024] on. *)
Definition round64 (x : Q) : binary64 :=
  match (x ?= 0)%Q with
  | Eq => Finite (Q2Qc 0%Q)
  | Gt => let r := round_positive x in
          if Qle_bool (2 ^ 1024)%Q r then Infinity false else Finite (Q2Qc r)
  | Lt => let r := round_positive (- x)%Q in
          if Qle_bool (2 ^ 1024)%Q r then Infinity true else Finite (Q2Qc (- r)%Q)
  end.

(** [float(n)] for an [int] that SQLite holds (64 bits) *)
Definition b64_of_int (n : Z) : binary64 := round64 (inject_Z n).

(** [a * b] *)
Definition b64_mul (a b : binary64) : binary64 :=
  match a, b with
  | Finite x, Finite y => round64 (x * y)%Q
  | Finite x, Infinity s | Infinity s, Finite x =>
      match (x ?= 0)%Qc with
      | Eq => NaN
      | Gt => Infinity s
      | Lt => Infinity (negb s)
      end
  | Infinity s, Infinity s' => Infinity (xorb s s')
  | NaN, _ | _, NaN => NaN
  end.

(** [a + b] *)
Definition b64_add (a b : binary64) : binary64 :=
  match a, b with
  | Finite x, Finite y => round64 (x + y)%Q
  | Finite _, Infinity s | Infinity s, Finite _ => Infinity s
  | Infinity s, Infinity s' => if Bool.eqb s s' then Infinity s else NaN
  | NaN, _ | _, NaN => NaN
  end.

(** [a / b] for a divisor that is not zero.  For zero Python raises
    [ZeroDivisionError]; the one divisor of the program is the count of a
    daily row plus one, and the block that divides by zero is a block that
    raises ([SecondBlockRaises] below). *)
Definition b64_div (a b : binary64) : binary64 :=
  match a, b with
  | Finite x, Finite y => round64 (x / y)%Q
  | Finite _, Infinity _ => Finite (Q2Qc 0%Q)
  | Infinity s, Finite y => Infinity (if Qle_bool 0%Q y then s else negb s)
  | Infinity _, Infinity _ => NaN
  | NaN, _ | _, NaN => NaN
  end.

(** ** Library functions the program calls *)

(** What [langdetect.detect] does on a text: a guessed ISO code, or the
    [LangDetectException] it raises when it finds no features. *)
Inductive detect_outcome : Type :=
| Guess (code : pystr)
| LangDetectException.

Record PyLib : Type := {
  (** [str.lower] *)
  py_lower : pystr -> pystr;
  (** [re]'s [\w] on one code point of a [str] pattern *)
  re_word : N -> bool;
  (** [SequenceMatcher(None, a, b).ratio()] *)
  seq_ratio : pystr -> pystr -> float;
  (** [langdetect.detect], seeded with [DetectorFactory.seed = 0] *)
  langdetect : pystr -> detect_outcome
}.

(** [ratio()] is [2.0 * matches / (len(a) + len(b))], or [1.0] for two empty
    strings, where the blocks counted by [matches] lie in both strings. *)
Definition ratio_in_unit_interval (L : PyLib) : Prop :=
  forall a b, (f0_0 <= seq_ratio L a b)%Qc /\ (seq_ratio L a b <= f1_0)%Qc.

Definition ratio_bounded_by_shorter (L : PyLib) : Prop :=
  forall a b, (0 < len a + len b)%Z ->
    (seq_ratio L a b * of_int (len a + len b)
     <= of_int (2 * Z.min (len a) (len b)))%Qc.

(** [str.lower] on a text of Basic Latin characters. *)
Definition lower_on_ascii (L : PyLib) : Prop :=
  forall s, is_ascii s = true -> py_lower L s = ascii_lower s.

(** ** language_processor.py *)

Module LanguageProcessor.

(** [self.language_map] *)
Definition language_map : list (pystr * pystr) :=
  [ (u "en", u "en"); (u "hi", u "hi"); (u "gu", u "gu");
    (u "mr", u "mr"); (u "raj", u "raj") ].

(** The two shapes of regular expression of [self.language_patterns]: a
    character class over one code range, and [\b(w1|...|wn)\b].  Every
    character the patterns name is uncased, so [re.IGNORECASE] leaves what
    they match as it is. *)
Inductive pattern : Type :=
| CharRange (lo hi : N)
| Words (ws : list pystr).

Definition devanagari : pattern := CharRange 2304 2431.
Definition gujarati : pattern := CharRange 2688 2815.

(** [self.language_patterns], in the order of the dict. *)
Definition language_patterns : list (pystr * list pattern) :=
  [ (u "hi",  [ devanagari;
                Words [u "क्या"; u "कैसे"; u "कब"; u "क्यों"; u "कहाँ"; u "नमस्ते"; u "धन्यवाद"] ]);
    (u "gu",  [ gujarati;
                Words [u "શું"; u "કેવી"; u "ક્યારે"; u "કેમ"; u "ક્યાં"; u "નમસ્તે"; u "ધન્યવાદ"] ]);
    (u "mr",  [ devanagari;
                Words [u "काय"; u "कसे"; u "केव्हा"; u "का"; u "कुठे"; u "नमस्कार"; u "धन्यवाद"] ]);
    (u "raj", [ devanagari;
                Words [u "के"; u "कैं"; u "कद"; u "क्यूं"; u "कठै"; u "नमस्ते"; u "धन्यवाद"] ]) ].

Section WithLib.
Variable L : PyLib.

Definition word_at (c : option N) : bool :=
  match c with Some x => re_word L x | None => false end.

(** [\b] between the character before a position and the one at it. *)
Definition boundary (before after : option N) : bool :=
  xorb (word_at before) (word_at after).

(** [\b w \b] matched with [w] starting at the front of [s], the
    character before [s] being [prev]. *)
Definition word_here (prev : option N) (w s : pystr) : bool :=
  starts_with w s
  && boundary prev (head s)
  && boundary (match last w with Some c => Some c | None => prev end)
              (head (drop (length w) s)).

Fixpoint search_words (ws : list pystr) (prev : option N) (s : pystr) : bool :=
  existsb (fun w => word_here prev w s) ws ||
  match s with
  | [] => false
  | c :: s' => search_words ws (Some c) s'
  end.

(** [re.search(pattern, text, re.IGNORECASE)] is not [None]. *)
Definition re_search (p : pattern) (text : pystr) : bool :=
  match p with
  | CharRange lo hi => existsb (fun c => (lo <=? c)%N && (c <=? hi)%N) text
  | Words ws => search_words ws None text
  end.

(** [_pattern_based_detection] *)
Fixpoint pattern_scan (ps : list (pystr * list pattern)) (text : pystr)
  : option pystr :=
  match ps with
  | [] => None
  | (lang, patterns) :: ps' =>
      if existsb (fun p => re_search p text) patterns then Some lang
      else pattern_scan ps' text
  end.

Definition _pattern_based_detection (text : pystr) : option pystr :=
  pattern_scan language_patterns text.

(** [_map_similar_language] *)
Definition language_mappings : list (pystr * pystr) :=
  [ (u "ne", u "hi"); (u "bn", u "hi"); (u "ur", u "hi"); (u "pa", u "hi") ].

Definition _map_similar_language (detected_lang : pystr) : pystr :=
  match dict_get language_mappings detected_lang with
  | Some l => l
  | None => u "en"
  end.

(** [detect_language] *)
Definition detect_language (text : pystr) : pystr :=
  if str_eqb text [] || (len (strip text) <? 3) then u "en"
  else
    match _pattern_based_detection text with
    | Some detected_lang => detected_lang
    | None =>
        match langdetect L text with
        | Guess detected =>
            match dict_get language_map detected with
            | Some l => l
            | None => _map_similar_language detected
            end
        | LangDetectException => u "en"
        end
    end.

(** [is_supported_language] *)
Definition is_supported_language (language : pystr) : bool :=
  match dict_get language_map language with Some _ => true | None => false end.

End WithLib.

(** The default code, returned for short texts and failed detection. *)
Definition default_language : pystr := u "en".


(** [get_language_name] *)
Definition language_names : list (pystr * pystr) :=
  [ (u "en", u "English");
    (u "hi", u "Hindi (हिंदी)");
    (u "gu", u "Gujarati (ગુજરાતી)");
    (u "mr", u "Marathi (मराठी)");
    (u "raj", u "Rajasthani (राजस्थानी)") ].

Definition get_language_name (lang_code : pystr) : pystr :=
  match dict_get language_names lang_code with
  | Some name => name
  | None => u "Unknown"
  end.

(** [get_supported_languages] *)
Definition get_supported_languages : list (pystr * pystr) :=
  List.map (fun entry => (fst entry, get_language_name (fst entry))) language_map.

(** The [stop_words] dict of [extract_keywords]. *)
Definition stop_words : list (pystr * list pystr) :=
  [ (u "en", [u "the"; u "a"; u "an"; u "and"; u "or"; u "but"; u "in";
              u "on"; u "at"; u "to"; u "for"; u "of"; u "with"; u "by"]);
    (u "hi", [u "और"; u "या"; u "में"; u "पर"; u "से"; u "के"; u "की"; u "को"; u "का"]);
    (u "gu", [u "અને"; u "અથવા"; u "માં"; u "પર"; u "થી"; u "ના"; u "નું"; u "ને"]);
    (u "mr", [u "आणि"; u "किंवा"; u "मध्ये"; u "वर"; u "पासून"; u "चा"; u "ची"; u "ला"]);
    (u "raj", [u "अर"; u "या"; u "में"; u "पर"; u "सूं"; u "रो"; u "री"; u "नै"]) ].

(** [stop_words.get(language, stop_words['en'])] *)
Definition stop_list (language : pystr) : list pystr :=
  match dict_get stop_words language with
  | Some l => l
  | None =>
      match dict_get stop_words (u "en") with
      | Some l => l
      | None => []
      end
  end.

(** [normalize_text] *)
Definition normalize_text (L : PyLib) (text : pystr) : pystr :=
  let text1 := collapse_spaces false (strip text) in
  if str_eqb (detect_language L text1) (u "en")
  then py_lower L text1
  else text1.

(** [extract_keywords] *)
Definition extract_keywords (L : PyLib) (text language : pystr) : list pystr :=
  let normalized_text := normalize_text L text in
  let words := split_spaces [] normalized_text in
  List.filter (fun word => negb (str_in word (stop_list language))
                           && (2 <? len word))
              words.

End LanguageProcessor.

(** ** chatbot_engine.py *)

Module ChatbotEngine.

(** One entry of the knowledge base: its keywords, and its response text
    per language code. *)
Record category_data : Type := {
  keywords : list pystr;
  responses : list (pystr * pystr)
}.

(** The knowledge base: the categories in the order of the JSON object,
    the greetings entry, and the contact dict when the file has one. *)
Record knowledge_base : Type := {
  categories : list (pystr * category_data);
  greetings : category_data;
  contact : option (list (pystr * pystr))
}.

(** *** [_get_default_knowledge_base] *)

Definition fees_entry : category_data :=
  {| keywords :=
       [ u "fee"; u "fees"; u "payment"; u "tuition"; u "शुल्क"; u "फीस"; u "ફી"; u "शुल्क" ];
     responses :=
       [ (u "en",
          u "Fee payment deadline is usually at the beginning of each semester. You can pay online through the college portal or visit the accounts office.");
         (u "hi",
          u "शुल्क भुगतान की अंतिम तिथि आमतौर पर हर सेमेस्टर की शुरुआत में होती है। आप कॉलेज पोर्टल के माध्यम से ऑनलाइन भुगतान कर सकते हैं या खाता कार्यालय जा सकते हैं।");
         (u "gu",
          u "ફી ચુકવણીની અંતિમ તારીખ સામાન્ય રીતે દરેક સેમેસ્ટરની શરૂઆતમાં હોય છે. તમે કૉલેજ પોર્ટલ દ્વારા ઑનલાઇન ચુકવણી કરી શકો છો અથવા એકાઉન્ટ્સ ઑફિસની મુલાકાત લઈ શકો છો.");
         (u "mr",
          u "शुल्क भरणाची शेवटची तारीख सहसा प्रत्येक सेमेस्टरच्या सुरुवातीला असते. तुम्ही कॉलेज पोर्टलद्वारे ऑनलाइन पेमेंट करू शकता किंवा खाते कार्यालयात जाऊ शकता.");
         (u "raj",
          u "शुल्क भुगतान री अंतिम तारीख सामान्यतः हर सेमेस्टर री शुरुआत में होवै। थे कॉलेज पोर्टल रे जरिये ऑनलाइन भुगतान कर सको या खाता कार्यालय जा सको।") ] |}.

Definition scholarships_entry : category_data :=
  {| keywords :=
       [ u "scholarship"; u "scholarships"; u "financial aid"; u "छात्रवृत्ति"; u "स्कॉलरशिप"; u "સ્કોલરશિપ"; u "शिष्यवृत्ती" ];
     responses :=
       [ (u "en",
          u "Scholarship applications are available on the college website. Merit and need-based scholarships are offered. Submit documents before the deadline.");
         (u "hi",
          u "छात्रवृत्ति के लिए आवेदन कॉलेज की वेबसाइट पर उपलब्ध हैं। योग्यता और आवश्यकता आधारित छात्रवृत्ति उपलब्ध हैं। अंतिम तिथि से पहले दस्तावेज जमा करें।");
         (u "gu",
          u "સ્કોલરશિપ માટે અરજીઓ કૉલેજની વેબસાઇટ પર ઉપલબ્ધ છે. મેરિટ અને જરૂરિયાત આધારિત સ્કોલરશિપ ઓફર કરવામાં આવે છે. અંતિમ તારીખ પહેલા દસ્તાવેજો સબમિટ કરો.");
         (u "mr",
          u "शिष्यवृत्तीसाठी अर्ज कॉलेजच्या वेबसाइटवर उपलब्ध आहेत. गुणवत्ता आणि गरज आधारित शिष्यवृत्ती दिली जाते. शेवटच्या तारखेपूर्वी कागदपत्रे सादर करा.");
         (u "raj",
          u "छात्रवृत्ति के लिए आवेदन कॉलेज री वेबसाइट पे उपलब्ध है। योग्यता अर गरज के आधार पे छात्रवृत्ति मिलै। अंतिम तारीख सूं पैली दस्तावेज जमा करो।") ] |}.

Definition timetable_entry : category_data :=
  {| keywords :=
       [ u "timetable"; u "schedule"; u "class"; u "timing"; u "समय सारणी"; u "टाइम टेबल"; u "વર્ગ"; u "वेळापत्रक" ];
     responses :=
       [ (u "en",
          u "Timetables are updated on the college notice board and website. Check for any last-minute changes before attending classes.");
         (u "hi",
          u "समय सारणी कॉलेज के नोटिस बोर्ड और वेबसाइट पर अपडेट की जाती है। कक्षा में जाने से पहले किसी भी अंतिम समय के बदलाव की जांच करें।");
         (u "gu",
          u "સમયપત્રક કૉલેજના નોટિસ બોર્ડ અને વેબસાઇટ પર અપડેટ કરવામાં આવે છે. વર્ગમાં હાજરી આપતા પહેલા કોઈપણ છેલ્લી ઘડીના ફેરફારો માટે તપાસો.");
         (u "mr",
          u "वेळापत्रक कॉलेजच्या नोटीस बोर्ड आणि वेबसाइटवर अपडेट केले जाते. वर्गात जाण्यापूर्वी शेवटच्या क्षणी झालेल्या बदलांची तपासणी करा.");
         (u "raj",
          u "समय सारणी कॉलेज रे नोटिस बोर्ड अर वेबसाइट पे अपडेट होवै। क्लास में जावण सूं पैली कोई भी अंतिम समय रे बदलाव री जांच करो।") ] |}.

Definition admission_entry : category_data :=
  {| keywords :=
       [ u "admission"; u "admissions"; u "apply"; u "entrance"; u "प्रवेश"; u "दाखिला"; u "પ્રવેશ"; u "प्रवेश" ];
     responses :=
       [ (u "en",
          u "Admission applications are open from June to August. Check eligibility criteria, fill the online form, and submit required documents.");
         (u "hi",
          u "प्रवेश आवेदन जून से अगस्त तक खुले रहते हैं। पात्रता मानदंड जांचें, ऑनलाइन फॉर्म भरें और आवश्यक दस्तावेज जमा करें।");
         (u "gu",
          u "પ્રવેશની અરજીઓ જૂનથી ઓગસ્ટ સુધી ખુલ્લી છે. પાત્રતાના માપદંડો તપાસો, ઓનલાઇન ફોર્મ ભરો અને જરૂરી દસ્તાવેજો સબમિટ કરો.");
         (u "mr",
          u "प्रवेश अर्ज जून ते ऑगस्ट पर्यंत उघडे आहेत. पात्रता निकष तपासा, ऑनलाइन फॉर्म भरा आणि आवश्यक कागदपत्रे सादर करा.");
         (u "raj",
          u "प्रवेश आवेदन जून सूं अगस्त तक खुले रहवै हैं। पात्रता मानदंड देखो, ऑनलाइन फॉर्म भरो अर जरूरी दस्तावेज जमा करो।") ] |}.

Definition exams_entry : category_data :=
  {| keywords :=
       [ u "exam"; u "exams"; u "test"; u "results"; u "marks"; u "परीक्षा"; u "પરીક્ષા"; u "परीक्षा" ];
     responses :=
       [ (u "en",
          u "Exam schedules are published on the college website 2 weeks before exams. Results are declared within 30 days after completion.");
         (u "hi",
          u "परीक्षा कार्यक्रम परीक्षा से 2 सप्ताह पहले कॉलेज की वेबसाइट पर प्रकाशित होते हैं। परिणाम पूरा होने के 30 दिनों के भीतर घोषित किए जाते हैं।");
         (u "gu",
          u "પરીક્ષાનું શેડ્યૂલ પરીક્ષાના 2 અઠવાડિયા પહેલા કૉલેજની વેબસાઇટ પર પ્રકાશિત કરવામાં આવે છે. પરિણામો પૂર્ણ થયાના 30 દિવસની અંદર જાહેર કરવામાં આવે છે.");
         (u "mr",
          u "परीक्षेचे वेळापत्रक परीक्षेच्या 2 आठवड्यांपूर्वी कॉलेजच्या वेबसाइटवर प्रकाशित केले जाते. निकाल पूर्ण झाल्यानंतर 30 दिवसांच्या आत जाहीर केले जातात.");
         (u "raj",
          u "परीक्षा कार्यक्रम परीक्षा सूं 2 हफ्ता पैली कॉलेज री वेबसाइट पे छपवावै। परिणाम पूरा होवण रे 30 दिन रे अंदर घोषित करावै।") ] |}.

Definition greetings_entry : category_data :=
  {| keywords :=
       [ u "hello"; u "hi"; u "hey"; u "namaste"; u "नमस्ते"; u "નમસ્તે"; u "नमस्कार" ];
     responses :=
       [ (u "en",
          u "Hello! I'm your campus assistant. I can help you with information about fees, scholarships, timetables, admissions, and exams. How can I help you today?");
         (u "hi",
          u "नमस्ते! मैं आपका कैंपस सहायक हूं। मैं शुल्क, छात्रवृत्ति, समय सारणी, प्रवेश और परीक्षा के बारे में जानकारी दे सकता हूं। आज मैं आपकी कैसे मदद कर सकता हूं?");
         (u "gu",
          u "નમસ્તે! હું તમારો કેમ્પસ સહાયક છું. હું ફી, સ્કોલરશિપ, સમયપત્રક, પ્રવેશ અને પરીક્ષાઓ વિશે માહિતી આપી શકું છું. આજે હું તમને કેવી રીતે મદદ કરી શકું?");
         (u "mr",
          u "नमस्कार! मी तुमचा कॅम्पस सहाय्यक आहे. मी फी, शिष्यवृत्ती, वेळापत्रक, प्रवेश आणि परीक्षांबद्दल माहिती देऊ शकतो. आज मी तुम्हाला कशी मदत करू शकतो?");
         (u "raj",
          u "नमस्ते! मैं थारो कैंपस सहायक हूं। मैं शुल्क, छात्रवृत्ति, समय सारणी, प्रवेश अर परीक्षा रे बारे में जानकारी दे सकूं। आज मैं थारी कैसे मदद कर सकूं?") ] |}.

Definition contact_record : list (pystr * pystr) :=
  [ (u "office_hours", u "9:00 AM - 5:00 PM, Monday to Friday");
    (u "phone", u "+91-XXX-XXX-XXXX");
    (u "email", u "info@college.edu");
    (u "address", u "College Campus, City, State") ].

Definition fallback_responses : list (pystr * pystr) :=
  [ (u "en",
     u "I'm not sure about that. Please contact our office during business hours (9 AM - 5 PM) at +91-XXX-XXX-XXXX or email info@college.edu for assistance.");
    (u "hi",
     u "मुझे इसके बारे में यकीन नहीं है। कृपया व्यावसायिक घंटों (सुबह 9 बजे - शाम 5 बजे) के दौरान हमारे कार्यालय से +91-XXX-XXX-XXXX पर संपर्क करें या सहायता के लिए info@college.edu पर ईमेल करें।");
    (u "gu",
     u "મને તેના વિશે ખાતરી નથી. કૃપા કરીને બિઝનેસ અવર્સ (સવારે 9 - સાંજે 5) દરમિયાન અમારી ઓફિસનો સંપર્ક કરો +91-XXX-XXX-XXXX અથવા સહાયતા માટે info@college.edu પર ઈમેલ કરો.");
    (u "mr",
     u "मला त्याबद्दल खात्री नाही. कृपया कार्यालयीन वेळेत (सकाळी 9 - संध्याकाळी 5) आमच्या कार्यालयाशी +91-XXX-XXX-XXXX वर संपर्क साधा किंवा मदतीसाठी info@college.edu वर ईमेल करा.");
    (u "raj",
     u "मने इसके बारे में पक्का नहीं है। कृपया व्यावसायिक समय (सवेरे 9 - सांझ 5) में हमारे कार्यालय सूं +91-XXX-XXX-XXXX पे संपर्क करो या मदद रे लिए info@college.edu पे ईमेल करो।") ].

Definition default_knowledge_base : knowledge_base :=
  {| categories :=
       [ (u "fees", fees_entry); (u "scholarships", scholarships_entry);
         (u "timetable", timetable_entry); (u "admission", admission_entry);
         (u "exams", exams_entry) ];
     greetings := greetings_entry;
     contact := Some contact_record |}.

(** [self.confidence_threshold] *)
Definition confidence_threshold : float := f0_6.

(** One entry of a session's ["messages"] list; ["bot"] is set once the
    response is known. *)
Record message_entry : Type := {
  m_user : pystr;
  m_timestamp : pystr;
  m_bot : option pystr
}.

(** One value of [self.session_contexts]. *)
Record session_context : Type := {
  messages : list message_entry;
  last_category : option pystr;
  ctx_language : pystr
}.

(** The dict [process_message] returns. *)
Record reply : Type := {
  r_response : pystr;
  r_confidence : float;
  r_category : pystr;
  r_needs_human : bool;
  r_contact : option (list (pystr * pystr))
}.

Section WithLib.
Variable L : PyLib.
Variable kb : knowledge_base.

(** The body of the inner [for keyword in keywords] loop of
    [_find_best_match], on the pair [(best_match, best_score)]. *)
Definition score_keyword (message_lower category : pystr)
    (best : option pystr * float) (keyword : pystr) : option pystr * float :=
  let best1 :=
    if contains keyword message_lower then
      if fgt f0_8 (snd best) then (Some category, f0_8) else best
    else best in
  let similarity := seq_ratio L keyword message_lower in
  if fgt similarity f0_6 && fgt similarity (snd best1)
  then (Some category, similarity)
  else best1.

(** The body of the outer [for category, data in ...items()] loop. *)
Definition score_category (message_lower : pystr)
    (best : option pystr * float) (entry : pystr * category_data)
  : option pystr * float :=
  fold_left (score_keyword message_lower (fst entry))
            (keywords (snd entry)) best.

(** [best_match or "unknown"]: [None] and the empty string are falsy. *)
Definition or_unknown (best_match : option pystr) : pystr :=
  match best_match with
  | Some (c :: cs) => c :: cs
  | Some [] | None => u "unknown"
  end.

(** [_find_best_match]; [language] is not used by it. *)
Definition _find_best_match (message language : pystr) : pystr * float :=
  let message_lower := py_lower L message in
  if existsb (fun keyword => contains keyword message_lower)
             (keywords (greetings kb))
  then (u "greetings", f0_9)
  else
    let best := fold_left (score_category message_lower)
                          (categories kb) (None, f0_0) in
    (or_unknown (fst best), snd best).

(** [_get_fallback_response] *)
Definition _get_fallback_response (language : pystr) : pystr :=
  match dict_get fallback_responses language with
  | Some r => r
  | None =>
      match dict_get fallback_responses (u "en") with
      | Some r => r
      | None => []
      end
  end.

(** [_get_response] *)
Definition localized (responses : list (pystr * pystr)) (language : pystr) : pystr :=
  match dict_get responses language with
  | Some r => r
  | None =>
      match dict_get responses (u "en") with
      | Some r => r
      | None => u "I'm sorry, I don't understand."
      end
  end.

Definition _get_response (category language : pystr) : pystr :=
  if str_eqb category (u "greetings")
  then localized (responses (greetings kb)) language
  else
    match dict_get (categories kb) category with
    | Some data => localized (responses data) language
    | None => _get_fallback_response language
    end.

(** [self.knowledge_base.get("contact", {})] *)
Definition kb_contact : list (pystr * pystr) :=
  match contact kb with Some c => c | None => [] end.

(** [process_message], on the dict [self.session_contexts]; [now] is
    [str(datetime.now())]. *)
Definition process_message (now : pystr)
    (session_contexts : gmap pystr session_context)
    (message session_id language : pystr)
  : reply * gmap pystr session_context :=
  let ctx0 :=
    match session_contexts !! session_id with
    | Some c => c
    | None => {| messages := []; last_category := None; ctx_language := language |}
    end in
  let entry := {| m_user := message; m_timestamp := now; m_bot := None |} in
  let '(category, confidence) := _find_best_match message language in
  let '(response, needs_human) :=
    if flt confidence confidence_threshold
    then (_get_fallback_response language, true)
    else (_get_response category language, false) in
  let ctx1 :=
    {| messages := messages ctx0
                   ++ [ {| m_user := m_user entry;
                           m_timestamp := m_timestamp entry;
                           m_bot := Some response |} ];
       last_category := Some category;
       ctx_language := ctx_language ctx0 |} in
  ({| r_response := response;
      r_confidence := confidence;
      r_category := category;
      r_needs_human := needs_human;
      r_contact := if needs_human then Some kb_contact else None |},
   <[session_id := ctx1]> session_contexts).

End WithLib.

(** The category name returned when nothing matched. *)
Definition fallback_category : pystr := u "unknown".


(** [get_session_context] *)
Definition get_session_context
    (session_contexts : gmap pystr session_context) (session_id : pystr)
  : option session_context :=
  session_contexts !! session_id.

(** [clear_session_context] *)
Definition clear_session_context
    (session_contexts : gmap pystr session_context) (session_id : pystr)
  : gmap pystr session_context :=
  match session_contexts !! session_id with
  | Some _ => delete session_id session_contexts
  | None => session_contexts
  end.

End ChatbotEngine.

(** ** Dates, times and their text forms *)

Module Clock.

(** A [datetime]: the proleptic Gregorian ordinal of its date
    ([date.toordinal()], day 1 is 0001-01-01) and its time of day. *)
Record datetime : Type := {
  ordinal : Z;
  hour : Z;
  minute : Z;
  second : Z;
  microsecond : Z
}.

(** Year, month and day of an ordinal. *)
Definition ymd (ord : Z) : Z * Z * Z :=
  let z := ord - 719163 + 719468 in
  let era := z / 146097 in
  let doe := z - era * 146097 in
  let yoe := (doe - doe / 1460 + doe / 36524 - doe / 146096) / 365 in
  let doy := doe - (365 * yoe + yoe / 4 - yoe / 100) in
  let mp := (5 * doy + 2) / 153 in
  let d := doy - (153 * mp + 2) / 5 + 1 in
  let m := if mp <? 10 then mp + 3 else mp - 9 in
  let y := yoe + era * 400 + (if m <=? 2 then 1 else 0) in
  (y, m, d).

Definition digit (n : Z) : N := Z.to_N (48 + n mod 10).

(** [n] in decimal, zero-padded to [width] digits. *)
Fixpoint dec (width : nat) (n : Z) : pystr :=
  match width with
  | O => []
  | S w => dec w (n / 10) ++ [digit n]
  end.

(** [date.isoformat()]: YYYY-MM-DD *)
Definition date_isoformat (ord : Z) : pystr :=
  let '(y, m, d) := ymd ord in
  dec 4 y ++ u "-" ++ dec 2 m ++ u "-" ++ dec 2 d.

Definition time_text (t : datetime) : pystr :=
  dec 2 (hour t) ++ u ":" ++ dec 2 (minute t) ++ u ":" ++ dec 2 (second t).

(** [datetime.isoformat()]: YYYY-MM-DDTHH:MM:SS, with .ffffff when the
    microsecond is not zero. *)
Definition isoformat (t : datetime) : pystr :=
  date_isoformat (ordinal t) ++ u "T" ++ time_text t
  ++ (if microsecond t =? 0 then [] else u "." ++ dec 6 (microsecond t)).

(** SQLite's [CURRENT_TIMESTAMP]: YYYY-MM-DD HH:MM:SS *)
Definition current_timestamp (t : datetime) : pystr :=
  date_isoformat (ordinal t) ++ u " " ++ time_text t.

(** The ordinal of [date.max], 9999-12-31. *)
Definition max_ordinal : Z := 3652059.

(** [t - timedelta(days=n)], or [None] where Python raises
    [OverflowError]: a [timedelta] holds at most 999999999 days either
    way, and the date of the result has to lie in the years 1 to 9999. *)
Definition minus_days (t : datetime) (n : Z) : option datetime :=
  if (Z.abs n <=? 999999999) && (1 <=? ordinal t - n)
     && (ordinal t - n <=? max_ordinal)
  then Some {| ordinal := ordinal t - n; hour := hour t; minute := minute t;
               second := second t; microsecond := microsecond t |}
  else None.

(** [a] is an earlier instant than [b]. *)
Definition earlier (a b : datetime) : Prop :=
  let key t := (((ordinal t * 24 + hour t) * 60 + minute t) * 60 + second t)
               * 1000000 + microsecond t in
  key a < key b.

(** The two clocks the store reads: SQLite's [CURRENT_TIMESTAMP] and
    Python's [datetime.now()] / [date.today()]. *)
Record clock : Type := {
  sqlite_now : datetime;
  python_now : datetime
}.

End Clock.
Export Clock.

(** ** JSON text and SQL text functions used on [sessions.languages_used] *)

Module Json.

Definition dquote : N := 34.
Definition backslash : N := 92.

Definition hex_digit (n : N) : N :=
  (if n <? 10 then 48 + n else 87 + n)%N.

(** [\uXXXX] *)
Definition u_escape (c : N) : pystr :=
  [backslash; 117%N;
   hex_digit (N.shiftr c 12 mod 16); hex_digit (N.shiftr c 8 mod 16);
   hex_digit (N.shiftr c 4 mod 16); hex_digit (c mod 16)].

(** The escapes both writers share: the quote, the backslash and the
    control characters that have a short form. *)
Definition short_escape (c : N) : option pystr :=
  if (c =? dquote)%N then Some [backslash; dquote]
  else if (c =? backslash)%N then Some [backslash; backslash]
  else if (c =? 8)%N then Some [backslash; 98%N]
  else if (c =? 9)%N then Some [backslash; 116%N]
  else if (c =? 10)%N then Some [backslash; 110%N]
  else if (c =? 12)%N then Some [backslash; 102%N]
  else if (c =? 13)%N then Some [backslash; 114%N]
  else None.

(** One character as [json.dumps] writes it ([ensure_ascii=True]). *)
Definition py_escape_char (c : N) : pystr :=
  match short_escape c with
  | Some e => e
  | None =>
      if ((32 <=? c) && (c <=? 126))%N then [c]
      else if (c <? 65536)%N then u_escape c
      else let v := (c - 65536)%N in
           u_escape (55296 + N.shiftr v 10) ++ u_escape (56320 + v mod 1024)
  end.

(** One character as SQLite's JSON functions write a text value. *)
Definition sqlite_escape_char (c : N) : pystr :=
  match short_escape c with
  | Some e => e
  | None => if (c <? 32)%N then u_escape c else [c]
  end.

(** [json.dumps([s])] *)
Definition json_dumps_list1 (s : pystr) : pystr :=
  u "[" ++ [dquote] ++ concat (List.map py_escape_char s) ++ [dquote] ++ u "]".

(** [json_insert(text, '$[#]', s)] on the text of a JSON array: [s] is
    appended as a string, the elements already there are kept as they are
    written. *)
Definition json_insert_end (text s : pystr) : pystr :=
  let item := [dquote] ++ concat (List.map sqlite_escape_char s) ++ [dquote] in
  if str_eqb text (u "[]") then u "[" ++ item ++ u "]"
  else removelast text ++ u "," ++ item ++ u "]".

(** [json_extract(text, '$')]: the text of the whole value; the column
    only ever holds the minified arrays the two writers above produce,
    which SQLite gives back unchanged. *)
Definition json_extract_root (text : pystr) : pystr := text.

(** The characters of a text before its first U+0000: SQLite's LIKE
    reads both operands as NUL-terminated strings. *)
Fixpoint until_nul (s : pystr) : pystr :=
  match s with
  | [] => []
  | c :: s' => if (c =? 0)%N then [] else c :: until_nul s'
  end.

(** The match of LIKE without ESCAPE on two texts without U+0000: [%] is
    any run of characters, [_] any one character, Basic Latin letters
    compare without case. *)
Fixpoint like_match (pat text : pystr) : bool :=
  match pat with
  | [] => match text with [] => true | _ :: _ => false end
  | p :: pat' =>
      if (p =? 37)%N then
        (fix any (s : pystr) : bool :=
           like_match pat' s ||
           match s with [] => false | _ :: s' => any s' end) text
      else
        match text with
        | [] => false
        | c :: text' =>
            ((p =? 95)%N || (ascii_lower_char p =? ascii_lower_char c)%N)
            && like_match pat' text'
        end
  end.

(** SQL [text LIKE pat] *)
Definition sql_like (pat text : pystr) : bool :=
  like_match (until_nul pat) (until_nul text).

(** *** Reading the array back: [json.loads] on an array of strings *)

Definition hex_value (c : N) : option N :=
  if ((48 <=? c) && (c <=? 57))%N then Some (c - 48)%N
  else if ((97 <=? c) && (c <=? 102))%N then Some (c - 87)%N
  else if ((65 <=? c) && (c <=? 70))%N then Some (c - 55)%N
  else None.

Definition hex4 (a b c d : N) : option N :=
  match hex_value a, hex_value b, hex_value c, hex_value d with
  | Some x, Some y, Some z, Some w => Some (((x * 16 + y) * 16 + z) * 16 + w)%N
  | _, _, _, _ => None
  end.

Definition unescape (e : N) : option N :=
  if (e =? dquote)%N then Some dquote
  else if (e =? backslash)%N then Some backslash
  else if (e =? 47)%N then Some 47%N
  else if (e =? 98)%N then Some 8%N
  else if (e =? 116)%N then Some 9%N
  else if (e =? 110)%N then Some 10%N
  else if (e =? 102)%N then Some 12%N
  else if (e =? 114)%N then Some 13%N
  else None.

(** The characters of a string literal up to its closing quote, and the
    text after it. *)
Fixpoint string_body (s : pystr) : option (pystr * pystr) :=
  match s with
  | [] => None
  | c :: rest =>
      if (c =? dquote)%N then Some ([], rest)
      else if (c =? backslash)%N then
        match rest with
        | [] => None
        | e :: rest1 =>
            if (e =? 117)%N then
              match rest1 with
              | h1 :: h2 :: h3 :: h4 :: rest2 =>
                  match hex4 h1 h2 h3 h4, string_body rest2 with
                  | Some v, Some (body, k) => Some (v :: body, k)
                  | _, _ => None
                  end
              | _ => None
              end
            else
              match unescape e, string_body rest1 with
              | Some v, Some (body, k) => Some (v :: body, k)
              | _, _ => None
              end
        end
      else
        match string_body rest with
        | Some (body, k) => Some (c :: body, k)
        | None => None
        end
  end.

(** A high surrogate followed by a low one is one character. *)
Fixpoint join_surrogates (s : pystr) : pystr :=
  match s with
  | hi :: ((lo :: s2) as s1) =>
      if ((55296 <=? hi) && (hi <=? 56319) && (56320 <=? lo) && (lo <=? 57343))%N
      then (65536 + (hi - 55296) * 1024 + (lo - 56320))%N :: join_surrogates s2
      else hi :: join_surrogates s1
  | _ => s
  end.

Definition json_space (c : N) : bool :=
  ((c =? 32) || (c =? 9) || (c =? 10) || (c =? 13))%N.

Fixpoint skip_space (s : pystr) : pystr :=
  match s with
  | c :: s' => if json_space c then skip_space s' else s
  | [] => []
  end.

(** The elements after the opening bracket or after a comma. *)
Fixpoint elements (fuel : nat) (s : pystr) : option (list pystr) :=
  match fuel with
  | O => None
  | S fuel' =>
      match skip_space s with
      | c :: rest =>
          if (c =? dquote)%N then
            match string_body rest with
            | Some (body, k) =>
                match skip_space k with
                | d :: k' =>
                    if (d =? 44)%N then
                      match elements fuel' k' with
                      | Some l => Some (join_surrogates body :: l)
                      | None => None
                      end
                    else if (d =? 93)%N then
                      match skip_space k' with
                      | [] => Some [join_surrogates body]
                      | _ :: _ => None
                      end
                    else None
                | [] => None
                end
            | None => None
            end
          else None
      | [] => None
      end
  end.

(** [json.loads(text)] for the text of an array of strings; [None] when
    the text is something else. *)
Definition json_loads_strings (text : pystr) : option (list pystr) :=
  match skip_space text with
  | c :: rest =>
      if (c =? 91)%N then
        match skip_space rest with
        | d :: rest' =>
            if (d =? 93)%N then
              match skip_space rest' with [] => Some [] | _ :: _ => None end
            else elements (S (length rest)) rest
        | [] => None
        end
      else None
  | [] => None
  end.

End Json.
Export Json.

(** ** conversation_logger.py *)

Module ConversationLogger.

(** A row of [sessions], without its key. *)
Record session_row : Type := {
  created_at : pystr;
  updated_at : pystr;
  message_count : Z;
  languages_used : pystr
}.

(** A row of [conversations]. *)
Record conversation_row : Type := {
  c_id : Z;
  c_session_id : pystr;
  c_timestamp : pystr;
  c_user_message : pystr;
  c_bot_response : pystr;
  c_language : pystr;
  c_confidence : float;
  c_category : option pystr;
  c_needs_human : bool
}.

(** A row of [daily_stats], without its key; the two breakdown columns
    hold the JSON text of a dict that only [json.loads] and [json.dumps]
    touch, kept here as the dict.  [avg_confidence] is a REAL column: it
    gives back the float it was given, except that SQLite keeps NULL for
    a nan; [NaN] in this column is that NULL.  The logger computes a nan
    only from an average that is infinite, which confidences in [0, 1]
    never give. *)
Record daily_stat_row : Type := {
  total_conversations : Z;
  total_sessions : Z;
  languages_breakdown : gmap pystr Z;
  categories_breakdown : gmap pystr Z;
  avg_confidence : binary64;
  human_handoff_count : Z
}.

(** The database file: the three tables and the AUTOINCREMENT counter of
    [conversations]. *)
Record store : Type := {
  sessions : gmap pystr session_row;
  conversations : list conversation_row;
  conversations_seq : Z;
  daily_stats : gmap pystr daily_stat_row
}.

(** [init_database] on a database file that does not exist yet. *)
Definition init_database : store :=
  {| sessions := ∅; conversations := []; conversations_seq := 0;
     daily_stats := ∅ |}.

(** [category] when it is truthy: neither [None] nor the empty string. *)
Definition truthy (category : option pystr) : option pystr :=
  match category with
  | Some (c :: cs) => Some (c :: cs)
  | Some [] | None => None
  end.

(** *** [log_conversation], first [with] block *)

(** [INSERT INTO sessions ... ON CONFLICT(session_id) DO UPDATE SET ...] *)
Definition upsert_session (now : datetime) (session_id language : pystr)
    (tbl : gmap pystr session_row) : gmap pystr session_row :=
  match tbl !! session_id with
  | None =>
      <[session_id :=
          {| created_at := current_timestamp now;
             updated_at := current_timestamp now;
             message_count := 1;
             languages_used := json_dumps_list1 language |}]> tbl
  | Some row =>
      <[session_id :=
          {| created_at := created_at row;
             updated_at := current_timestamp now;
             message_count := message_count row + 1;
             languages_used :=
               if sql_like (u "%" ++ language ++ u "%")
                           (json_extract_root (languages_used row))
               then languages_used row
               else json_insert_end (languages_used row) language |}]> tbl
  end.

(** [INSERT INTO conversations ...] *)
Definition insert_conversation (now : datetime)
    (session_id user_message bot_response language : pystr)
    (confidence : float) (category : option pystr) (needs_human : bool)
    (st : store) : list conversation_row * Z :=
  let id := conversations_seq st + 1 in
  (conversations st
   ++ [ {| c_id := id; c_session_id := session_id;
           c_timestamp := current_timestamp now;
           c_user_message := user_message; c_bot_response := bot_response;
           c_language := language; c_confidence := confidence;
           c_category := category; c_needs_human := needs_human |} ],
   id).

(** The database after the first [conn.commit()]. *)
Definition log_session_and_turn (clk : clock) (st : store)
    (session_id user_message bot_response language : pystr)
    (confidence : float) (category : option pystr) (needs_human : bool)
  : store :=
  let '(rows, seq) :=
    insert_conversation (sqlite_now clk) session_id user_message bot_response
                        language confidence category needs_human st in
  {| sessions := upsert_session (sqlite_now clk) session_id language (sessions st);
     conversations := rows;
     conversations_seq := seq;
     daily_stats := daily_stats st |}.

(** *** [_update_daily_stats] *)

Definition incr (key : pystr) (d : gmap pystr Z) : gmap pystr Z :=
  <[key := default 0 (d !! key) + 1]> d.

(** The row written for [today]: the UPDATE of the row found, or the
    INSERT when there is none. *)
Definition next_daily_stat (row : option daily_stat_row)
    (language : pystr) (category : option pystr) (confidence : float)
    (needs_human : bool) : daily_stat_row :=
  match row with
  | Some r =>
      let new_total := total_conversations r + 1 in
      {| total_conversations := new_total;
         total_sessions := total_sessions r;
         languages_breakdown := incr language (languages_breakdown r);
         categories_breakdown :=
           match truthy category with
           | Some c => incr c (categories_breakdown r)
           | None => categories_breakdown r
           end;
         avg_confidence :=
           b64_div
             (b64_add (b64_mul (avg_confidence r)
                               (b64_of_int (total_conversations r)))
                      (round64 confidence))
             (b64_of_int new_total);
         human_handoff_count :=
           human_handoff_count r + (if needs_human then 1 else 0) |}
  | None =>
      {| total_conversations := 1;
         total_sessions := 0;
         languages_breakdown := {[ language := 1 ]};
         categories_breakdown :=
           match truthy category with
           | Some c => {[ c := 1 ]}
           | None => ∅
           end;
         avg_confidence := round64 confidence;
         human_handoff_count := if needs_human then 1 else 0 |}
  end.

Definition _update_daily_stats (clk : clock) (st : store)
    (language : pystr) (category : option pystr) (confidence : float)
    (needs_human : bool) : store :=
  let today := date_isoformat (ordinal (python_now clk)) in
  {| sessions := sessions st;
     conversations := conversations st;
     conversations_seq := conversations_seq st;
     daily_stats :=
       <[today := next_daily_stat (daily_stats st !! today) language category
                                  confidence needs_human]> (daily_stats st) |}.

(** *** [log_conversation] *)

(** Where one [log_conversation] raises, if it does: inside the first
    [with] block, or inside the one of [_update_daily_stats].  What
    raises is an [sqlite3] call or, in the second block, the arithmetic
    of the average on a row whose average is NULL ([TypeError]) or whose
    count is -1 ([ZeroDivisionError]); [next_daily_stat] is the row of a
    block that does not raise.  A block that raises is rolled back by
    its connection's context manager. *)
Inductive fault : Type :=
| NoFault
| FirstBlockRaises (e : pystr)
| SecondBlockRaises (e : pystr).

(** The states of the database that one call commits, in order. *)
Definition log_conversation_commits (f : fault) (clk : clock) (st : store)
    (session_id user_message bot_response language : pystr)
    (confidence : float) (category : option pystr) (needs_human : bool)
  : list store :=
  let s1 := log_session_and_turn clk st session_id user_message bot_response
                                 language confidence category needs_human in
  let s2 := _update_daily_stats clk s1 language category confidence needs_human in
  match f with
  | NoFault => [s1; s2]
  | FirstBlockRaises _ => []
  | SecondBlockRaises _ => [s1]
  end.

(** The database a call leaves, and the exception it raises, if any. *)
Definition log_conversation (f : fault) (clk : clock) (st : store)
    (session_id user_message bot_response language : pystr)
    (confidence : float) (category : option pystr) (needs_human : bool)
  : store * option pystr :=
  (List.last (log_conversation_commits f clk st session_id user_message
                bot_response language confidence category needs_human) st,
   match f with
   | NoFault => None
   | FirstBlockRaises e | SecondBlockRaises e => Some e
   end).

(** *** [cleanup_old_logs] *)

(** The exceptions of Python itself that the logger can raise. *)
Inductive pyexn : Type :=
| OverflowError
| TypeError
| IndexError
| JSONDecodeError.

(** The three DELETE statements, for a cutoff. *)
Definition delete_older (cutoff_date : datetime) (st : store) : store :=
  let kept :=
    List.filter (fun c => negb (text_ltb (c_timestamp c) (isoformat cutoff_date)))
                (conversations st) in
  {| sessions :=
       filter (fun kv => fst kv ∈ List.map c_session_id kept) (sessions st);
     conversations := kept;
     conversations_seq := conversations_seq st;
     daily_stats :=
       filter (fun kv => text_ltb (fst kv)
                           (date_isoformat (ordinal cutoff_date)) = false)
              (daily_stats st) |}.

(** The database a call leaves, and the exception it raises, if any: the
    cutoff is computed before the database is opened, so a call that
    raises there changes nothing. *)
Definition cleanup_old_logs (clk : clock) (st : store) (days_to_keep : Z)
  : store * option pyexn :=
  match minus_days (python_now clk) days_to_keep with
  | Some cutoff_date => (delete_older cutoff_date st, None)
  | None => (st, Some OverflowError)
  end.

(** *** What a reader finds *)

(** The list the [languages_used] column of a session holds. *)
Definition session_languages (st : store) (session_id : pystr)
  : option (list pystr) :=
  match sessions st !! session_id with
  | Some row => json_loads_strings (languages_used row)
  | None => None
  end.

(** The turn with this id is in [conversations]. *)
Definition turn_recorded (st : store) (id : Z) : Prop :=
  exists c, In c (conversations st) /\ c_id c = id.

(** *** The states of the database a run of the program can produce *)

Inductive step : store -> store -> Prop :=
| step_first_block clk st sid um br lang conf cat nh :
    step st (log_session_and_turn clk st sid um br lang conf cat nh)
| step_second_block clk st lang cat conf nh :
    step st (_update_daily_stats clk st lang cat conf nh)
| step_cleanup clk st days :
    step st (fst (cleanup_old_logs clk st days)).

Inductive reachable : store -> Prop :=
| reach_init : reachable init_database
| reach_step st st' : reachable st -> step st st' -> reachable st'.


(** *** The read side *)

(** A value of a result row, as [sqlite3] hands it to Python. *)
Inductive sqlval : Type :=
| SNull
| SInt (n : Z)
| SReal (x : float)
| SText (s : pystr).

(** A computation that returns or raises. *)
Inductive pyresult (A : Type) : Type :=
| Returns (a : A)
| Raises (e : pyexn).
Arguments Returns {A} a.
Arguments Raises {A} e.

Definition bind {A B : Type} (m : pyresult A) (k : A -> pyresult B) : pyresult B :=
  match m with
  | Returns a => k a
  | Raises e => Raises e
  end.

(** [row[i]] on a result tuple. *)
Definition row_index (row : list sqlval) (i : nat) : pyresult sqlval :=
  match nth_error row i with
  | Some v => Returns v
  | None => Raises IndexError
  end.

(** [json.loads(v)] where an array of strings is stored: a value that is
    not text is a [TypeError]. *)
Definition json_loads (v : sqlval) : pyresult (list pystr) :=
  match v with
  | SText t =>
      match json_loads_strings t with
      | Some l => Returns l
      | None => Raises JSONDecodeError
      end
  | SNull | SInt _ | SReal _ => Raises TypeError
  end.

(** [COUNT(c.id)] over the conversations of a session. *)
Definition count_turns (st : store) (session_id : pystr) : Z :=
  Z.of_nat (length (List.filter (fun c => str_eqb (c_session_id c) session_id)
                                (conversations st))).

(** [cursor.fetchone()] for [SELECT s.*, COUNT(c.id) ... WHERE
    s.session_id = ? GROUP BY s.session_id]: the five columns of the
    session, then the count. *)
Definition select_session (st : store) (session_id : pystr)
  : option (list sqlval) :=
  match sessions st !! session_id with
  | None => None
  | Some r =>
      Some [ SText session_id; SText (created_at r); SText (updated_at r);
             SInt (message_count r); SText (languages_used r);
             SInt (count_turns st session_id) ]
  end.

(** The dict [get_session_info] returns. *)
Record session_info : Type := {
  si_session_id : sqlval;
  si_created_at : sqlval;
  si_updated_at : sqlval;
  si_message_count : sqlval;
  si_languages_used : list pystr;
  si_actual_message_count : sqlval
}.

(** [get_session_info]: the values of the dict are evaluated in the order
    they are written. *)
Definition get_session_info (st : store) (session_id : pystr)
  : pyresult (option session_info) :=
  match select_session st session_id with
  | None => Returns None
  | Some row =>
      bind (row_index row 0) (fun r0 =>
      bind (row_index row 1) (fun r1 =>
      bind (row_index row 2) (fun r2 =>
      bind (row_index row 4) (fun r4 =>
      bind (row_index row 5) (fun r5 =>
      bind (json_loads r5) (fun langs =>
      bind (row_index row 6) (fun r6 =>
      Returns (Some {| si_session_id := r0; si_created_at := r1;
                       si_updated_at := r2; si_message_count := r4;
                       si_languages_used := langs;
                       si_actual_message_count := r6 |}))))))))
  end.

(** [get_daily_stats]: the row of the date, its two breakdown columns
    read by [json.loads]. *)
Definition get_daily_stats (st : store) (date_str : pystr)
  : option daily_stat_row :=
  daily_stats st !! date_str.

End ConversationLogger.

(** ** BACKEND/main.py: the [/chat] route *)

Module Main.

Import LanguageProcessor ChatbotEngine ConversationLogger.

(** The request body. *)
Record ChatMessage : Type := {
  message : pystr;
  session_id : option pystr;
  language : option pystr
}.

(** The response body. *)
Record ChatResponse : Type := {
  response : pystr;
  detected_language : pystr;
  cr_session_id : pystr;
  confidence : float;
  needs_human : bool;
  suggested_contact : option pystr
}.

(** The exceptions that reach the [except Exception] of [chat]. *)
Inductive exn : Type :=
| Sqlite3Error (msg : pystr)
| ValidationError.

(** What the client gets: the response body, or the
    [HTTPException(status_code=500, detail="Chat processing error: ...")]
    raised for the exception caught. *)
Inductive http_result : Type :=
| Http200 (body : ChatResponse)
| Http500 (cause : exn).

(** The module-level objects: the engine's contexts and the database. *)
Record app : Type := {
  session_contexts : gmap pystr session_context;
  db : store
}.

(** What one request reads from outside: a fresh [uuid.uuid4()], the text
    of [datetime.now()], the clocks, and whether the database raises. *)
Record request_env : Type := {
  uuid4 : pystr;
  now_text : pystr;
  clk : clock;
  db_fault : fault
}.

(** [x] when it is truthy. *)
Definition given (x : option pystr) : option pystr :=
  match x with
  | Some (c :: cs) => Some (c :: cs)
  | Some [] | None => None
  end.

Section WithLib.
Variable L : PyLib.
Variable kb : knowledge_base.

(** [ChatResponse(...)] : [suggested_contact] is declared
    [Optional[str]], so the contact dict of a hand-off does not
    validate. *)
Definition make_response (r : reply) (detected_lang sid : pystr)
  : ChatResponse + exn :=
  match r_contact r with
  | Some _ => inr ValidationError
  | None =>
      inl {| response := r_response r;
             detected_language := detected_lang;
             cr_session_id := sid;
             confidence := r_confidence r;
             needs_human := r_needs_human r;
             suggested_contact := None |}
  end.

(** The language [chat] works with. *)
Definition chat_language (msg : ChatMessage) : pystr :=
  match given (language msg) with
  | Some l => l
  | None => detect_language L (message msg)
  end.

(** The session id [chat] works with. *)
Definition chat_session (env : request_env) (msg : ChatMessage) : pystr :=
  match given (session_id msg) with
  | Some sid => sid
  | None => uuid4 env
  end.

(** The result of [process_message] inside [chat]. *)
Definition chat_reply (env : request_env) (a : app) (msg : ChatMessage)
  : reply * gmap pystr session_context :=
  process_message L kb (now_text env) (session_contexts a) (message msg)
                  (chat_session env msg) (chat_language msg).

(** [chat] *)
Definition chat (env : request_env) (a : app) (msg : ChatMessage)
  : http_result * app :=
  let sid := chat_session env msg in
  let detected_lang := chat_language msg in
  let '(response_data, contexts) := chat_reply env a msg in
  let '(db', raised) :=
    log_conversation (db_fault env) (clk env) (db a) sid (message msg)
                     (r_response response_data) detected_lang
                     (r_confidence response_data) None false in
  let a' := {| session_contexts := contexts; db := db' |} in
  match raised with
  | Some e => (Http500 (Sqlite3Error e), a')
  | None =>
      match make_response response_data detected_lang sid with
      | inl body => (Http200 body, a')
      | inr e => (Http500 e, a')
      end
  end.

End WithLib.


(** What the [/sessions/{session_id}] route gives the client. *)
Inductive session_response : Type :=
| SessionJson (info : session_info)
| SessionHttpError (status : Z).

(** [get_session_info] of main.py: the [HTTPException(404)] is raised
    inside the [try], and [except Exception] turns whatever is raised
    there into [HTTPException(500)]. *)
Definition get_session_info_route (st : store) (session_id : pystr)
  : session_response :=
  match ConversationLogger.get_session_info st session_id with
  | Returns (Some info) => SessionJson info
  | Returns None => SessionHttpError 500
  | Raises _ => SessionHttpError 500
  end.

End Main.

(** ** Notions used to state the properties *)

Module Statements.

Import LanguageProcessor ChatbotEngine ConversationLogger Main.

(** The codes [detect_language] can return. *)
Definition supported_codes : list pystr := List.map fst language_map.

(** The codes [detect_language] does not send to the default. *)
Definition indic_codes : list pystr :=
  [u "hi"; u "gu"; u "mr"; u "raj"; u "ne"; u "bn"; u "ur"; u "pa"].

(** The statistical detector does not take [text] for one of them. *)
Definition no_indic_guess (L : PyLib) (text : pystr) : Prop :=
  forall g, langdetect L text = Guess g -> ~ In g indic_codes.

(** A greeting keyword occurs in the lower-cased message. *)
Definition greets (L : PyLib) (kb : knowledge_base) (message : pystr) : Prop :=
  exists keyword, In keyword (keywords (greetings kb))
                  /\ contains keyword (py_lower L message) = true.

(** What the scoring loops keep true of [(best_match, best_score)]:
    nothing matched yet and the score is 0.0, or the score is above 0.6
    and at most 1.0. *)
Definition scored (best : option pystr * float) : Prop :=
  (fst best = None /\ snd best = f0_0)
  \/ ((f0_6 < snd best)%Qc /\ (snd best <= f1_0)%Qc).

(** [keyword] is short enough, next to a message of [n] characters, for
    its ratio to stay at or below 0.8. *)
Definition short_keyword (n : Z) (keyword : pystr) : bool :=
  (0 <? len keyword + n)
  && (5 * (2 * Z.min (len keyword) n) <=? 4 * (len keyword + n)).

Definition fee_question : pystr := u "What is the fee deadline?".

(** The arguments of one [log_conversation] call and the clocks at it. *)
Record turn : Type := {
  t_clock : clock;
  t_session_id : pystr;
  t_user_message : pystr;
  t_bot_response : pystr;
  t_language : pystr;
  t_confidence : float;
  t_category : option pystr;
  t_needs_human : bool
}.

(** The database after a call in which nothing raises. *)
Definition log_turn (st : store) (t : turn) : store :=
  fst (log_conversation NoFault (t_clock t) st (t_session_id t)
         (t_user_message t) (t_bot_response t) (t_language t)
         (t_confidence t) (t_category t) (t_needs_human t)).

(** The database after a sequence of such calls. *)
Definition log_turns (st : store) (ts : list turn) : store :=
  fold_left log_turn ts st.

(** [date.today().isoformat()] at a call. *)
Definition today (t : turn) : pystr :=
  date_isoformat (ordinal (python_now (t_clock t))).

(** c1 + ... + cN *)
Definition confidence_sum (ts : list turn) : float :=
  fold_right Qcplus f0_0 (List.map t_confidence ts).

(** How far the average kept for [n] turns, times [n], can be from the
    sum of their confidences: n * n / 2 ^ 50. *)
Definition tolerance (n : Z) : Q :=
  (inject_Z (n * n) * (1 # 1125899906842624))%Q.

(** The states one call commits, for the arguments of [t]. *)
Definition commits_of (f : fault) (st : store) (t : turn) : list store :=
  log_conversation_commits f (t_clock t) st (t_session_id t)
    (t_user_message t) (t_bot_response t) (t_language t)
    (t_confidence t) (t_category t) (t_needs_human t).

(** The three writes of a call show up together: in every state the call
    commits, the turn is in [conversations] exactly when the daily row
    has been written. *)
Definition one_transaction (f : fault) (st : store) (t : turn) : Prop :=
  forall s, In s (commits_of f st t) ->
    (conversations s <> conversations st <-> daily_stats s <> daily_stats st).

(** The message of a greeting is classified as category "greeting". *)
Definition greeting_is_greeting (L : PyLib) (kb : knowledge_base)
    (message language : pystr) : Prop :=
  greets L kb message ->
  _find_best_match L kb message language = (u "greeting", f0_9).

(** A text with fewer than three non-whitespace characters gets the
    default code. *)
Definition short_text_is_default (L : PyLib) (text : pystr) : Prop :=
  non_space_count text < 3 -> detect_language L text = default_language.

(** The answer computed reaches the client although logging raised. *)
Definition answer_survives_logging_failure (L : PyLib) (kb : knowledge_base)
    (env : request_env) (a : app) (msg : ChatMessage) : Prop :=
  db_fault env <> NoFault ->
  exists body, fst (chat L kb env a msg) = Http200 body
               /\ response body = r_response (fst (chat_reply L kb env a msg)).

(** The cutoff of a cleanup run at [clk], when computing it does not
    raise. *)
Definition cutoff (clk : clock) (days_to_keep : Z) : option datetime :=
  minus_days (python_now clk) days_to_keep.


(** The score one keyword gives a lower-cased message: 0.8 when it is a
    substring, its ratio when that is above 0.6, the larger of the two
    when both hold, and 0.0 when neither does. *)
Definition keyword_signal (L : PyLib) (message_lower keyword : pystr) : float :=
  let sub := if contains keyword message_lower then f0_8 else f0_0 in
  let similarity := seq_ratio L keyword message_lower in
  if fgt similarity f0_6 && fgt similarity sub then similarity else sub.

(** Every keyword of the categories, with the name of its category, in
    the order [_find_best_match] visits them. *)
Definition all_keywords (kb : knowledge_base) : list (pystr * pystr) :=
  flat_map (fun entry => List.map (fun k => (fst entry, k))
                                  (keywords (snd entry)))
           (categories kb).

(** One pass of the inner loop of [_find_best_match], on a keyword paired
    with the name of its category. *)
Definition visit (L : PyLib) (ml : pystr) (best : option pystr * float)
    (ck : pystr * pystr) : option pystr * float :=
  score_keyword L ml (fst ck) best (snd ck).

(** What holds of [(best_match, best_score)] after the keywords [seen]:
    nothing has scored and the pair is the initial one, or the pair is
    the category and the signal of the first keyword of [seen] that has
    the largest signal. *)
Definition first_maximum (L : PyLib) (ml : pystr)
    (seen : list (pystr * pystr)) (best : option pystr * float) : Prop :=
  (best = (None, f0_0)
   /\ Forall (fun ck => keyword_signal L ml (snd ck) = f0_0) seen)
  \/ (exists before category keyword after,
        seen = before ++ (category, keyword) :: after
        /\ best = (Some category, keyword_signal L ml keyword)
        /\ (f0_0 < keyword_signal L ml keyword)%Qc
        /\ Forall (fun ck => (keyword_signal L ml (snd ck)
                              < keyword_signal L ml keyword)%Qc) before
        /\ Forall (fun ck => (keyword_signal L ml (snd ck)
                              <= keyword_signal L ml keyword)%Qc) after).

(** No greeting keyword occurs in the lower-cased message. *)
Definition no_greeting (L : PyLib) (kb : knowledge_base) (message : pystr) : Prop :=
  existsb (fun keyword => contains keyword (py_lower L message))
          (keywords (greetings kb)) = false.

(** The text has a character of the Devanagari block. *)
Definition has_devanagari (text : pystr) : bool :=
  existsb (fun c => (2304 <=? c)%N && (c <=? 2431)%N) text.

(** The text has a character of the Gujarati block. *)
Definition has_gujarati (text : pystr) : bool :=
  existsb (fun c => (2688 <=? c)%N && (c <=? 2815)%N) text.

(** Every conversation row belongs to a session that exists. *)
Definition sessions_exist (st : store) : Prop :=
  forall c, In c (conversations st) ->
            is_Some (sessions st !! c_session_id c).

(** The ids of the conversation rows grow along the table and none is
    above the AUTOINCREMENT counter. *)
Fixpoint ids_increase (bound : Z) (rows : list conversation_row) : Prop :=
  match rows with
  | [] => True
  | c :: rows' =>
      c_id c <= bound
      /\ Forall (fun c' => c_id c < c_id c') rows'
      /\ ids_increase bound rows'
  end.

(** Number of turns of the list with a property. *)
Definition count_where (p : turn -> bool) (ts : list turn) : Z :=
  Z.of_nat (length (List.filter p ts)).


(** The application after a sequence of [/chat] requests, each with what
    it reads from outside. *)
Definition serve (L : PyLib) (kb : knowledge_base) (a : app)
    (requests : list (request_env * ChatMessage)) : app :=
  fold_left (fun a rq => snd (chat L kb (fst rq) a (snd rq))) requests a.

(** The turn was logged on the date [d]. *)
Definition on_day (d : pystr) (t : turn) : bool := str_eqb (today t) d.

(** The turn belongs to the session. *)
Definition of_session (sid : pystr) (t : turn) : bool :=
  str_eqb (t_session_id t) sid.

(** The turn is counted under the category [c]. *)
Definition counted_under (c : pystr) (t : turn) : bool :=
  match truthy (t_category t) with
  | Some c' => str_eqb c' c
  | None => false
  end.

(** The arguments of one [process_message] call and the text of the
    clock at it. *)
Record call : Type := {
  k_now : pystr;
  k_message : pystr;
  k_session_id : pystr;
  k_language : pystr
}.

(** The contexts after a sequence of [process_message] calls. *)
Definition converse (L : PyLib) (kb : knowledge_base)
    (contexts : gmap pystr session_context) (calls : list call)
  : gmap pystr session_context :=
  fold_left (fun c k => snd (process_message L kb (k_now k) c (k_message k)
                               (k_session_id k) (k_language k)))
            calls contexts.

(** The calls of a session. *)
Definition calls_of (sid : pystr) (calls : list call) : list call :=
  List.filter (fun k => str_eqb (k_session_id k) sid) calls.



End Statements.

(** ** A concrete library, to run the program on examples *)

Module Sample.

Import ConversationLogger Main Statements.

(** Word characters among the Basic Latin ones. *)
Definition ascii_word (c : N) : bool :=
  ((48 <=? c) && (c <=? 57) || (65 <=? c) && (c <=? 90)
   || (97 <=? c) && (c <=? 122) || (c =? 95))%N.

(** The ratio of two strings without a common character: 1.0 when both
    are empty and 0.0 otherwise. *)
Definition ratio_disjoint (a b : pystr) : float :=
  match a, b with
  | [], [] => f1_0
  | _, _ => f0_0
  end.

(** A detector that guesses English for Basic Latin text and finds no
    features in anything else. *)
Definition detect_latin (text : pystr) : detect_outcome :=
  if is_ascii text then Guess (u "en") else LangDetectException.

Definition lib : PyLib :=
  {| py_lower := ascii_lower;
     re_word := ascii_word;
     seq_ratio := ratio_disjoint;
     langdetect := detect_latin |}.

Definition at_time (ord h m s : Z) : datetime :=
  {| ordinal := ord; hour := h; minute := m; second := s; microsecond := 0 |}.

(** 2024-01-31 15:00:00 on both clocks. *)
Definition jan31_3pm : clock :=
  {| sqlite_now := at_time 738916 15 0 0;
     python_now := at_time 738916 15 0 0 |}.

(** 2024-03-01 10:00:00 on both clocks. *)
Definition mar01_10am : clock :=
  {| sqlite_now := at_time 738946 10 0 0;
     python_now := at_time 738946 10 0 0 |}.

(** A first message of session s1, in English, on 2024-01-31. *)
Definition first_turn : turn :=
  {| t_clock := jan31_3pm; t_session_id := u "s1";
     t_user_message := u "What is the fee deadline?";
     t_bot_response := u "Fee payment deadline";
     t_language := u "en"; t_confidence := f0_8;
     t_category := None; t_needs_human := false |}.

(** A second message of s1 the same day, sent with language code e. *)
Definition second_turn : turn :=
  {| t_clock := jan31_3pm; t_session_id := u "s1";
     t_user_message := u "xyz"; t_bot_response := u "I'm not sure";
     t_language := u "e"; t_confidence := f0_0;
     t_category := None; t_needs_human := false |}.

(** A request without session id or language, and the world at it. *)
Definition fee_request : ChatMessage :=
  {| message := fee_question; session_id := None; language := None |}.

Definition empty_app : app :=
  {| session_contexts := ∅; db := init_database |}.

Definition env_with (f : fault) : request_env :=
  {| uuid4 := u "0b0e7a52-6c1d-4a8e-9b57-3f2f1c6d9a10";
     now_text := u "2024-01-31 15:00:00.000000";
     clk := jan31_3pm; db_fault := f |}.

End Sample.

(** * Properties *)

Import LanguageProcessor ChatbotEngine ConversationLogger Main Statements.

(** ** Floats, strings, dicts *)

Lemma flt_true (x y : float) : flt x y = true <-> (x < y)%Qc.
Proof.
  unfold flt. rewrite Qclt_alt. destruct (x ?= y)%Qc; split; congruence.
Qed.

Lemma flt_false (x y : float) : flt x y = false <-> (y <= x)%Qc.
Proof.
  rewrite Qcle_ngt, <- flt_true. destruct (flt x y); split; congruence.
Qed.

Lemma str_eqb_eq (a b : pystr) : str_eqb a b = true <-> a = b.
Proof. unfold str_eqb. apply bool_decide_eq_true. Qed.

Lemma str_eqb_refl (a : pystr) : str_eqb a a = true.
Proof. now apply str_eqb_eq. Qed.

Lemma str_eqb_neq (a b : pystr) : str_eqb a b = false <-> a <> b.
Proof. unfold str_eqb. apply bool_decide_eq_false. Qed.

Lemma ratio_at_most_four_fifths (r : float) (n m : Z) :
  0 < n -> 5 * m <= 4 * n ->
  (r * of_int n <= of_int m)%Qc -> (r <= f0_8)%Qc.
Proof.
  intros Hn Hm H.
  apply (Qcmult_lt_0_le_reg_r _ _ (of_int n)).
  - unfold Qclt, of_int. cbn [this Q2Qc]. rewrite !Qred_correct.
    unfold Qlt. cbn. lia.
  - eapply Qcle_trans; [exact H|].
    unfold Qcle, f0_8, of_int. cbn [Qcmult this Q2Qc]. rewrite !Qred_correct.
    unfold Qle. cbn. lia.
Qed.

(** ** language_processor.py *)

Lemma language_map_supported d l :
  dict_get language_map d = Some l -> In l supported_codes.
Proof.
  unfold language_map. cbn [dict_get].
  repeat (destruct (str_eqb _ d);
          [ intros [= <-]; vm_compute; tauto | ]).
  discriminate.
Qed.

Lemma map_similar_supported d : In (_map_similar_language d) supported_codes.
Proof.
  unfold _map_similar_language, language_mappings. cbn [dict_get].
  repeat (destruct (str_eqb _ d); [ vm_compute; tauto | ]).
  vm_compute; tauto.
Qed.

Lemma pattern_scan_supported L text l :
  _pattern_based_detection L text = Some l -> In l supported_codes.
Proof.
  unfold _pattern_based_detection, language_patterns. cbn [pattern_scan].
  repeat (destruct (existsb _ _);
          [ intros [= <-]; vm_compute; tauto | ]).
  discriminate.
Qed.

Lemma other_guess_is_default (d : pystr) :
  ~ In d indic_codes ->
  match dict_get language_map d with
  | Some l => l
  | None => _map_similar_language d
  end = u "en".
Proof.
  intros Hd. unfold _map_similar_language, language_map, language_mappings.
  cbn [dict_get].
  repeat (match goal with
          | |- context [str_eqb ?k d] =>
              destruct (str_eqb k d) eqn:E;
              [ try reflexivity;
                exfalso; apply Hd; apply str_eqb_eq in E; subst d;
                vm_compute; tauto
              | clear E ]
          end).
  reflexivity.
Qed.

(** C7, as the code has it: [detect_language] returns one of the five
    supported codes on every text; it returns the default code whenever the
    text, stripped of leading and trailing whitespace, is shorter than three
    characters; and when no pattern matches and the statistical detector
    raises [LangDetectException], the exception is caught and the default
    code returned. *)
Theorem detect_language_total (L : PyLib) (text : pystr) :
  In (detect_language L text) supported_codes
  /\ (len (strip text) < 3 -> detect_language L text = default_language)
  /\ (_pattern_based_detection L text = None ->
      langdetect L text = LangDetectException ->
      detect_language L text = default_language).
Proof.
  unfold detect_language. repeat split.
  - destruct (str_eqb text [] || (len (strip text) <? 3)).
    + vm_compute; tauto.
    + destruct (_pattern_based_detection L text) eqn:Hp.
      * eapply pattern_scan_supported; eauto.
      * destruct (langdetect L text) as [d|].
        -- destruct (dict_get language_map d) eqn:Hd.
           ++ eapply language_map_supported; eauto.
           ++ apply map_similar_supported.
        -- vm_compute; tauto.
  - intros Hlen. apply Z.ltb_lt in Hlen. rewrite Hlen, orb_true_r. reflexivity.
  - intros -> ->. destruct (_ || _); reflexivity.
Qed.

(** The three short texts the specification names. *)
Lemma detect_language_total_witness :
  detect_language Sample.lib (u "") = default_language
  /\ detect_language Sample.lib (u " ") = default_language
  /\ detect_language Sample.lib (u "ab") = default_language.
Proof.
  split; [|split].
  - apply (proj1 (proj2 (detect_language_total Sample.lib (u "")))).
    vm_compute. reflexivity.
  - apply (proj1 (proj2 (detect_language_total Sample.lib (u " ")))).
    vm_compute. reflexivity.
  - apply (proj1 (proj2 (detect_language_total Sample.lib (u "ab")))).
    vm_compute. reflexivity.
Defined.

(** C7, as the specification words it, fails: the text made of the two
    Devanagari letters KA and KHA with a space between them has two
    non-whitespace characters, its stripped length is three, the script
    pattern matches, and the code returned is "hi". *)
Lemma short_text_not_default :
  ~ short_text_is_default Sample.lib [2325%N; 32%N; 2326%N].
Proof.
  intros H. unfold short_text_is_default in H.
  assert (Hc : non_space_count [2325%N; 32%N; 2326%N] < 3)
    by (vm_compute; reflexivity).
  specialize (H Hc). vm_compute in H. discriminate H.
Qed.

(** ** The sample library meets what the theorems assume of a library *)

Lemma sample_lower_on_ascii : lower_on_ascii Sample.lib.
Proof. intros s _. reflexivity. Qed.

Lemma sample_ratio_in_unit_interval : ratio_in_unit_interval Sample.lib.
Proof.
  intros a b. cbn. unfold Sample.ratio_disjoint.
  destruct a, b; split; discriminate.
Qed.

Lemma sample_ratio_bounded_by_shorter : ratio_bounded_by_shorter Sample.lib.
Proof.
  intros a b Hlen. cbn. unfold Sample.ratio_disjoint.
  assert (H0 : forall n, 0 <= n -> (f0_0 * of_int (len a + len b) <= of_int n)%Qc).
  { intros n Hn. unfold f0_0 at 1. rewrite Qcmult_0_l.
    unfold Qcle, of_int. cbn [this Q2Qc]. rewrite !Qred_correct.
    unfold Qle. cbn. lia. }
  destruct a as [|x a], b as [|y b]; [unfold len in Hlen; cbn in Hlen; lia | ..];
    apply H0; unfold len; lia.
Qed.

Lemma sample_no_indic_guess : no_indic_guess Sample.lib fee_question.
Proof.
  intros g Hg. vm_compute in Hg. injection Hg as <-.
  vm_compute. intuition discriminate.
Qed.

(** ** chatbot_engine.py *)

Section Engine.
Variable L : PyLib.
Variable kb : knowledge_base.

Lemma greets_existsb message :
  greets L kb message ->
  existsb (fun keyword => contains keyword (py_lower L message))
          (keywords (greetings kb)) = true.
Proof. intros (k & Hin & Hk). apply existsb_exists. eauto. Qed.

Lemma find_best_match_greeting message language :
  greets L kb message ->
  _find_best_match L kb message language = (u "greetings", f0_9).
Proof.
  intros H. unfold _find_best_match. now rewrite greets_existsb.
Qed.

Lemma process_message_reply now contexts message session_id language
    category confidence :
  _find_best_match L kb message language = (category, confidence) ->
  fst (process_message L kb now contexts message session_id language)
  = if flt confidence confidence_threshold
    then {| r_response := _get_fallback_response language;
            r_confidence := confidence; r_category := category;
            r_needs_human := true; r_contact := Some (kb_contact kb) |}
    else {| r_response := _get_response kb category language;
            r_confidence := confidence; r_category := category;
            r_needs_human := false; r_contact := None |}.
Proof.
  intros H. unfold process_message. rewrite H.
  destruct (flt confidence confidence_threshold); reflexivity.
Qed.

Hypothesis ratio_ok : ratio_in_unit_interval L.

Lemma score_keyword_scored message_lower category best keyword :
  scored best -> scored (score_keyword L message_lower category best keyword).
Proof.
  intros Hb. unfold score_keyword.
  set (best1 := if contains keyword message_lower then _ else best).
  assert (H1 : scored best1).
  { subst best1. destruct (contains keyword message_lower); [|exact Hb].
    destruct (fgt f0_8 (snd best)); [|exact Hb].
    right. cbn. split; reflexivity || discriminate. }
  destruct (fgt (seq_ratio L keyword message_lower) f0_6) eqn:Hs; cbn [andb];
    [|exact H1].
  destruct (fgt _ (snd best1)); [|exact H1].
  right. cbn. split.
  - now apply flt_true in Hs.
  - apply ratio_ok.
Qed.

Lemma score_category_scored message_lower best entry :
  scored best -> scored (score_category L message_lower best entry).
Proof.
  unfold score_category. generalize (keywords (snd entry)). intros ks.
  revert best. induction ks as [|k ks IH]; intros best Hb; cbn; [exact Hb|].
  apply IH. now apply score_keyword_scored.
Qed.

Lemma scoring_scored message_lower cats best :
  scored best -> scored (fold_left (score_category L message_lower) cats best).
Proof.
  revert best. induction cats as [|c cats IH]; intros best Hb; cbn; [exact Hb|].
  apply IH. now apply score_category_scored.
Qed.

Lemma find_best_match_cases message language :
  let r := _find_best_match L kb message language in
  (f0_0 <= snd r)%Qc /\ (snd r <= f1_0)%Qc
  /\ ((snd r < f0_6)%Qc -> r = (fallback_category, f0_0)).
Proof.
  unfold _find_best_match.
  destruct (existsb _ _).
  - cbn. repeat split; discriminate.
  - set (best := fold_left _ _ _).
    assert (Hs : scored best) by (apply scoring_scored; left; now split).
    cbn. destruct Hs as [[Hn Hz]|[Hlo Hhi]].
    + rewrite Hn, Hz. repeat split; discriminate.
    + repeat split.
      * apply Qclt_le_weak. eapply Qcle_lt_trans; [|exact Hlo]. discriminate.
      * exact Hhi.
      * intros Hlt. exfalso. eapply Qclt_not_le; [exact Hlt|].
        now apply Qclt_le_weak.
Qed.

End Engine.

(** The text [_get_fallback_response] returns, language by language. *)
Lemma fallback_response_texts (language : pystr) :
  (language = u "hi" ->
   _get_fallback_response language
   = u "मुझे इसके बारे में यकीन नहीं है। कृपया व्यावसायिक घंटों (सुबह 9 बजे - शाम 5 बजे) के दौरान हमारे कार्यालय से +91-XXX-XXX-XXXX पर संपर्क करें या सहायता के लिए info@college.edu पर ईमेल करें।")
  /\ (language = u "gu" ->
      _get_fallback_response language
      = u "મને તેના વિશે ખાતરી નથી. કૃપા કરીને બિઝનેસ અવર્સ (સવારે 9 - સાંજે 5) દરમિયાન અમારી ઓફિસનો સંપર્ક કરો +91-XXX-XXX-XXXX અથવા સહાયતા માટે info@college.edu પર ઈમેલ કરો.")
  /\ (language = u "mr" ->
      _get_fallback_response language
      = u "मला त्याबद्दल खात्री नाही. कृपया कार्यालयीन वेळेत (सकाळी 9 - संध्याकाळी 5) आमच्या कार्यालयाशी +91-XXX-XXX-XXXX वर संपर्क साधा किंवा मदतीसाठी info@college.edu वर ईमेल करा.")
  /\ (language = u "raj" ->
      _get_fallback_response language
      = u "मने इसके बारे में पक्का नहीं है। कृपया व्यावसायिक समय (सवेरे 9 - सांझ 5) में हमारे कार्यालय सूं +91-XXX-XXX-XXXX पे संपर्क करो या मदद रे लिए info@college.edu पे ईमेल करो।")
  /\ (~ In language [u "hi"; u "gu"; u "mr"; u "raj"] ->
      _get_fallback_response language
      = u "I'm not sure about that. Please contact our office during business hours (9 AM - 5 PM) at +91-XXX-XXX-XXXX or email info@college.edu for assistance.").
Proof.
  split; [intros ->; vm_compute; reflexivity|].
  split; [intros ->; vm_compute; reflexivity|].
  split; [intros ->; vm_compute; reflexivity|].
  split; [intros ->; vm_compute; reflexivity|].
  intros Hn. unfold _get_fallback_response, fallback_responses.
  cbn [dict_get]. rewrite !str_eqb_refl.
  destruct (str_eqb (u "en") language); [reflexivity|].
  destruct (str_eqb (u "hi") language) eqn:E1;
    [apply str_eqb_eq in E1; exfalso; apply Hn; rewrite <- E1; cbn; tauto|].
  destruct (str_eqb (u "gu") language) eqn:E2;
    [apply str_eqb_eq in E2; exfalso; apply Hn; rewrite <- E2; cbn; tauto|].
  destruct (str_eqb (u "mr") language) eqn:E3;
    [apply str_eqb_eq in E3; exfalso; apply Hn; rewrite <- E3; cbn; tauto|].
  destruct (str_eqb (u "raj") language) eqn:E4;
    [apply str_eqb_eq in E4; exfalso; apply Hn; rewrite <- E4; cbn; tauto|].
  reflexivity.
Qed.

(** C3: whatever the message, the confidence [process_message] returns lies
    in [0, 1]; and when it is below the threshold 0.6 the reply has
    [needs_human] set, the category "unknown", as response the "contact
    our office" text of the language (the Hindi, Gujarati, Marathi or
    Rajasthani one for those codes, the English one for every other code),
    and the contact dict of the knowledge base attached: the dict under
    its key "contact", which for the built-in knowledge base is the office
    hours, phone, email and address, and an empty dict when the knowledge
    base has no such key. *)
Theorem low_confidence_hands_off (L : PyLib) (kb : knowledge_base)
    (now : pystr) (contexts : gmap pystr session_context)
    (message session_id language : pystr) :
  ratio_in_unit_interval L ->
  let r := fst (process_message L kb now contexts message session_id language) in
  (f0_0 <= r_confidence r)%Qc /\ (r_confidence r <= f1_0)%Qc
  /\ ((r_confidence r < f0_6)%Qc ->
      r_needs_human r = true
      /\ r_category r = u "unknown"
      /\ (language = u "hi" ->
          r_response r
          = u "मुझे इसके बारे में यकीन नहीं है। कृपया व्यावसायिक घंटों (सुबह 9 बजे - शाम 5 बजे) के दौरान हमारे कार्यालय से +91-XXX-XXX-XXXX पर संपर्क करें या सहायता के लिए info@college.edu पर ईमेल करें।")
      /\ (language = u "gu" ->
          r_response r
          = u "મને તેના વિશે ખાતરી નથી. કૃપા કરીને બિઝનેસ અવર્સ (સવારે 9 - સાંજે 5) દરમિયાન અમારી ઓફિસનો સંપર્ક કરો +91-XXX-XXX-XXXX અથવા સહાયતા માટે info@college.edu પર ઈમેલ કરો.")
      /\ (language = u "mr" ->
          r_response r
          = u "मला त्याबद्दल खात्री नाही. कृपया कार्यालयीन वेळेत (सकाळी 9 - संध्याकाळी 5) आमच्या कार्यालयाशी +91-XXX-XXX-XXXX वर संपर्क साधा किंवा मदतीसाठी info@college.edu वर ईमेल करा.")
      /\ (language = u "raj" ->
          r_response r
          = u "मने इसके बारे में पक्का नहीं है। कृपया व्यावसायिक समय (सवेरे 9 - सांझ 5) में हमारे कार्यालय सूं +91-XXX-XXX-XXXX पे संपर्क करो या मदद रे लिए info@college.edu पे ईमेल करो।")
      /\ (~ In language [u "hi"; u "gu"; u "mr"; u "raj"] ->
          r_response r
          = u "I'm not sure about that. Please contact our office during business hours (9 AM - 5 PM) at +91-XXX-XXX-XXXX or email info@college.edu for assistance.")
      /\ (forall c, contact kb = Some c -> r_contact r = Some c)
      /\ (contact kb = None -> r_contact r = Some [])
      /\ (kb = default_knowledge_base ->
          r_contact r
          = Some [ (u "office_hours", u "9:00 AM - 5:00 PM, Monday to Friday");
                   (u "phone", u "+91-XXX-XXX-XXXX");
                   (u "email", u "info@college.edu");
                   (u "address", u "College Campus, City, State") ])).
Proof.
  intros HL. cbv zeta.
  pose proof (find_best_match_cases L kb HL message language) as H.
  destruct (_find_best_match L kb message language) as [category confidence] eqn:E.
  rewrite (process_message_reply L kb _ _ _ _ _ _ _ E).
  cbn in H. destruct H as (H0 & H1 & Hlow).
  change f0_6 with confidence_threshold.
  destruct (flt confidence confidence_threshold) eqn:Hc;
    cbn [r_confidence r_needs_human r_category r_response r_contact].
  - split; [assumption|]. split; [assumption|]. intros _.
    apply flt_true in Hc. specialize (Hlow Hc).
    destruct (fallback_response_texts language) as (Hhi & Hgu & Hmr & Hraj & Hen).
    split; [reflexivity|]. split; [now inversion Hlow|].
    split; [exact Hhi|]. split; [exact Hgu|]. split; [exact Hmr|].
    split; [exact Hraj|]. split; [exact Hen|].
    unfold kb_contact. split; [intros c ->; reflexivity|].
    split; [intros ->; reflexivity|]. intros ->. reflexivity.
  - split; [assumption|]. split; [assumption|].
    intros Hlt. exfalso. apply flt_false in Hc.
    eapply Qclt_not_le; eauto.
Qed.

Lemma low_confidence_hands_off_witness :
  ratio_in_unit_interval Sample.lib
  /\ let r := fst (process_message Sample.lib default_knowledge_base
                     (u "2024-01-31 15:00:00") ∅
                     (u "xyz123 random gibberish") (u "s1") (u "en")) in
     (r_confidence r < f0_6)%Qc
     /\ r_needs_human r = true
     /\ r_category r = u "unknown"
     /\ r_response r
        = u "I'm not sure about that. Please contact our office during business hours (9 AM - 5 PM) at +91-XXX-XXX-XXXX or email info@college.edu for assistance."
     /\ r_contact r
        = Some [ (u "office_hours", u "9:00 AM - 5:00 PM, Monday to Friday");
                 (u "phone", u "+91-XXX-XXX-XXXX");
                 (u "email", u "info@college.edu");
                 (u "address", u "College Campus, City, State") ].
Proof.
  split; [exact sample_ratio_in_unit_interval|]. cbv zeta.
  assert (Hlow : (r_confidence
                    (fst (process_message Sample.lib default_knowledge_base
                            (u "2024-01-31 15:00:00") ∅
                            (u "xyz123 random gibberish") (u "s1") (u "en")))
                  < f0_6)%Qc) by (vm_compute; reflexivity).
  split; [exact Hlow|].
  destruct (proj2 (proj2 (low_confidence_hands_off Sample.lib
                            default_knowledge_base (u "2024-01-31 15:00:00") ∅
                            (u "xyz123 random gibberish") (u "s1") (u "en")
                            sample_ratio_in_unit_interval)) Hlow)
    as (Hh & Hcat & _ & _ & _ & _ & Hen & _ & _ & Hc).
  split; [exact Hh|]. split; [exact Hcat|]. split.
  - apply Hen. vm_compute. intuition discriminate.
  - apply Hc. reflexivity.
Defined.

(** C4, as the code has it: a message whose lower-cased text contains a
    greeting keyword is classified as category "greetings" with confidence
    0.9, whatever else it contains; no category is scored. *)
Theorem greeting_short_circuit (L : PyLib) (kb : knowledge_base)
    (now : pystr) (contexts : gmap pystr session_context)
    (message session_id language : pystr) :
  greets L kb message ->
  _find_best_match L kb message language = (u "greetings", f0_9)
  /\ let r := fst (process_message L kb now contexts message session_id language) in
     r_category r = u "greetings" /\ r_confidence r = f0_9.
Proof.
  intros H. split; [now apply find_best_match_greeting|]. cbv zeta.
  rewrite (process_message_reply L kb _ _ _ _ _ _ _
             (find_best_match_greeting L kb _ _ H)).
  change (flt f0_9 confidence_threshold) with false.
  split; reflexivity.
Qed.

Lemma hello_fee_greets :
  greets Sample.lib default_knowledge_base (u "Hello, what is the fee?").
Proof.
  exists (u "hello"). split; vm_compute; [tauto | reflexivity].
Qed.

Lemma greeting_short_circuit_witness :
  greets Sample.lib default_knowledge_base (u "Hello, what is the fee?")
  /\ _find_best_match Sample.lib default_knowledge_base
       (u "Hello, what is the fee?") (u "en") = (u "greetings", f0_9).
Proof.
  split; [exact hello_fee_greets|].
  apply (greeting_short_circuit Sample.lib default_knowledge_base
           (u "2024-01-31 15:00:00") ∅ (u "Hello, what is the fee?")
           (u "s1") (u "en") hello_fee_greets).
Defined.

(** C4, as the specification words it, fails: the category returned for
    "Hello, what is the fee?" is "greetings", not "greeting". *)
Lemma greeting_category_is_plural :
  ~ greeting_is_greeting Sample.lib default_knowledge_base
      (u "Hello, what is the fee?") (u "en").
Proof.
  intros H. specialize (H hello_fee_greets).
  rewrite (find_best_match_greeting _ _ _ _ hello_fee_greets) in H.
  apply (f_equal fst) in H. vm_compute in H. discriminate H.
Qed.

(** *** The fee-deadline example *)

Section Fees.
Variable L : PyLib.
Hypothesis ratio_ok : ratio_bounded_by_shorter L.

Lemma short_keyword_ratio ml keyword :
  short_keyword (len ml) keyword = true ->
  fgt (seq_ratio L keyword ml) f0_8 = false.
Proof.
  unfold short_keyword. intros H. apply andb_true_iff in H as [H0 H1].
  apply Z.ltb_lt in H0. apply Z.leb_le in H1.
  unfold fgt. apply flt_false.
  eapply ratio_at_most_four_fifths; [exact H0| exact H1 |].
  now apply ratio_ok.
Qed.

Lemma score_keyword_keep ml category best keyword :
  short_keyword (len ml) keyword = true ->
  snd best = f0_8 ->
  score_keyword L ml category best keyword = best.
Proof.
  intros Hk Hb. unfold score_keyword. rewrite Hb.
  change (fgt f0_8 f0_8) with false.
  destruct (contains keyword ml); rewrite Hb, (short_keyword_ratio _ _ Hk);
    now rewrite andb_false_r.
Qed.

Lemma score_keyword_hit ml category keyword :
  short_keyword (len ml) keyword = true ->
  contains keyword ml = true ->
  score_keyword L ml category (None, f0_0) keyword = (Some category, f0_8).
Proof.
  intros Hk Hc. unfold score_keyword. rewrite Hc. cbn [snd].
  change (fgt f0_8 f0_0) with true. cbn [snd].
  now rewrite (short_keyword_ratio _ _ Hk), andb_false_r.
Qed.

Lemma score_keywords_keep ml category ks best :
  forallb (short_keyword (len ml)) ks = true ->
  snd best = f0_8 ->
  fold_left (score_keyword L ml category) ks best = best.
Proof.
  induction ks as [|k ks IH]; cbn; [reflexivity|].
  intros H Hb. apply andb_true_iff in H as [Hk Hks].
  rewrite score_keyword_keep by assumption. now apply IH.
Qed.

Lemma score_categories_keep ml cats best :
  forallb (fun e => forallb (short_keyword (len ml)) (keywords (snd e))) cats = true ->
  snd best = f0_8 ->
  fold_left (score_category L ml) cats best = best.
Proof.
  induction cats as [|c cats IH]; cbn; [reflexivity|].
  intros H Hb. apply andb_true_iff in H as [Hc Hcs].
  unfold score_category at 2. rewrite score_keywords_keep by assumption.
  now apply IH.
Qed.

(** The first keyword of the first category is in the message, and no
    keyword is long enough to score above 0.8. *)
Lemma score_first_hit ml category keyword ks rs cats :
  short_keyword (len ml) keyword = true ->
  contains keyword ml = true ->
  forallb (short_keyword (len ml)) ks = true ->
  forallb (fun e => forallb (short_keyword (len ml)) (keywords (snd e))) cats = true ->
  fold_left (score_category L ml)
            ((category, {| keywords := keyword :: ks; responses := rs |}) :: cats)
            (None, f0_0)
  = (Some category, f0_8).
Proof.
  intros Hk Hc Hks Hcats. cbn [fold_left].
  unfold score_category at 2. cbn [fst snd keywords fold_left].
  rewrite score_keyword_hit by assumption.
  rewrite score_keywords_keep by (assumption || reflexivity).
  now rewrite score_categories_keep by (assumption || reflexivity).
Qed.

Hypothesis lower_ok : lower_on_ascii L.

Lemma default_categories_fees_first :
  categories default_knowledge_base
  = (u "fees", {| keywords := u "fee" :: tl (keywords fees_entry);
                  responses := responses fees_entry |})
      :: tl (categories default_knowledge_base).
Proof. vm_compute. reflexivity. Qed.

Lemma fee_question_best_match language :
  _find_best_match L default_knowledge_base fee_question language
  = (u "fees", f0_8).
Proof.
  unfold _find_best_match.
  rewrite lower_ok by (vm_compute; reflexivity).
  replace (existsb _ (keywords (greetings default_knowledge_base))) with false
    by (vm_compute; reflexivity).
  rewrite default_categories_fees_first.
  rewrite score_first_hit by (vm_compute; reflexivity).
  reflexivity.
Qed.

Hypothesis guess_ok : no_indic_guess L fee_question.

Lemma fee_question_language : detect_language L fee_question = u "en".
Proof.
  unfold detect_language.
  replace (str_eqb fee_question [] || _) with false by (vm_compute; reflexivity).
  replace (_pattern_based_detection L fee_question) with (@None pystr)
    by (vm_compute; reflexivity).
  destruct (langdetect L fee_question) as [d|] eqn:Hd; [|reflexivity].
  apply other_guess_is_default. now apply guess_ok.
Qed.

End Fees.

(** C6: for the message "What is the fee deadline?" sent without a language,
    [detect_language] returns "en"; the keyword "fee" is a substring of the
    lower-cased message; the category is "fees" with confidence 0.8, which
    is not below the threshold; the response is the English text of the
    fees entry and [needs_human] is false.  Assumed of the libraries: that
    [str.lower] lower-cases Basic Latin text letter by letter, that a ratio
    is at most 2 * min(len a, len b) / (len a + len b), and that the
    statistical detector does not take the sentence for one of the eight
    Indic codes. *)
Theorem fee_deadline_example (L : PyLib) (now : pystr)
    (contexts : gmap pystr session_context) (session_id : pystr) :
  lower_on_ascii L -> ratio_bounded_by_shorter L -> no_indic_guess L fee_question ->
  let language := detect_language L fee_question in
  let r := fst (process_message L default_knowledge_base now contexts
                                fee_question session_id language) in
  language = u "en"
  /\ contains (u "fee") (py_lower L fee_question) = true
  /\ r_category r = u "fees"
  /\ r_confidence r = f0_8
  /\ (confidence_threshold <= r_confidence r)%Qc
  /\ dict_get (responses fees_entry) (u "en") = Some (r_response r)
  /\ r_needs_human r = false.
Proof.
  intros Hlow Hratio Hguess. cbv zeta.
  rewrite fee_question_language by assumption.
  rewrite (process_message_reply L default_knowledge_base now contexts
             fee_question session_id (u "en") (u "fees") f0_8)
    by (now apply fee_question_best_match).
  change (flt f0_8 confidence_threshold) with false.
  cbn [r_category r_confidence r_response r_needs_human].
  rewrite Hlow by (vm_compute; reflexivity).
  split; [reflexivity|]. split; [vm_compute; reflexivity|].
  split; [reflexivity|]. split; [reflexivity|].
  split; [discriminate|]. split; [vm_compute; reflexivity|]. reflexivity.
Qed.

Lemma fee_deadline_example_witness :
  lower_on_ascii Sample.lib /\ ratio_bounded_by_shorter Sample.lib
  /\ no_indic_guess Sample.lib fee_question
  /\ detect_language Sample.lib fee_question = u "en".
Proof.
  split; [exact sample_lower_on_ascii|].
  split; [exact sample_ratio_bounded_by_shorter|].
  split; [exact sample_no_indic_guess|].
  exact (proj1 (fee_deadline_example Sample.lib (u "2024-01-31 15:00:00") ∅
                  (u "s1") sample_lower_on_ascii
                  sample_ratio_bounded_by_shorter sample_no_indic_guess)).
Defined.

(** ** conversation_logger.py *)

Lemma daily_stats_first_block clk st sid um br lang conf cat nh :
  daily_stats (log_session_and_turn clk st sid um br lang conf cat nh)
  = daily_stats st.
Proof. reflexivity. Qed.

Lemma conversations_second_block clk st lang cat conf nh :
  conversations (_update_daily_stats clk st lang cat conf nh) = conversations st
  /\ sessions (_update_daily_stats clk st lang cat conf nh) = sessions st.
Proof. split; reflexivity. Qed.

Lemma daily_stats_log_turn (st : store) (t : turn) :
  daily_stats (log_turn st t)
  = <[today t := next_daily_stat (daily_stats st !! today t) (t_language t)
                   (t_category t) (t_confidence t) (t_needs_human t)]>
      (daily_stats st).
Proof. reflexivity. Qed.

Lemma first_block_appends clk st sid um br lang conf cat nh :
  conversations (log_session_and_turn clk st sid um br lang conf cat nh)
  <> conversations st.
Proof.
  intros E. apply (f_equal (@length _)) in E.
  unfold log_session_and_turn, insert_conversation in E.
  cbn [conversations] in E. rewrite length_app in E. cbn [length] in E. lia.
Qed.

(** *** C1: the two transactions of a call *)

(** C1, as the code has it: a call commits twice.  In every state it
    commits the session row is upserted and the turn appended, both or
    neither; the daily row is written by the second commit only, so the
    first committed state holds the turn with the daily table as it was.
    When nothing raises, the second committed state holds all three
    writes and is the database the call leaves.  When the second block raises, the first commit is the only
    one and stays: the call raises and leaves the database with the turn
    recorded and the daily table as it was.  When the first block raises,
    nothing is committed and the database is left as it was. *)
Theorem log_conversation_two_transactions (f : fault) (st : store) (t : turn) :
  (forall s, In s (commits_of f st t) ->
     sessions s = upsert_session (sqlite_now (t_clock t)) (t_session_id t)
                                 (t_language t) (sessions st)
     /\ exists row, conversations s = conversations st ++ [row]
                    /\ c_id row = conversations_seq st + 1
                    /\ c_session_id row = t_session_id t
                    /\ c_confidence row = t_confidence t)
  /\ (forall s1 rest, commits_of f st t = s1 :: rest ->
        daily_stats s1 = daily_stats st)
  /\ (f = NoFault ->
      exists s1, commits_of f st t = [s1; log_turn st t]
                 /\ log_conversation f (t_clock t) st (t_session_id t)
                      (t_user_message t) (t_bot_response t) (t_language t)
                      (t_confidence t) (t_category t) (t_needs_human t)
                    = (log_turn st t, None)
                 /\ daily_stats (log_turn st t)
                    = <[today t := next_daily_stat (daily_stats st !! today t)
                                     (t_language t) (t_category t)
                                     (t_confidence t) (t_needs_human t)]>
                        (daily_stats st))
  /\ (forall e, f = SecondBlockRaises e ->
      exists s1 row,
        commits_of f st t = [s1]
        /\ log_conversation f (t_clock t) st (t_session_id t) (t_user_message t)
             (t_bot_response t) (t_language t) (t_confidence t) (t_category t)
             (t_needs_human t)
           = (s1, Some e)
        /\ conversations s1 = conversations st ++ [row]
        /\ c_user_message row = t_user_message t
        /\ c_bot_response row = t_bot_response t
        /\ turn_recorded s1 (conversations_seq st + 1)
        /\ daily_stats s1 = daily_stats st)
  /\ (forall e, f = FirstBlockRaises e ->
      commits_of f st t = []
      /\ log_conversation f (t_clock t) st (t_session_id t) (t_user_message t)
           (t_bot_response t) (t_language t) (t_confidence t) (t_category t)
           (t_needs_human t)
         = (st, Some e)).
Proof.
  unfold commits_of, log_conversation, log_conversation_commits.
  split; [|split; [|split; [|split]]].
  - intros s H. split.
    + destruct f; cbn in H; intuition subst; reflexivity.
    + destruct f; cbn in H; intuition subst;
        (eexists; split; [reflexivity|]; repeat split; reflexivity).
  - intros s1 rest. destruct f; intros [= <- _]; reflexivity.
  - intros ->. eexists. split; [reflexivity|]. split; reflexivity.
  - intros e ->. cbn [List.last].
    unfold log_session_and_turn, insert_conversation.
    eexists. eexists. split; [reflexivity|]. split; [reflexivity|].
    cbn [conversations daily_stats]. split; [reflexivity|].
    split; [reflexivity|]. split; [reflexivity|]. split; [|reflexivity].
    unfold turn_recorded. cbn [conversations]. eexists. split.
    + apply in_or_app. right. left. reflexivity.
    + reflexivity.
  - intros e ->. split; reflexivity.
Qed.

(** C1, as the specification words it, fails: the first state committed by
    the first call on an empty database holds the turn, and its daily table
    is still empty. *)
Lemma turn_visible_before_daily_stat :
  ~ one_transaction NoFault init_database Sample.first_turn.
Proof.
  intros H.
  specialize (H (log_session_and_turn (t_clock Sample.first_turn) init_database
                   (t_session_id Sample.first_turn)
                   (t_user_message Sample.first_turn)
                   (t_bot_response Sample.first_turn)
                   (t_language Sample.first_turn)
                   (t_confidence Sample.first_turn)
                   (t_category Sample.first_turn)
                   (t_needs_human Sample.first_turn))).
  destruct H as [H _]; [left; reflexivity|].
  apply H; [|reflexivity]. apply first_block_appends.
Qed.

(** *** C2: the running average *)

(** **** Binary64 rounding: how far a result is from the exact one *)

Section Binary64.
Local Open Scope Q_scope.

Lemma pow2_pos (e : Z) : 0 < 2 ^ e.
Proof. apply Qpower_0_lt. reflexivity. Qed.

Lemma pow2_plus (a b : Z) : 2 ^ (a + b) == 2 ^ a * 2 ^ b.
Proof. apply Qpower_plus. discriminate. Qed.

Lemma pow2_succ (a : Z) : 2 ^ (a + 1) == 2 * 2 ^ a.
Proof. rewrite pow2_plus. change (2 ^ 1) with 2. ring. Qed.

Lemma pow2_inject (a : Z) : (0 <= a)%Z -> inject_Z (2 ^ a) == 2 ^ a.
Proof. intros Ha. rewrite Zpower_Qpower by exact Ha. reflexivity. Qed.

(** [ilog2 x] is the exponent of the power of two at or below [x]. *)
Lemma ilog2_spec (x : Q) :
  0 < x -> 2 ^ ilog2 x <= x /\ x < 2 ^ (ilog2 x + 1).
Proof.
  intros Hx. destruct x as [n d].
  assert (Hn : (0 < n)%Z).
  { unfold Qlt in Hx. cbn in Hx. lia. }
  unfold ilog2. cbn [Qnum Qden].
  set (a := Z.log2 n). set (b := Z.log2 (Z.pos d)).
  assert (Ha : (0 <= a)%Z) by apply Z.log2_nonneg.
  assert (Hb : (0 <= b)%Z) by apply Z.log2_nonneg.
  destruct (Z.log2_spec n Hn) as [Ha1 Ha2]. fold a in Ha1, Ha2.
  destruct (Z.log2_spec (Z.pos d) ltac:(lia)) as [Hb1 Hb2]. fold b in Hb1, Hb2.
  assert (HA : 2 ^ a <= inject_Z n /\ inject_Z n < 2 * 2 ^ a).
  { rewrite <- (pow2_inject a Ha). split.
    - rewrite <- Zle_Qle. exact Ha1.
    - change 2 with (inject_Z 2) at 1. rewrite <- inject_Z_mult, <- Zlt_Qlt.
      replace (Z.succ a) with (a + 1)%Z in Ha2 by lia.
      rewrite Z.pow_add_r in Ha2 by lia. lia. }
  assert (HB : 2 ^ b <= inject_Z (Z.pos d) /\ inject_Z (Z.pos d) < 2 * 2 ^ b).
  { rewrite <- (pow2_inject b Hb). split.
    - rewrite <- Zle_Qle. exact Hb1.
    - change 2 with (inject_Z 2) at 1. rewrite <- inject_Z_mult, <- Zlt_Qlt.
      replace (Z.succ b) with (b + 1)%Z in Hb2 by lia.
      rewrite Z.pow_add_r in Hb2 by lia. lia. }
  assert (Hx' : n # d == inject_Z n / inject_Z (Z.pos d)) by apply Qmake_Qdiv.
  assert (Ht : 2 ^ a == 2 ^ (a - b) * 2 ^ b).
  { rewrite <- pow2_plus. replace (a - b + b)%Z with a by lia. reflexivity. }
  pose proof (pow2_pos a) as Pa. pose proof (pow2_pos b) as Pb.
  pose proof (pow2_pos (a - b)) as Pt.
  assert (HD : 0 < inject_Z (Z.pos d)) by (change 0 with (inject_Z 0); rewrite <- Zlt_Qlt; lia).
  (* x * D == N *)
  assert (HxD : (n # d) * inject_Z (Z.pos d) == inject_Z n).
  { rewrite Hx'. field. intros E. rewrite E in HD. discriminate HD. }
  assert (Hup : n # d < 2 * 2 ^ (a - b)).
  { apply (Qmult_lt_r _ _ (inject_Z (Z.pos d)) HD). rewrite HxD.
    destruct HA as [_ HA2]. destruct HB as [HB1 _].
    eapply Qlt_le_trans; [exact HA2|]. rewrite Ht.
    nra. }
  assert (Hlo : 2 ^ (a - b) < 2 * (n # d)).
  { apply (Qmult_lt_r _ _ (inject_Z (Z.pos d)) HD).
    destruct HA as [HA1 _]. destruct HB as [_ HB2].
    nra. }
  destruct (Qle_bool (2 ^ (a - b)) (n # d)) eqn:E.
  - apply Qle_bool_iff in E. split; [exact E|].
    rewrite pow2_succ. exact Hup.
  - assert (E' : n # d < 2 ^ (a - b)).
    { apply Qnot_le_lt. intros H. apply Qle_bool_iff in H. congruence. }
    replace (a - b - 1 + 1)%Z with (a - b)%Z by lia. split; [|exact E'].
    assert (H2 : 2 ^ (a - b) == 2 * 2 ^ (a - b - 1)).
    { rewrite <- pow2_succ. replace (a - b - 1 + 1)%Z with (a - b)%Z by lia.
      reflexivity. }
    rewrite H2 in Hlo. lra.
Qed.

Lemma nearest_even_near (y : Q) :
  inject_Z (nearest_even y) - y <= 1 # 2
  /\ y - inject_Z (nearest_even y) <= 1 # 2.
Proof.
  unfold nearest_even.
  pose proof (Qfloor_le y) as Hlo. pose proof (Qlt_floor y) as Hhi.
  rewrite inject_Z_plus in Hhi. change (inject_Z 1) with 1 in Hhi.
  destruct (Qcompare_spec (y - inject_Z (Qfloor y)) (1 # 2)) as [E|E|E].
  - destruct (Z.even (Qfloor y)).
    + lra.
    + rewrite inject_Z_plus. change (inject_Z 1) with 1. lra.
  - lra.
  - rewrite inject_Z_plus. change (inject_Z 1) with 1. lra.
Qed.

Lemma nearest_even_nonneg (y : Q) : 0 <= y -> (0 <= nearest_even y)%Z.
Proof.
  intros Hy. unfold nearest_even.
  assert (H0 : (0 <= Qfloor y)%Z).
  { change 0%Z with (Qfloor 0). apply Qfloor_resp_le. exact Hy. }
  destruct (_ ?= _); [destruct (Z.even _)| |]; lia.
Qed.

Lemma nearest_even_int (y : Q) (z : Z) :
  y == inject_Z z -> nearest_even y = z.
Proof.
  intros E. unfold nearest_even.
  assert (Hf : Qfloor y = z) by (rewrite E; apply Qfloor_Z).
  rewrite Hf.
  destruct (Qcompare_spec (y - inject_Z z) (1 # 2)) as [H|H|H].
  - exfalso. rewrite E in H. lra.
  - reflexivity.
  - exfalso. rewrite E in H. lra.
Qed.

(** The error of one rounding: relative to the exact result by at most
    [2 ^ -53], or, below the normal range, at most [2 ^ -1075]. *)
Lemma round_positive_error (x : Q) :
  0 < x ->
  0 <= round_positive x
  /\ round_positive x - x <= (1 # 9007199254740992) * x + 2 ^ (-1075)
  /\ x - round_positive x <= (1 # 9007199254740992) * x + 2 ^ (-1075).
Proof.
  intros Hx. unfold round_positive.
  destruct (ilog2_spec x Hx) as [Hl _].
  set (e := Z.max (ilog2 x - 52) (-1074)).
  pose proof (pow2_pos e) as Pe.
  set (y := x / 2 ^ e).
  assert (Hy : y * 2 ^ e == x).
  { unfold y. field. intros E. rewrite E in Pe. discriminate Pe. }
  assert (Hy0 : 0 <= y).
  { unfold y. apply Qle_shift_div_l; [exact Pe|]. lra. }
  pose proof (nearest_even_near y) as [Hn1 Hn2].
  pose proof (nearest_even_nonneg y Hy0) as Hm.
  assert (Hm' : 0 <= inject_Z (nearest_even y)).
  { change 0 with (inject_Z 0). rewrite <- Zle_Qle. exact Hm. }
  set (m := inject_Z (nearest_even y)) in *.
  assert (Hhalf : 2 ^ e <= (1 # 4503599627370496) * x + 2 * 2 ^ (-1075)).
  { unfold e. destruct (Z.max_spec (ilog2 x - 52) (-1074)) as [[_ ->]|[_ ->]].
    - assert (E0 : 2 * 2 ^ (-1075) == 2 ^ (-1074))
        by (rewrite <- pow2_succ; reflexivity).
      rewrite E0. assert (0 <= (1 # 4503599627370496) * x) by nra.
      generalize dependent (2 ^ (-1074)). intros. lra.
    - assert (E : 2 ^ (ilog2 x - 52) == 2 ^ ilog2 x * (1 # 4503599627370496)).
      { unfold Z.sub. rewrite pow2_plus. reflexivity. }
      rewrite E. pose proof (pow2_pos (-1075)). nra. }
  split; [nra|].
  assert (Hm1 : m * 2 ^ e - x <= (1 # 2) * 2 ^ e) by nra.
  assert (Hm2 : x - m * 2 ^ e <= (1 # 2) * 2 ^ e) by nra.
  assert (Hq : (1 # 2) * ((1 # 4503599627370496) * x) == (1 # 9007199254740992) * x) by ring.
  split; lra.
Qed.

Lemma subnormal_unit_small : 2 ^ (-1075) <= 1 # 9444732965739290427392.
Proof. apply Qle_bool_iff. vm_compute. reflexivity. Qed.

(** A result that is not negative and not large is a number, not
    negative, and within the relative error [2 ^ -53] (and the absolute
    error [2 ^ -73] for the subnormal numbers, which is [2 ^ -1075] in
    fact). *)
Lemma round64_nonneg (x : Q) :
  0 <= x -> x <= 4194304 ->
  exists r : float,
    round64 x = Finite r
    /\ 0 <= r
    /\ r - x <= (1 # 9007199254740992) * x + (1 # 9444732965739290427392)
    /\ x - r <= (1 # 9007199254740992) * x + (1 # 9444732965739290427392).
Proof.
  intros H0 Hmax. unfold round64.
  destruct (Qcompare_spec x 0) as [E|E|E].
  - exists (Q2Qc 0). split; [reflexivity|].
    cbn [this Q2Qc]. rewrite Qred_correct. rewrite E. repeat split; lra.
  - exfalso. lra.
  - destruct (round_positive_error x E) as (Hr0 & Hr1 & Hr2).
    pose proof subnormal_unit_small as Hs.
    assert (Hbig : round_positive x < 2 ^ 1024).
    { apply Qle_lt_trans with 8388609; [lra|].
      apply Qlt_alt. vm_compute. reflexivity. }
    assert (Hb : Qle_bool (2 ^ 1024) (round_positive x) = false).
    { destruct (Qle_bool _ _) eqn:Eb; [|reflexivity].
      apply Qle_bool_iff in Eb. exfalso. lra. }
    cbv zeta. rewrite Hb. exists (Q2Qc (round_positive x)).
    split; [reflexivity|]. cbn [this Q2Qc]. rewrite Qred_correct.
    repeat split; lra.
Qed.

(** An [int] below [2 ^ 53] is a binary64 number. *)
Lemma b64_of_int_exact (n : Z) :
  (0 <= n < 2 ^ 53)%Z -> b64_of_int n = Finite (of_int n).
Proof.
  intros [Hn0 Hn]. unfold b64_of_int, round64.
  destruct (Qcompare_spec (inject_Z n) 0) as [E|E|E].
  - unfold of_int. f_equal. apply Qc_is_canon. cbn [this Q2Qc].
    rewrite !Qred_correct. rewrite E. reflexivity.
  - exfalso. change 0 with (inject_Z 0) in E. rewrite <- Zlt_Qlt in E. lia.
  - destruct (ilog2_spec _ E) as [Hl1 Hl2].
    set (l := ilog2 (inject_Z n)) in *.
    assert (Hl : (0 <= l <= 52)%Z).
    { split.
      - assert (H : 2 ^ 0 < 2 ^ (l + 1)).
        { eapply Qle_lt_trans; [|exact Hl2]. change (2 ^ 0) with (inject_Z 1).
          rewrite <- Zle_Qle. change 0 with (inject_Z 0) in E.
          rewrite <- Zlt_Qlt in E. lia. }
        pose proof (Qpower_lt_compat_l_inv 2 0 (l + 1) H ltac:(reflexivity)).
        lia.
      - assert (H : 2 ^ l < 2 ^ 53).
        { eapply Qle_lt_trans; [exact Hl1|].
          rewrite <- (pow2_inject 53) by lia. rewrite <- Zlt_Qlt. exact Hn. }
        pose proof (Qpower_lt_compat_l_inv 2 l 53 H ltac:(reflexivity)).
        lia. }
    assert (Hr : round_positive (inject_Z n) == inject_Z n).
    { unfold round_positive. fold l.
      replace (Z.max (l - 52) (-1074)) with (l - 52)%Z by lia.
      assert (Hy : inject_Z n / 2 ^ (l - 52) == inject_Z (n * 2 ^ (52 - l))).
      { rewrite inject_Z_mult, (pow2_inject (52 - l)) by lia.
        unfold Qdiv. rewrite <- Qpower_opp.
        replace (- (l - 52))%Z with (52 - l)%Z by lia. reflexivity. }
      rewrite (nearest_even_int _ _ Hy).
      rewrite inject_Z_mult, (pow2_inject (52 - l)) by lia.
      rewrite <- Qmult_assoc, <- pow2_plus.
      replace (52 - l + (l - 52))%Z with 0%Z by lia.
      change (2 ^ 0) with 1. ring. }
    assert (Hb : Qle_bool (2 ^ 1024) (round_positive (inject_Z n)) = false).
    { destruct (Qle_bool _ _) eqn:Eb; [|reflexivity].
      apply Qle_bool_iff in Eb. exfalso. rewrite Hr in Eb.
      assert (H : inject_Z n < 2 ^ 1024).
      { apply Qlt_trans with (inject_Z (2 ^ 53)); [rewrite <- Zlt_Qlt; exact Hn|].
        apply Qlt_alt. vm_compute. reflexivity. }
      lra. }
    cbv zeta. rewrite Hb. unfold of_int. f_equal. apply Qc_is_canon.
    cbn [this Q2Qc]. rewrite !Qred_correct. exact Hr.
Qed.

Lemma of_int_value (n : Z) : (of_int n : Q) == inject_Z n.
Proof. unfold of_int. cbn [this Q2Qc]. apply Qred_correct. Qed.

Lemma tolerance_succ (n : Z) :
  tolerance (n + 1)
  == tolerance n + (2 * inject_Z n + 1) * (1 # 1125899906842624).
Proof.
  unfold tolerance.
  replace ((n + 1) * (n + 1))%Z with (n * n + (2 * n + 1))%Z by ring.
  rewrite !inject_Z_plus, !inject_Z_mult. change (inject_Z 2) with 2.
  change (inject_Z 1) with 1. ring.
Qed.

Lemma tolerance_small (n : Z) :
  (1 <= n <= 2 ^ 20)%Z -> 0 <= tolerance n /\ tolerance n <= 1 # 1024.
Proof.
  intros Hn. unfold tolerance.
  assert (H0 : 0 <= inject_Z (n * n)).
  { change 0 with (inject_Z 0). rewrite <- Zle_Qle. nia. }
  assert (H1 : inject_Z (n * n) <= 1099511627776).
  { change 1099511627776 with (inject_Z (2 ^ 20 * 2 ^ 20)).
    rewrite <- Zle_Qle. nia. }
  split; lra.
Qed.

(** One update of the average: when the average of [n] turns is within
    the tolerance of their sum, so is the next. *)
Lemma average_step (a c : float) (n : Z) (s : Q) :
  (1 <= n)%Z -> (n + 1 <= 2 ^ 20)%Z ->
  0 <= a -> 0 <= s -> s <= inject_Z n -> 0 <= c -> c <= 1 ->
  a * inject_Z n - s <= tolerance n ->
  s - a * inject_Z n <= tolerance n ->
  exists a' : float,
    b64_div (b64_add (b64_mul (Finite a) (b64_of_int n)) (round64 c))
            (b64_of_int (n + 1))
    = Finite a'
    /\ 0 <= a'
    /\ a' * inject_Z (n + 1) - (s + c) <= tolerance (n + 1)
    /\ (s + c) - a' * inject_Z (n + 1) <= tolerance (n + 1).
Proof.
  intros Hn1 Hn2 Ha Hs0 Hs1 Hc0 Hc1 Hd1 Hd2.
  destruct (tolerance_small n ltac:(lia)) as [Ht0 Ht1].
  pose proof (tolerance_succ n) as Ht.
  assert (HN1 : 1 <= inject_Z n)
    by (change 1 with (inject_Z 1); rewrite <- Zle_Qle; lia).
  assert (HN2 : inject_Z n <= 1048575)
    by (change 1048575 with (inject_Z 1048575); rewrite <- Zle_Qle; lia).
  assert (HN3 : inject_Z (n + 1) == inject_Z n + 1)
    by (rewrite inject_Z_plus; reflexivity).
  rewrite (b64_of_int_exact n), (b64_of_int_exact (n + 1)) by lia.
  cbn [b64_mul].
  pose proof (of_int_value n) as En. pose proof (of_int_value (n + 1)) as En1.
  (* the product *)
  destruct (round64_nonneg (a * of_int n)) as (p & -> & Hp0 & Hp1 & Hp2).
  { rewrite En. nra. }
  { rewrite En. lra. }
  rewrite En in Hp1, Hp2.
  (* the confidence *)
  destruct (round64_nonneg c Hc0 ltac:(lra)) as (d & -> & Hd0 & Hd3 & Hd4).
  cbn [b64_add].
  (* the sum *)
  destruct (round64_nonneg (p + d)) as (q & -> & Hq0 & Hq1 & Hq2);
    [lra|lra|].
  cbn [b64_div].
  (* the quotient *)
  assert (Hx : (q / of_int (n + 1)) * inject_Z (n + 1) == q).
  { rewrite En1. field. lra. }
  assert (Hx0 : 0 <= q / of_int (n + 1)).
  { apply Qle_shift_div_l; lra. }
  assert (Hx1 : q / of_int (n + 1) <= q).
  { apply Qle_shift_div_r; [lra|]. rewrite En1. nra. }
  destruct (round64_nonneg (q / of_int (n + 1)) Hx0 ltac:(lra))
    as (a' & -> & Ha0 & Ha1 & Ha2).
  exists a'. split; [reflexivity|]. split; [exact Ha0|].
  set (x := q / of_int (n + 1)) in *.
  assert (Hm1 : a' * inject_Z (n + 1) - q
                <= (1 # 9007199254740992) * q + (1 # 9007199254740992)).
  { assert (H : (a' - x) * inject_Z (n + 1)
                <= ((1 # 9007199254740992) * x + (1 # 9444732965739290427392))
                   * inject_Z (n + 1)) by (apply Qmult_le_compat_r; lra).
    nra. }
  assert (Hm2 : q - a' * inject_Z (n + 1)
                <= (1 # 9007199254740992) * q + (1 # 9007199254740992)).
  { assert (H : (x - a') * inject_Z (n + 1)
                <= ((1 # 9007199254740992) * x + (1 # 9444732965739290427392))
                   * inject_Z (n + 1)) by (apply Qmult_le_compat_r; lra).
    nra. }
  rewrite Ht. unfold tolerance in *.
  set (n2 := inject_Z (n * n)) in *. clearbody n2.
  set (T := a' * inject_Z (n + 1)) in *. clearbody T.
  set (P := a * inject_Z n) in *. clearbody P.
  split; lra.
Qed.

Lemma confidence_sum_cons (t : turn) (ts : list turn) :
  (confidence_sum (t :: ts) : Q) == t_confidence t + confidence_sum ts.
Proof.
  unfold confidence_sum. cbn [List.map fold_right Qcplus this Q2Qc].
  apply Qred_correct.
Qed.

Lemma confidence_range (c : float) :
  (f0_0 <= c)%Qc /\ (c <= f1_0)%Qc -> 0 <= c /\ c <= 1.
Proof.
  unfold Qcle, f0_0, f1_0. cbn [this Q2Qc]. rewrite !Qred_correct.
  intros [H0 H1]. split; lra.
Qed.

(** The average of a row that has one, over the turns that follow on
    its date. *)
Lemma running_average_from (d : pystr) (ts : list turn) :
  forall (st : store) (row : daily_stat_row) (avg : float) (s : Q),
    Forall (fun t => today t = d) ts ->
    Forall (fun t => (f0_0 <= t_confidence t)%Qc
                     /\ (t_confidence t <= f1_0)%Qc) ts ->
    daily_stats st !! d = Some row ->
    (1 <= total_conversations row)%Z ->
    (total_conversations row + Z.of_nat (length ts) <= 2 ^ 20)%Z ->
    avg_confidence row = Finite avg ->
    0 <= avg -> 0 <= s -> s <= inject_Z (total_conversations row) ->
    avg * inject_Z (total_conversations row) - s
    <= tolerance (total_conversations row) ->
    s - avg * inject_Z (total_conversations row)
    <= tolerance (total_conversations row) ->
    exists (row' : daily_stat_row) (avg' : float),
      daily_stats (log_turns st ts) !! d = Some row'
      /\ total_conversations row'
         = (total_conversations row + Z.of_nat (length ts))%Z
      /\ avg_confidence row' = Finite avg'
      /\ avg' * inject_Z (total_conversations row')
           - (s + confidence_sum ts)
         <= tolerance (total_conversations row')
      /\ (s + confidence_sum ts)
           - avg' * inject_Z (total_conversations row')
         <= tolerance (total_conversations row').
Proof.
  induction ts as [|t ts IH];
    intros st row avg s Hd Hc Hrow Hn1 Hn2 Havg Ha Hs0 Hs1 Hb1 Hb2.
  - exists row, avg. cbn [log_turns fold_left length Z.of_nat].
    split; [exact Hrow|]. split; [lia|]. split; [exact Havg|].
    assert (E : (confidence_sum [] : Q) == 0) by reflexivity.
    rewrite E. split; lra.
  - inversion Hd as [|? ? Ht Hts]; subst.
    inversion Hc as [|? ? Hct Hcs]; subst.
    apply confidence_range in Hct as [Hc0 Hc1].
    cbn [length] in Hn2. rewrite Nat2Z.inj_succ in Hn2.
    destruct (average_step avg (t_confidence t) (total_conversations row) s
                Hn1 ltac:(lia) Ha Hs0 Hs1 Hc0 Hc1 Hb1 Hb2)
      as (avg1 & Hstep & Ha1 & Hb3 & Hb4).
    cbn [log_turns fold_left].
    destruct (IH (log_turn st t)
                 (next_daily_stat (Some row) (t_language t) (t_category t)
                    (t_confidence t) (t_needs_human t))
                 avg1 (s + t_confidence t))
      as (row' & avg' & Hl & Ht' & Hv & Hb5 & Hb6); try assumption.
    + rewrite daily_stats_log_turn, Hrow. apply lookup_insert_eq.
    + cbn [next_daily_stat total_conversations]. lia.
    + cbn [next_daily_stat total_conversations]. lia.
    + cbn [next_daily_stat avg_confidence]. rewrite Havg. exact Hstep.
    + lra.
    + cbn [next_daily_stat total_conversations].
      rewrite inject_Z_plus. change (inject_Z 1) with 1. lra.
    + exists row', avg'. split; [exact Hl|]. split.
      * rewrite Ht'. cbn [next_daily_stat total_conversations length].
        lia.
      * split; [exact Hv|]. rewrite confidence_sum_cons. split; lra.
Qed.

End Binary64.

(** C2: after N >= 1 calls on the same date, made on a database without a
    row for that date, with confidences between 0.0 and 1.0 and N at most
    2^20, the row of the date has [total_conversations = N] and an
    [avg_confidence] that is a number with
    [|avg_confidence * total_conversations - (c1 + ... + cN)| <= N * N / 2^50],
    the average being computed in binary64; and each call on a date that
    has a row replaces the average by
    [(old_avg * old_count + confidence) / (old_count + 1)], each of the
    three operations rounded. *)
Theorem running_average (d : pystr) (st : store) (ts : list turn) :
  Forall (fun t => today t = d) ts ->
  Forall (fun t => (f0_0 <= t_confidence t)%Qc
                   /\ (t_confidence t <= f1_0)%Qc) ts ->
  daily_stats st !! d = None ->
  ts <> [] ->
  Z.of_nat (length ts) <= 2 ^ 20 ->
  (exists (row : daily_stat_row) (avg : float),
     daily_stats (log_turns st ts) !! d = Some row
     /\ total_conversations row = Z.of_nat (length ts)
     /\ avg_confidence row = Finite avg
     /\ (Qabs (avg * inject_Z (total_conversations row) - confidence_sum ts)
         <= tolerance (total_conversations row))%Q)
  /\ (forall st' row t, today t = d -> daily_stats st' !! d = Some row ->
        exists row', daily_stats (log_turn st' t) !! d = Some row'
          /\ avg_confidence row'
             = b64_div
                 (b64_add (b64_mul (avg_confidence row)
                                   (b64_of_int (total_conversations row)))
                          (round64 (t_confidence t)))
                 (b64_of_int (total_conversations row + 1))).
Proof.
  intros Hd Hc Hnone Hne Hlen. split.
  - destruct ts as [|t ts]; [congruence|].
    inversion Hd as [|? ? Ht Hts]; subst.
    inversion Hc as [|? ? Hct Hcs]; subst.
    apply confidence_range in Hct as [Hc0 Hc1].
    cbn [length] in Hlen. rewrite Nat2Z.inj_succ in Hlen.
    destruct (round64_nonneg (t_confidence t) Hc0 ltac:(lra))
      as (avg1 & Hr & Ha1 & Hb1 & Hb2).
    destruct (running_average_from (today t) ts (log_turn st t)
                (next_daily_stat None (t_language t) (t_category t)
                   (t_confidence t) (t_needs_human t))
                avg1 (t_confidence t) Hts Hcs)
      as (row' & avg' & Hl & Ht' & Hv & Hb3 & Hb4).
    + rewrite daily_stats_log_turn, Hnone. apply lookup_insert_eq.
    + cbn [next_daily_stat total_conversations]. lia.
    + cbn [next_daily_stat total_conversations]. lia.
    + cbn [next_daily_stat avg_confidence]. exact Hr.
    + exact Ha1.
    + exact Hc0.
    + cbn [next_daily_stat total_conversations]. exact Hc1.
    + cbn [next_daily_stat total_conversations]. unfold tolerance.
      change (inject_Z (1 * 1)) with 1%Q. change (inject_Z 1) with 1%Q. lra.
    + cbn [next_daily_stat total_conversations]. unfold tolerance.
      change (inject_Z (1 * 1)) with 1%Q. change (inject_Z 1) with 1%Q. lra.
    + exists row', avg'. split; [exact Hl|].
      cbn [next_daily_stat total_conversations] in Ht'.
      split; [rewrite Ht'; cbn [length]; lia|]. split; [exact Hv|].
      apply Qabs_Qle_condition. rewrite confidence_sum_cons. split; lra.
  - intros st' row t Ht Hrow. subst d.
    eexists. split.
    + rewrite daily_stats_log_turn, Hrow. apply lookup_insert_eq.
    + reflexivity.
Qed.

(** Three turns of 0.8: the average kept is 0.8000000000000002, the
    binary64 number 7205759403792795 / 2^53, as in the program. *)
Lemma average_of_three_turns :
  let ts := [Sample.first_turn; Sample.first_turn; Sample.first_turn] in
  exists row,
    daily_stats (log_turns init_database ts) !! u "2024-01-31" = Some row
    /\ total_conversations row = 3
    /\ avg_confidence row
       = Finite (Q2Qc (7205759403792795 # 9007199254740992)).
Proof.
  cbv zeta. eexists. split; [vm_compute; reflexivity|].
  split; [reflexivity|]. cbn [avg_confidence]. f_equal.
Qed.

Lemma running_average_witness :
  let ts := [Sample.first_turn; Sample.first_turn; Sample.first_turn] in
  Forall (fun t => today t = u "2024-01-31") ts
  /\ Forall (fun t => (f0_0 <= t_confidence t)%Qc
                      /\ (t_confidence t <= f1_0)%Qc) ts
  /\ daily_stats init_database !! u "2024-01-31" = None
  /\ ts <> []
  /\ Z.of_nat (length ts) <= 2 ^ 20
  /\ (exists (row : daily_stat_row) (avg : float),
       daily_stats (log_turns init_database ts) !! u "2024-01-31" = Some row
       /\ total_conversations row = 3
       /\ avg_confidence row = Finite avg
       /\ (Qabs (avg * inject_Z (total_conversations row) - confidence_sum ts)
           <= tolerance (total_conversations row))%Q)
  /\ today Sample.first_turn = u "2024-01-31"
  /\ exists row row' : daily_stat_row,
       daily_stats (log_turn init_database Sample.first_turn) !! u "2024-01-31"
       = Some row
       /\ daily_stats (log_turn (log_turn init_database Sample.first_turn)
                                Sample.first_turn) !! u "2024-01-31"
          = Some row'
       /\ avg_confidence row'
          = b64_div
              (b64_add (b64_mul (avg_confidence row)
                                (b64_of_int (total_conversations row)))
                       (round64 (t_confidence Sample.first_turn)))
              (b64_of_int (total_conversations row + 1)).
Proof.
  cbv zeta.
  assert (Hd : Forall (fun t => today t = u "2024-01-31")
                      [Sample.first_turn; Sample.first_turn; Sample.first_turn])
    by (repeat constructor; vm_compute; reflexivity).
  assert (Hc : Forall (fun t => (f0_0 <= t_confidence t)%Qc
                                /\ (t_confidence t <= f1_0)%Qc)
                      [Sample.first_turn; Sample.first_turn; Sample.first_turn])
    by (repeat constructor; vm_compute; discriminate).
  assert (Hn : daily_stats init_database !! u "2024-01-31" = None)
    by apply lookup_empty.
  assert (Hne : [Sample.first_turn; Sample.first_turn; Sample.first_turn] <> [])
    by discriminate.
  assert (Hlen : Z.of_nat (length [Sample.first_turn; Sample.first_turn;
                                   Sample.first_turn]) <= 2 ^ 20)
    by (vm_compute; discriminate).
  split; [exact Hd|]. split; [exact Hc|]. split; [exact Hn|].
  split; [exact Hne|]. split; [exact Hlen|].
  split; [exact (proj1 (running_average (u "2024-01-31") init_database _
                          Hd Hc Hn Hne Hlen))|].
  assert (Ht : today Sample.first_turn = u "2024-01-31")
    by (vm_compute; reflexivity).
  split; [exact Ht|].
  assert (Hrow : daily_stats (log_turn init_database Sample.first_turn)
                   !! u "2024-01-31"
                 = Some (next_daily_stat None (t_language Sample.first_turn)
                           (t_category Sample.first_turn)
                           (t_confidence Sample.first_turn)
                           (t_needs_human Sample.first_turn))).
  { rewrite daily_stats_log_turn, Ht. apply lookup_insert_eq. }
  destruct (proj2 (running_average (u "2024-01-31") init_database _
                     Hd Hc Hn Hne Hlen)
              (log_turn init_database Sample.first_turn) _ Sample.first_turn
              Ht Hrow) as (row' & Hl & Hv).
  eexists. exists row'. split; [exact Hrow|]. split; [exact Hl|exact Hv].
Defined.


(** *** C10: the session counter of a day *)

Lemma next_daily_stat_sessions row lang cat conf nh :
  (forall r, row = Some r -> total_sessions r = 0) ->
  total_sessions (next_daily_stat row lang cat conf nh) = 0.
Proof. destruct row as [r|]; intros H; cbn; [now apply H | reflexivity]. Qed.

(** A cleanup leaves the database as it is, when computing the cutoff
    raises, or deletes for the cutoff. *)
Lemma cleanup_result clk st days :
  fst (cleanup_old_logs clk st days) = st
  \/ exists cut, minus_days (python_now clk) days = Some cut
                 /\ cleanup_old_logs clk st days = (delete_older cut st, None).
Proof.
  unfold cleanup_old_logs.
  destruct (minus_days _ _) as [cut|]; [right; eauto|left; reflexivity].
Qed.

Lemma step_keeps_total_sessions (st st' : store) :
  step st st' ->
  map_Forall (fun _ r => total_sessions r = 0) (daily_stats st) ->
  map_Forall (fun _ r => total_sessions r = 0) (daily_stats st').
Proof.
  intros Hstep Hinv.
  destruct Hstep as [k st sid um br lang conf cat nh|k st lang cat conf nh|k st days].
  - exact Hinv.
  - cbn [_update_daily_stats daily_stats].
    apply map_Forall_insert_2; [|exact Hinv].
    apply next_daily_stat_sessions. intros r Hr. exact (Hinv _ _ Hr).
  - destruct (cleanup_result k st days) as [E|(cut & _ & E)]; rewrite E;
      [exact Hinv|].
    cbn [fst delete_older daily_stats].
    intros d r Hr. apply map_lookup_filter_Some in Hr as [Hr _].
    exact (Hinv _ _ Hr).
Qed.

(** C10: in every database state the program can reach from a new database
    by the two blocks of [log_conversation] and by [cleanup_old_logs], the
    [total_sessions] column of every [daily_stats] row is 0. *)
Theorem total_sessions_stays_zero (st : store) :
  reachable st ->
  forall d row, daily_stats st !! d = Some row -> total_sessions row = 0.
Proof.
  intros Hr. change (map_Forall (fun _ r => total_sessions r = 0) (daily_stats st)).
  induction Hr as [|st st' _ IH Hstep].
  - apply map_Forall_empty.
  - eapply step_keeps_total_sessions; eauto.
Qed.

Lemma log_turn_reachable (st : store) (t : turn) :
  reachable st -> reachable (log_turn st t).
Proof.
  intros H. unfold log_turn, log_conversation, log_conversation_commits.
  cbn [List.last fst].
  eapply reach_step; [|apply step_second_block].
  eapply reach_step; [exact H|apply step_first_block].
Qed.

Lemma total_sessions_stays_zero_witness :
  reachable (log_turns init_database [Sample.first_turn; Sample.second_turn])
  /\ forall d row,
       daily_stats (log_turns init_database
                      [Sample.first_turn; Sample.second_turn]) !! d = Some row ->
       total_sessions row = 0.
Proof.
  assert (H : reachable (log_turns init_database
                           [Sample.first_turn; Sample.second_turn]))
    by (repeat apply log_turn_reachable; apply reach_init).
  split; [exact H|].
  exact (total_sessions_stays_zero _ H).
Defined.

(** *** C8: the languages of a session *)


(** C8 at the input the code gets wrong: session s1 has used "en"; a turn
    of s1 with the language code "e" leaves the list at ["en"], because
    [LIKE '%e%'] finds the letter inside the text of the array, although
    "e" is not an element. *)
Theorem language_code_inside_another_is_dropped :
  let st1 := log_turn init_database Sample.first_turn in
  let st2 := log_turn st1 Sample.second_turn in
  session_languages st1 (u "s1") = Some [u "en"]
  /\ t_language Sample.second_turn = u "e"
  /\ ~ In (u "e") [u "en"]
  /\ session_languages st2 (u "s1") = Some [u "en"].
Proof.
  cbv zeta. split; [vm_compute; reflexivity|].
  split; [reflexivity|]. split; [|vm_compute; reflexivity].
  vm_compute. intuition discriminate.
Qed.

(** *** C9: cleanup *)

(** C9 at the input the code gets wrong: the turn was stored at
    2024-01-31 15:00:00, the cleanup runs at 2024-03-01 10:00:00 with 30
    days to keep, so the cutoff is 2024-01-31 10:00:00 and the turn is five
    hours newer than it; the turn is deleted all the same, because the
    stored text "2024-01-31 15:00:00" sorts before the cutoff text
    "2024-01-31T10:00:00" at the separator. *)
Theorem cleanup_deletes_turn_newer_than_cutoff :
  let st := log_turn init_database Sample.first_turn in
  let cut := Sample.at_time 738916 10 0 0 in
  List.map c_timestamp (conversations st) = [u "2024-01-31 15:00:00"]
  /\ cutoff Sample.mar01_10am 30 = Some cut
  /\ isoformat cut = u "2024-01-31T10:00:00"
  /\ earlier cut (sqlite_now (t_clock Sample.first_turn))
  /\ snd (cleanup_old_logs Sample.mar01_10am st 30) = None
  /\ conversations (fst (cleanup_old_logs Sample.mar01_10am st 30)) = [].
Proof.
  cbv zeta. split; [vm_compute; reflexivity|].
  split; [vm_compute; reflexivity|].
  split; [vm_compute; reflexivity|].
  split; [vm_compute; reflexivity|].
  split; [vm_compute; reflexivity|].
  vm_compute. reflexivity.
Qed.

(** *** C5: a failure of the database during [chat] *)

Lemma chat_on_fault (L : PyLib) (kb : knowledge_base)
    (env : request_env) (a : app) (msg : ChatMessage) (e : pystr) :
  db_fault env = FirstBlockRaises e \/ db_fault env = SecondBlockRaises e ->
  fst (chat L kb env a msg) = Http500 (Sqlite3Error e)
  /\ session_contexts (snd (chat L kb env a msg)) = snd (chat_reply L kb env a msg).
Proof.
  intros Hf. unfold chat.
  destruct (chat_reply L kb env a msg) as [response_data contexts].
  cbn [fst snd]. unfold log_conversation.
  destruct Hf as [-> | ->]; cbn [fst snd]; split; reflexivity.
Qed.

(** The database [chat] leaves is the one [log_conversation] leaves, called
    without a category and without the hand-off flag. *)
Lemma chat_db (L : PyLib) (kb : knowledge_base)
    (env : request_env) (a : app) (msg : ChatMessage) :
  db (snd (chat L kb env a msg))
  = fst (log_conversation (db_fault env) (clk env) (db a)
           (chat_session env msg) (message msg)
           (r_response (fst (chat_reply L kb env a msg)))
           (chat_language L msg)
           (r_confidence (fst (chat_reply L kb env a msg))) None false).
Proof.
  unfold chat. destruct (chat_reply L kb env a msg) as [r contexts].
  cbn [fst]. destruct (log_conversation _ _ _ _ _ _ _ _ _ _) as [db' raised].
  destruct raised; [reflexivity|].
  destruct (make_response r _ _); reflexivity.
Qed.

(** C5, as the code has it: when an [sqlite3] call of [log_conversation]
    raises, the exception leaves [log_conversation], and [chat] answers
    with HTTP 500 carrying that exception; the reply computed by
    [process_message] is not sent.  What is kept of it: the session
    context has recorded it; and the database holds the turn, with the
    reply as its [bot_response], when it was the second block that raised,
    and is as it was when it was the first. *)
Theorem logging_failure_is_http_500 (L : PyLib) (kb : knowledge_base)
    (env : request_env) (a : app) (msg : ChatMessage) (e : pystr) :
  db_fault env = FirstBlockRaises e \/ db_fault env = SecondBlockRaises e ->
  let r := fst (chat_reply L kb env a msg) in
  snd (log_conversation (db_fault env) (clk env) (db a) (chat_session env msg)
         (message msg) (r_response r) (chat_language L msg) (r_confidence r)
         None false) = Some e
  /\ fst (chat L kb env a msg) = Http500 (Sqlite3Error e)
  /\ session_contexts (snd (chat L kb env a msg)) = snd (chat_reply L kb env a msg)
  /\ (db_fault env = FirstBlockRaises e -> db (snd (chat L kb env a msg)) = db a)
  /\ (db_fault env = SecondBlockRaises e ->
      exists row,
        conversations (db (snd (chat L kb env a msg)))
        = conversations (db a) ++ [row]
        /\ c_user_message row = message msg
        /\ c_bot_response row = r_response r
        /\ daily_stats (db (snd (chat L kb env a msg))) = daily_stats (db a)).
Proof.
  intros Hf. cbv zeta. split; [|split; [|split; [|split]]].
  - unfold log_conversation. destruct Hf as [-> | ->]; reflexivity.
  - exact (proj1 (chat_on_fault L kb env a msg e Hf)).
  - exact (proj2 (chat_on_fault L kb env a msg e Hf)).
  - intros E. rewrite chat_db, E. reflexivity.
  - intros E. rewrite chat_db, E.
    unfold log_conversation, log_conversation_commits. cbn [List.last fst].
    unfold log_session_and_turn, insert_conversation.
    cbn [conversations daily_stats].
    eexists. split; [reflexivity|]. repeat split.
Qed.

Lemma logging_failure_is_http_500_witness :
  (db_fault (Sample.env_with (SecondBlockRaises (u "database or disk is full")))
   = FirstBlockRaises (u "database or disk is full")
   \/ db_fault (Sample.env_with (SecondBlockRaises (u "database or disk is full")))
      = SecondBlockRaises (u "database or disk is full"))
  /\ fst (chat Sample.lib default_knowledge_base
            (Sample.env_with (SecondBlockRaises (u "database or disk is full")))
            Sample.empty_app Sample.fee_request)
     = Http500 (Sqlite3Error (u "database or disk is full"))
  /\ exists row,
       conversations
         (db (snd (chat Sample.lib default_knowledge_base
                     (Sample.env_with
                        (SecondBlockRaises (u "database or disk is full")))
                     Sample.empty_app Sample.fee_request)))
       = conversations (db Sample.empty_app) ++ [row]
       /\ c_user_message row = message Sample.fee_request
       /\ daily_stats
            (db (snd (chat Sample.lib default_knowledge_base
                        (Sample.env_with
                           (SecondBlockRaises (u "database or disk is full")))
                        Sample.empty_app Sample.fee_request)))
          = daily_stats (db Sample.empty_app).
Proof.
  assert (H : db_fault (Sample.env_with (SecondBlockRaises (u "database or disk is full")))
              = FirstBlockRaises (u "database or disk is full")
              \/ db_fault (Sample.env_with (SecondBlockRaises (u "database or disk is full")))
                 = SecondBlockRaises (u "database or disk is full"))
    by (right; reflexivity).
  split; [exact H|].
  pose proof (logging_failure_is_http_500 Sample.lib default_knowledge_base
                _ Sample.empty_app Sample.fee_request _ H) as T.
  cbv zeta in T. destruct T as (_ & T500 & _ & _ & Tdb).
  split; [exact T500|].
  destruct (Tdb eq_refl) as (row & Hrows & Hmsg & _ & Hstats).
  exists row. split; [exact Hrows|]. split; [exact Hmsg|exact Hstats].
Defined.

(** C5, as the specification words it, fails: with the disk full during
    the second block, the client of the fee question gets HTTP 500 and not
    the answer. *)
Lemma answer_lost_when_logging_fails :
  ~ answer_survives_logging_failure Sample.lib default_knowledge_base
      (Sample.env_with (SecondBlockRaises (u "database or disk is full")))
      Sample.empty_app Sample.fee_request.
Proof.
  intros H. destruct H as (body & Hbody & _); [discriminate|].
  rewrite (proj1 (chat_on_fault Sample.lib default_knowledge_base
                    (Sample.env_with (SecondBlockRaises (u "database or disk is full")))
                    Sample.empty_app Sample.fee_request
                    (u "database or disk is full") (or_intror eq_refl)))
    in Hbody.
  discriminate Hbody.
Qed.

(** * Further properties of the code *)

(** ** language_processor.py: what the patterns decide *)

Section Patterns.
Variable L : PyLib.

Lemma starts_with_contains (w s : pystr) :
  starts_with w s = true -> contains w s = true.
Proof. intros H. destruct s; cbn; rewrite H; reflexivity. Qed.

Lemma contains_cons (w s : pystr) (c : N) :
  contains w s = true -> contains w (c :: s) = true.
Proof. intros H. cbn [contains]. rewrite H. apply orb_true_r. Qed.

Lemma search_words_contains (ws : list pystr) (s : pystr) :
  forall prev, search_words L ws prev s = true ->
               exists w, In w ws /\ contains w s = true.
Proof.
  induction s as [|c s IH]; intros prev H.
  - cbn [search_words] in H. rewrite orb_false_r in H.
    apply existsb_exists in H as (w & Hin & Hw). exists w. split; [exact Hin|].
    unfold word_here in Hw. apply andb_true_iff in Hw as [Hw _].
    apply andb_true_iff in Hw as [Hw _]. now apply starts_with_contains.
  - cbn [search_words] in H. apply orb_true_iff in H as [H|H].
    + apply existsb_exists in H as (w & Hin & Hw). exists w. split; [exact Hin|].
      unfold word_here in Hw. apply andb_true_iff in Hw as [Hw _].
      apply andb_true_iff in Hw as [Hw _]. now apply starts_with_contains.
    + destruct (IH _ H) as (w & Hin & Hw). exists w. split; [exact Hin|].
      now apply contains_cons.
Qed.

(** A word with a character of a range, found in a text, puts a
    character of the range in the text. *)
Lemma starts_with_in_range (lo hi : N) (w : pystr) :
  forall s, starts_with w s = true ->
    existsb (fun c => (lo <=? c)%N && (c <=? hi)%N) w = true ->
    existsb (fun c => (lo <=? c)%N && (c <=? hi)%N) s = true.
Proof.
  induction w as [|c w IH]; intros s Hs Hw; [discriminate|].
  destruct s as [|d s]; [discriminate|].
  cbn [starts_with] in Hs. apply andb_true_iff in Hs as [Hcd Hs].
  apply N.eqb_eq in Hcd. subst d.
  cbn [existsb] in *. apply orb_true_iff in Hw as [Hw|Hw].
  - rewrite Hw. reflexivity.
  - rewrite (IH s Hs Hw). apply orb_true_r.
Qed.

Lemma contains_in_range (lo hi : N) (w s : pystr) :
  contains w s = true ->
  existsb (fun c => (lo <=? c)%N && (c <=? hi)%N) w = true ->
  existsb (fun c => (lo <=? c)%N && (c <=? hi)%N) s = true.
Proof.
  intros Hc Hw. induction s as [|d s IH].
  - cbn [contains] in Hc. rewrite orb_false_r in Hc.
    eapply starts_with_in_range; eauto.
  - cbn [contains] in Hc. apply orb_true_iff in Hc as [Hc|Hc].
    + eapply starts_with_in_range; eauto.
    + cbn [existsb]. rewrite (IH Hc). apply orb_true_r.
Qed.

(** The words of a pattern are written in one script: without a
    character of that script in the text, the word pattern cannot match. *)
Lemma words_need_script (lo hi : N) (ws : list pystr) (text : pystr) :
  forallb (existsb (fun c => (lo <=? c)%N && (c <=? hi)%N)) ws = true ->
  existsb (fun c => (lo <=? c)%N && (c <=? hi)%N) text = false ->
  search_words L ws None text = false.
Proof.
  intros Hws Htext. destruct (search_words L ws None text) eqn:E; [|reflexivity].
  destruct (search_words_contains _ _ _ E) as (w & Hin & Hw).
  rewrite forallb_forall in Hws.
  rewrite (contains_in_range lo hi w text Hw (Hws _ Hin)) in Htext.
  discriminate.
Qed.

Lemma scan_entry lang lo hi ws rest text :
  pattern_scan L ((lang, [CharRange lo hi; Words ws]) :: rest) text
  = if existsb (fun c => (lo <=? c)%N && (c <=? hi)%N) text
       || search_words L ws None text
    then Some lang
    else pattern_scan L rest text.
Proof.
  cbn [pattern_scan existsb re_search]. rewrite orb_false_r. reflexivity.
Qed.

End Patterns.

(** The scan of the four entries, entry by entry: the word lists of an
    entry are written in the script of its range, so only the ranges
    decide. *)
Lemma pattern_scan_by_script (L : PyLib) (text : pystr) :
  _pattern_based_detection L text
  = if has_devanagari text then Some (u "hi")
    else if has_gujarati text then Some (u "gu")
    else None.
Proof.
  unfold _pattern_based_detection, language_patterns, devanagari, gujarati.
  rewrite !scan_entry. cbn [pattern_scan].
  unfold has_devanagari, has_gujarati.
  destruct (existsb (fun c => (2304 <=? c)%N && (c <=? 2431)%N) text) eqn:Hd;
    [reflexivity|].
  cbn [orb].
  rewrite (words_need_script L 2304 2431 _ text) by (vm_compute; reflexivity || exact Hd).
  destruct (existsb (fun c => (2688 <=? c)%N && (c <=? 2815)%N) text) eqn:Hg;
    [reflexivity|].
  cbn [orb].
  rewrite (words_need_script L 2688 2815 _ text) by (vm_compute; reflexivity || exact Hg).
  rewrite (words_need_script L 2304 2431 _ text) by (vm_compute; reflexivity || exact Hd).
  rewrite (words_need_script L 2304 2431 _ text) by (vm_compute; reflexivity || exact Hd).
  reflexivity.
Qed.

(** X1: the pattern pass looks at the script only.  Whatever the text and
    whatever [re] takes for a word character, [_pattern_based_detection]
    answers "hi" when the text has a Devanagari character, else "gu" when it
    has a Gujarati character, else nothing: the word lists never decide, and
    the entries of "mr" and "raj" are never reached, so the pass never
    answers "mr" or "raj". *)
Theorem pattern_detection_by_script (L : PyLib) (text : pystr) :
  _pattern_based_detection L text
  = (if has_devanagari text then Some (u "hi")
     else if has_gujarati text then Some (u "gu")
     else None)
  /\ _pattern_based_detection L text <> Some (u "mr")
  /\ _pattern_based_detection L text <> Some (u "raj").
Proof.
  rewrite pattern_scan_by_script.
  split; [reflexivity|].
  destruct (has_devanagari text); [split; vm_compute; discriminate|].
  destruct (has_gujarati text); split; vm_compute; discriminate.
Qed.

Lemma language_map_identity d l :
  dict_get language_map d = Some l -> l = d.
Proof.
  unfold language_map. cbn [dict_get].
  repeat (destruct (str_eqb _ d) eqn:E;
          [ intros [= <-]; now apply str_eqb_eq in E | clear E ]).
  discriminate.
Qed.

Lemma map_similar_hi_or_en d :
  _map_similar_language d = u "hi" \/ _map_similar_language d = u "en".
Proof.
  unfold _map_similar_language, language_mappings. cbn [dict_get].
  repeat (destruct (str_eqb _ d); [left; reflexivity|]).
  right. reflexivity.
Qed.

(** X2: a text with a Devanagari character and at least three characters
    once stripped is always detected as "hi", Marathi and Rajasthani texts
    included; "mr" and "raj" are returned only when the statistical
    detector itself guesses that code. *)
Theorem devanagari_is_hindi (L : PyLib) (text : pystr) :
  (3 <= len (strip text) -> has_devanagari text = true ->
   detect_language L text = u "hi")
  /\ (detect_language L text = u "mr" -> langdetect L text = Guess (u "mr"))
  /\ (detect_language L text = u "raj" -> langdetect L text = Guess (u "raj")).
Proof.
  unfold detect_language. rewrite pattern_scan_by_script.
  split; [|split].
  - intros Hlen Hd.
    assert (Hshort : str_eqb text [] || (len (strip text) <? 3) = false).
    { apply orb_false_iff. split.
      - apply str_eqb_neq. intros ->. vm_compute in Hlen. now apply Hlen.
      - apply Z.ltb_ge. exact Hlen. }
    rewrite Hshort, Hd. reflexivity.
  - destruct (_ || _); [intros H; vm_compute in H; discriminate H|].
    destruct (has_devanagari text); [intros H; vm_compute in H; discriminate H|].
    destruct (has_gujarati text); [intros H; vm_compute in H; discriminate H|].
    destruct (langdetect L text) as [d|]; [|intros H; vm_compute in H; discriminate H].
    destruct (dict_get language_map d) as [l|] eqn:Hl.
    + intros ->. apply language_map_identity in Hl. now subst d.
    + intros H. destruct (map_similar_hi_or_en d) as [E|E];
        rewrite E in H; vm_compute in H; discriminate H.
  - destruct (_ || _); [intros H; vm_compute in H; discriminate H|].
    destruct (has_devanagari text); [intros H; vm_compute in H; discriminate H|].
    destruct (has_gujarati text); [intros H; vm_compute in H; discriminate H|].
    destruct (langdetect L text) as [d|]; [|intros H; vm_compute in H; discriminate H].
    destruct (dict_get language_map d) as [l|] eqn:Hl.
    + intros ->. apply language_map_identity in Hl. now subst d.
    + intros H. destruct (map_similar_hi_or_en d) as [E|E];
        rewrite E in H; vm_compute in H; discriminate H.
Qed.

Lemma devanagari_is_hindi_witness :
  3 <= len (strip (u "नमस्ते दोस्त"))
  /\ has_devanagari (u "नमस्ते दोस्त") = true
  /\ detect_language Sample.lib (u "नमस्ते दोस्त") = u "hi".
Proof.
  assert (H1 : 3 <= len (strip (u "नमस्ते दोस्त"))) by (vm_compute; discriminate).
  assert (H2 : has_devanagari (u "नमस्ते दोस्त") = true) by (vm_compute; reflexivity).
  split; [exact H1|]. split; [exact H2|].
  exact (proj1 (devanagari_is_hindi Sample.lib (u "नमस्ते दोस्त")) H1 H2).
Defined.

(** ** language_processor.py: names of the languages *)

Lemma dict_get_not_key {V : Type} (d : list (pystr * V)) (key : pystr) :
  ~ In key (List.map fst d) -> dict_get d key = None.
Proof.
  induction d as [|[k v] d IH]; intros H; [reflexivity|].
  cbn [dict_get]. destruct (str_eqb k key) eqn:E.
  - apply str_eqb_eq in E. subst. exfalso. apply H. left. reflexivity.
  - apply IH. intros Hin. apply H. right. exact Hin.
Qed.

Lemma dict_get_some_in {V : Type} (d : list (pystr * V)) (key : pystr) (v : V) :
  dict_get d key = Some v -> In (key, v) d.
Proof.
  induction d as [|[k w] d IH]; [discriminate|].
  cbn [dict_get]. destruct (str_eqb k key) eqn:E.
  - intros [= ->]. apply str_eqb_eq in E. subst. left. reflexivity.
  - intros H. right. now apply IH.
Qed.

(** X3: the table of names and the table of codes agree.  A code is
    supported exactly when [get_language_name] knows a name for it; every
    other code is named "Unknown"; and [get_supported_languages] lists the
    five codes, each with its name. *)
Theorem language_names_cover_supported (lang_code : pystr) :
  (is_supported_language lang_code = true <->
   get_language_name lang_code <> u "Unknown")
  /\ (is_supported_language lang_code = false ->
      get_language_name lang_code = u "Unknown")
  /\ List.map fst get_supported_languages = supported_codes
  /\ Forall (fun entry => snd entry <> u "Unknown") get_supported_languages.
Proof.
  assert (Hcases : In lang_code supported_codes
                   \/ (is_supported_language lang_code = false
                       /\ get_language_name lang_code = u "Unknown")).
  { unfold is_supported_language, get_language_name, language_map, language_names.
    cbn [dict_get].
    repeat (destruct (str_eqb _ lang_code) eqn:E;
            [ left; apply str_eqb_eq in E; subst lang_code; vm_compute; tauto
            | clear E ]).
    right. split; reflexivity. }
  assert (Hsup : In lang_code supported_codes ->
                 is_supported_language lang_code = true
                 /\ get_language_name lang_code <> u "Unknown").
  { intros Hin. vm_compute in Hin.
    repeat (destruct Hin as [<-|Hin]; [split; [reflexivity|vm_compute; discriminate]|]).
    contradiction. }
  split; [|split; [|split]].
  - destruct Hcases as [Hin|[Hf Hn]].
    + destruct (Hsup Hin) as [Ht Hn]. rewrite Ht. tauto.
    + rewrite Hf, Hn. split; [discriminate|congruence].
  - intros Hf. destruct Hcases as [Hin|[_ Hn]]; [|exact Hn].
    destruct (Hsup Hin) as [Ht _]. congruence.
  - vm_compute. reflexivity.
  - unfold get_supported_languages, language_map. cbn [List.map fst snd].
    repeat constructor; vm_compute; discriminate.
Qed.

(** ** chatbot_engine.py: the score of a message *)

Lemma flt_irrefl (x : float) : flt x x = false.
Proof. apply flt_false. apply Qcle_refl. Qed.

Lemma float_eq (x y : float) : (x <= y)%Qc -> (y <= x)%Qc -> x = y.
Proof. apply Qcle_antisym. Qed.

Section Scoring.
Variable L : PyLib.
Variable ml : pystr.

Lemma keyword_signal_nonneg keyword : (f0_0 <= keyword_signal L ml keyword)%Qc.
Proof.
  unfold keyword_signal. cbv zeta.
  set (sub := if contains keyword ml then f0_8 else f0_0).
  assert (Hsub : (f0_0 <= sub)%Qc)
    by (subst sub; destruct (contains keyword ml); discriminate).
  destruct (fgt (seq_ratio L keyword ml) f0_6) eqn:H6; cbn [andb];
    [|exact Hsub].
  destruct (fgt (seq_ratio L keyword ml) sub); [|exact Hsub].
  unfold fgt in H6. apply flt_true in H6. apply Qclt_le_weak.
  eapply Qcle_lt_trans; [|exact H6]. discriminate.
Qed.

(** One pass of the inner loop: the pair changes exactly when the signal
    of the keyword is above the best score so far, and then it becomes
    the category of the keyword with that signal. *)
Lemma score_keyword_step category best keyword :
  (f0_0 <= snd best)%Qc ->
  (flt (snd best) (keyword_signal L ml keyword) = true ->
   score_keyword L ml category best keyword
   = (Some category, keyword_signal L ml keyword))
  /\ (flt (snd best) (keyword_signal L ml keyword) = false ->
      score_keyword L ml category best keyword = best).
Proof.
  intros H0. unfold score_keyword, keyword_signal, fgt.
  destruct best as [bm bs]. cbn [snd] in *.
  destruct (contains keyword ml).
  - destruct (flt bs f0_8) eqn:Hb8; cbn [snd];
      destruct (flt f0_6 (seq_ratio L keyword ml)) eqn:H6; cbn [andb];
      destruct (flt f0_8 (seq_ratio L keyword ml)) eqn:H8;
      try (destruct (flt bs (seq_ratio L keyword ml)) eqn:Hbs);
      rewrite ?Hb8, ?H8, ?Hbs, ?flt_irrefl;
      split; intros Hx; try reflexivity; try discriminate Hx; exfalso;
      repeat match goal with
             | H : flt _ _ = true |- _ => apply flt_true in H
             | H : flt _ _ = false |- _ => apply flt_false in H
             end;
      unfold Qclt, Qcle in *; cbn [this f0_8 f0_6 f0_0 Q2Qc] in *;
      rewrite ?Qred_correct in *; lra.
  - cbn [snd].
    destruct (flt f0_6 (seq_ratio L keyword ml)) eqn:H6; cbn [andb];
      destruct (flt f0_0 (seq_ratio L keyword ml)) eqn:H8;
      try (destruct (flt bs (seq_ratio L keyword ml)) eqn:Hbs);
      try (destruct (flt bs f0_0) eqn:Hb0);
      rewrite ?H8, ?Hbs, ?Hb0, ?flt_irrefl;
      split; intros Hx; try reflexivity; try discriminate Hx; exfalso;
      repeat match goal with
             | H : flt _ _ = true |- _ => apply flt_true in H
             | H : flt _ _ = false |- _ => apply flt_false in H
             end;
      unfold Qclt, Qcle in *; cbn [this f0_8 f0_6 f0_0 Q2Qc] in *;
      rewrite ?Qred_correct in *; lra.
Qed.

(** The two loops visit the keywords of [all_keywords] in order. *)
Lemma loops_are_one_fold (cats : list (pystr * category_data)) best :
  fold_left (score_category L ml) cats best
  = fold_left (visit L ml)
      (flat_map (fun entry => List.map (fun k => (fst entry, k))
                                       (keywords (snd entry))) cats)
      best.
Proof.
  revert best. induction cats as [|c cats IH]; intros best; [reflexivity|].
  cbn [fold_left flat_map]. rewrite fold_left_app, <- IH. f_equal.
  unfold score_category. generalize (keywords (snd c)). intros ks.
  revert best. induction ks as [|k ks IHk]; intros best; [reflexivity|].
  cbn [fold_left List.map]. rewrite IHk. reflexivity.
Qed.

Lemma first_maximum_nonneg seen best :
  first_maximum L ml seen best -> (f0_0 <= snd best)%Qc.
Proof.
  intros [[-> _]|(b & c & k & a & _ & -> & Hpos & _)]; cbn [snd].
  - apply Qcle_refl.
  - now apply Qclt_le_weak.
Qed.

Lemma first_maximum_visit seen best ck :
  first_maximum L ml seen best ->
  first_maximum L ml (seen ++ [ck]) (visit L ml best ck).
Proof.
  intros Hinv. pose proof (first_maximum_nonneg _ _ Hinv) as H0.
  destruct ck as [category keyword]. unfold visit. cbn [fst snd].
  destruct (score_keyword_step category best keyword H0) as [Hup Hkeep].
  destruct (flt (snd best) (keyword_signal L ml keyword)) eqn:Hcmp.
  - rewrite (Hup Hcmp). apply flt_true in Hcmp. right.
    exists seen, category, keyword, []. split; [reflexivity|].
    split; [reflexivity|]. split; [eapply Qcle_lt_trans; eauto|].
    split; [|constructor].
    destruct Hinv as [[-> Hz]|(b & c & k & a & -> & -> & Hpos & Hb & Ha)].
    + eapply Forall_impl; [exact Hz|]. intros x Hx. cbn beta in Hx.
      rewrite Hx. exact Hcmp.
    + cbn [snd] in Hcmp. apply Forall_app. split.
      * eapply Forall_impl; [exact Hb|]. intros x Hx. cbn beta in Hx.
        eapply Qclt_trans; eauto.
      * constructor; [exact Hcmp|].
        eapply Forall_impl; [exact Ha|]. intros x Hx. cbn beta in Hx.
        eapply Qcle_lt_trans; eauto.
  - rewrite (Hkeep Hcmp). apply flt_false in Hcmp.
    destruct Hinv as [[-> Hz]|(b & c & k & a & -> & -> & Hpos & Hb & Ha)].
    + left. split; [reflexivity|]. apply Forall_app. split; [exact Hz|].
      constructor; [|constructor]. cbn [snd] in *.
      apply float_eq; [exact Hcmp|apply keyword_signal_nonneg].
    + right. exists b, c, k, (a ++ [(category, keyword)]).
      split; [now rewrite <- app_assoc|]. split; [reflexivity|].
      split; [exact Hpos|]. split; [exact Hb|].
      apply Forall_app. split; [exact Ha|].
      constructor; [exact Hcmp|constructor].
Qed.

Lemma first_maximum_fold rest :
  forall seen best,
    first_maximum L ml seen best ->
    first_maximum L ml (seen ++ rest) (fold_left (visit L ml) rest best).
Proof.
  induction rest as [|ck rest IH]; intros seen best Hinv.
  - now rewrite app_nil_r.
  - cbn [fold_left].
    replace (seen ++ ck :: rest) with ((seen ++ [ck]) ++ rest)
      by (now rewrite <- app_assoc).
    apply IH. now apply first_maximum_visit.
Qed.

End Scoring.

(** Without a greeting keyword the result is read off the pair the two
    loops leave, and that pair is the first maximum over all keywords. *)
Lemma find_best_match_scan (L : PyLib) (kb : knowledge_base)
    (message language : pystr) :
  no_greeting L kb message ->
  exists best,
    _find_best_match L kb message language = (or_unknown (fst best), snd best)
    /\ first_maximum L (py_lower L message) (all_keywords kb) best.
Proof.
  intros Hg. unfold _find_best_match, no_greeting in *. rewrite Hg.
  rewrite loops_are_one_fold. fold (all_keywords kb).
  eexists. split; [reflexivity|].
  assert (Hinit : first_maximum L (py_lower L message) [] (None, f0_0))
    by (left; split; [reflexivity|constructor]).
  pose proof (first_maximum_fold L (py_lower L message) (all_keywords kb)
                [] (None, f0_0) Hinit) as H.
  rewrite app_nil_l in H. exact H.
Qed.

(** X4: when no greeting keyword occurs in the message, the confidence
    [_find_best_match] returns is the largest signal over all keywords of
    all categories (0.8 for a substring, the ratio when above 0.6), and the
    category is the one of the first keyword, in the order of the knowledge
    base, that reaches it: an earlier keyword scores strictly less, a later
    one at most as much.  When every signal is 0.0 the result is
    ("unknown", 0.0). *)
Theorem best_match_is_first_maximum (L : PyLib) (kb : knowledge_base)
    (message language : pystr) :
  no_greeting L kb message ->
  let ml := py_lower L message in
  let r := _find_best_match L kb message language in
  (r = (u "unknown", f0_0)
   /\ Forall (fun ck => keyword_signal L ml (snd ck) = f0_0) (all_keywords kb))
  \/ (exists before category keyword after,
        all_keywords kb = before ++ (category, keyword) :: after
        /\ r = (or_unknown (Some category), keyword_signal L ml keyword)
        /\ (f0_0 < keyword_signal L ml keyword)%Qc
        /\ Forall (fun ck => (keyword_signal L ml (snd ck)
                              < keyword_signal L ml keyword)%Qc) before
        /\ Forall (fun ck => (keyword_signal L ml (snd ck)
                              <= keyword_signal L ml keyword)%Qc) after).
Proof.
  intros Hg. cbv zeta.
  destruct (find_best_match_scan L kb message language Hg) as (best & -> & H).
  destruct H as [[-> Hz]|(b & c & k & a & Heq & -> & Hpos & Hb & Ha)].
  - left. split; [reflexivity|exact Hz].
  - right. exists b, c, k, a. cbn [fst snd]. repeat split; assumption.
Qed.

Lemma best_match_is_first_maximum_witness :
  no_greeting Sample.lib default_knowledge_base fee_question
  /\ exists before category keyword after,
       all_keywords default_knowledge_base
       = before ++ (category, keyword) :: after
       /\ _find_best_match Sample.lib default_knowledge_base fee_question (u "en")
          = (or_unknown (Some category),
             keyword_signal Sample.lib (py_lower Sample.lib fee_question) keyword).
Proof.
  assert (Hg : no_greeting Sample.lib default_knowledge_base fee_question)
    by (vm_compute; reflexivity).
  split; [exact Hg|].
  destruct (best_match_is_first_maximum Sample.lib default_knowledge_base
              fee_question (u "en") Hg)
    as [[H _]|(b & c & k & a & Heq & Hr & _)].
  - exfalso.
    rewrite (fee_question_best_match Sample.lib sample_ratio_bounded_by_shorter
               sample_lower_on_ascii) in H.
    apply (f_equal snd) in H. cbn [snd] in H. discriminate H.
  - exists b, c, k, a. split; assumption.
Defined.

(** X5: a message that contains a keyword of some category, and no greeting
    keyword, gets a confidence of at least 0.8 and is never handed off to a
    human: the reply is the response of a category, with no contact
    attached. *)
Theorem keyword_hit_is_answered (L : PyLib) (kb : knowledge_base)
    (now : pystr) (contexts : gmap pystr session_context)
    (message session_id language category keyword : pystr) :
  no_greeting L kb message ->
  In (category, keyword) (all_keywords kb) ->
  contains keyword (py_lower L message) = true ->
  let r := fst (process_message L kb now contexts message session_id language) in
  (f0_8 <= r_confidence r)%Qc
  /\ r_needs_human r = false
  /\ r_contact r = None
  /\ r_response r = _get_response kb (r_category r) language.
Proof.
  intros Hg Hin Hc. cbv zeta.
  assert (Hsig : (f0_8 <= keyword_signal L (py_lower L message) keyword)%Qc).
  { unfold keyword_signal. rewrite Hc.
    destruct (fgt (seq_ratio L keyword (py_lower L message)) f0_6); cbn [andb];
      [|apply Qcle_refl].
    destruct (fgt _ f0_8) eqn:E; [|apply Qcle_refl].
    unfold fgt in E. apply flt_true in E. now apply Qclt_le_weak. }
  destruct (_find_best_match L kb message language) as [cat conf] eqn:Er.
  assert (Hconf : (f0_8 <= conf)%Qc).
  { destruct (find_best_match_scan L kb message language Hg) as (best & Hr & H).
    rewrite Er in Hr.
    destruct H as [[-> Hz]|(b & c & k & a & Heq & -> & _ & Hb & Ha)];
      cbn [fst snd] in Hr.
    - rewrite List.Forall_forall in Hz. specialize (Hz _ Hin). cbn [snd] in Hz.
      rewrite Hz in Hsig. exfalso. apply Hsig. reflexivity.
    - injection Hr as _ ->. rewrite Heq in Hin.
      apply in_app_or in Hin as [Hin|[Hin|Hin]].
      + rewrite List.Forall_forall in Hb. specialize (Hb _ Hin). cbn [snd] in Hb.
        eapply Qcle_trans; [exact Hsig|]. now apply Qclt_le_weak.
      + injection Hin as _ <-. exact Hsig.
      + rewrite List.Forall_forall in Ha. specialize (Ha _ Hin). cbn [snd] in Ha.
        eapply Qcle_trans; eauto. }
  rewrite (process_message_reply L kb _ _ _ _ _ _ _ Er).
  assert (Hthr : flt conf confidence_threshold = false).
  { apply flt_false. eapply Qcle_trans; [|exact Hconf]. discriminate. }
  rewrite Hthr. cbn. repeat split. exact Hconf.
Qed.

Lemma keyword_hit_is_answered_witness :
  no_greeting Sample.lib default_knowledge_base fee_question
  /\ In (u "fees", u "fee") (all_keywords default_knowledge_base)
  /\ contains (u "fee") (py_lower Sample.lib fee_question) = true
  /\ r_needs_human
       (fst (process_message Sample.lib default_knowledge_base
               (u "2024-01-31 15:00:00") ∅ fee_question (u "s1") (u "en")))
     = false.
Proof.
  assert (Hg : no_greeting Sample.lib default_knowledge_base fee_question)
    by (vm_compute; reflexivity).
  assert (Hin : In (u "fees", u "fee") (all_keywords default_knowledge_base))
    by (vm_compute; tauto).
  assert (Hc : contains (u "fee") (py_lower Sample.lib fee_question) = true)
    by (vm_compute; reflexivity).
  split; [exact Hg|]. split; [exact Hin|]. split; [exact Hc|].
  exact (proj1 (proj2 (keyword_hit_is_answered Sample.lib default_knowledge_base
                         (u "2024-01-31 15:00:00") ∅ fee_question (u "s1")
                         (u "en") (u "fees") (u "fee") Hg Hin Hc))).
Defined.

(** ** conversation_logger.py: what every database state satisfies *)

Lemma upsert_session_other now sid lang tbl sid' :
  sid' <> sid -> upsert_session now sid lang tbl !! sid' = tbl !! sid'.
Proof.
  intros H. unfold upsert_session.
  destruct (tbl !! sid); rewrite lookup_insert_ne; congruence.
Qed.

Lemma upsert_session_same now sid lang tbl :
  exists row,
    upsert_session now sid lang tbl !! sid = Some row
    /\ message_count row
       = match tbl !! sid with
         | Some r => message_count r + 1
         | None => 1
         end.
Proof.
  unfold upsert_session.
  destruct (tbl !! sid) as [r|]; eexists; (split; [apply lookup_insert_eq|]);
    reflexivity.
Qed.

Lemma count_turns_first_block clk st sid um br lang conf cat nh sid' :
  count_turns (log_session_and_turn clk st sid um br lang conf cat nh) sid'
  = count_turns st sid' + (if str_eqb sid sid' then 1 else 0).
Proof.
  unfold count_turns, log_session_and_turn, insert_conversation.
  cbn [conversations]. rewrite List.filter_app, List.length_app.
  cbn [List.filter c_session_id].
  destruct (str_eqb sid sid'); cbn [length]; lia.
Qed.

Lemma filter_filter_length {A : Type} (p q : A -> bool) (l : list A) :
  (length (List.filter q (List.filter p l)) <= length (List.filter q l))%nat.
Proof.
  induction l as [|x l IH]; [reflexivity|].
  cbn [List.filter]. destruct (p x); cbn [List.filter];
    destruct (q x); cbn [length]; lia.
Qed.

Lemma filter_member_length {A : Type} (q : A -> bool) (l : list A) (x : A) :
  In x l -> q x = true -> (1 <= length (List.filter q l))%nat.
Proof.
  intros Hin Hq.
  assert (H : In x (List.filter q l)) by (apply List.filter_In; now split).
  destruct (List.filter q l); [contradiction|cbn [length]; lia].
Qed.



(** The sessions a cleanup keeps are those of the turns it keeps. *)
Lemma cleanup_sessions cut st sid row :
  sessions (delete_older cut st) !! sid = Some row ->
  sessions st !! sid = Some row
  /\ exists c, In c (conversations (delete_older cut st))
               /\ c_session_id c = sid.
Proof.
  unfold delete_older. cbn [sessions conversations]. intros H.
  apply map_lookup_filter_Some in H as [H Hin]. split; [exact H|].
  cbn [fst] in Hin. apply list_elem_of_In, in_map_iff in Hin as (c & Hc & Hin).
  exists c. split; assumption.
Qed.

Lemma filter_none_length {A : Type} (q : A -> bool) (l : list A) :
  (forall x, In x l -> q x = false) -> length (List.filter q l) = 0%nat.
Proof.
  induction l as [|x l IH]; intros H; [reflexivity|].
  cbn [List.filter]. rewrite (H x) by (left; reflexivity).
  apply IH. intros y Hy. apply H. right. exact Hy.
Qed.

(** Without a session row there is no turn of the session. *)
Lemma count_turns_unknown_session st sid :
  sessions_exist st -> sessions st !! sid = None -> count_turns st sid = 0.
Proof.
  intros Hex Hnone. unfold count_turns. rewrite filter_none_length; [reflexivity|].
  intros c Hc. cbn beta. apply str_eqb_neq. intros E.
  destruct (Hex c Hc) as [row Hrow]. rewrite E in Hrow. congruence.
Qed.

Lemma step_keeps_sessions_exist (st st' : store) :
  step st st' -> sessions_exist st -> sessions_exist st'.
Proof.
  intros Hstep Hinv.
  destruct Hstep as [k st sid um br lang conf cat nh|k st lang cat conf nh|k st days].
  - intros c Hc. unfold log_session_and_turn, insert_conversation in *.
    cbn [conversations sessions] in *.
    destruct (decide (c_session_id c = sid)) as [->|Hne].
    + destruct (upsert_session_same (sqlite_now k) sid lang (sessions st))
        as (row & -> & _). eauto.
    + rewrite upsert_session_other by exact Hne.
      apply in_app_or in Hc as [Hc|[<-|[]]]; [now apply Hinv|].
      now contradiction Hne.
  - exact Hinv.
  - destruct (cleanup_result k st days) as [E|(cut & _ & E)]; rewrite E;
      [exact Hinv|]. cbn [fst].
    intros c Hc. unfold delete_older in *. cbn [conversations sessions] in *.
    pose proof Hc as Hc'. apply List.filter_In in Hc' as [Hc' _].
    destruct (Hinv c Hc') as [row Hrow]. exists row.
    apply map_lookup_filter_Some. split; [exact Hrow|]. cbn [fst].
    apply list_elem_of_In, in_map_iff. exists c. split; [reflexivity|exact Hc].
Qed.

Lemma step_keeps_session_counts (st st' : store) :
  step st st' ->
  sessions_exist st ->
  (forall sid row, sessions st !! sid = Some row ->
                   1 <= count_turns st sid <= message_count row) ->
  forall sid row, sessions st' !! sid = Some row ->
                  1 <= count_turns st' sid <= message_count row.
Proof.
  intros Hstep Hex Hinv.
  destruct Hstep as [k st sid um br lang conf cat nh|k st lang cat conf nh|k st days];
    intros sid' row Hrow.
  - rewrite count_turns_first_block.
    unfold log_session_and_turn, insert_conversation in Hrow.
    cbn [sessions] in Hrow.
    destruct (decide (sid' = sid)) as [->|Hne].
    + rewrite str_eqb_refl.
      destruct (upsert_session_same (sqlite_now k) sid lang (sessions st))
        as (row' & Hrow' & Hcount).
      rewrite Hrow' in Hrow. injection Hrow as <-. rewrite Hcount.
      destruct (sessions st !! sid) as [r|] eqn:Hr.
      * specialize (Hinv _ _ Hr). lia.
      * rewrite (count_turns_unknown_session st sid Hex Hr). lia.
    + rewrite upsert_session_other in Hrow by exact Hne.
      assert (E : str_eqb sid sid' = false) by (apply str_eqb_neq; congruence).
      rewrite E. specialize (Hinv _ _ Hrow). lia.
  - exact (Hinv _ _ Hrow).
  - destruct (cleanup_result k st days) as [E|(cut & _ & E)]; rewrite E in *;
      [exact (Hinv _ _ Hrow)|]. cbn [fst] in *.
    apply cleanup_sessions in Hrow as (Hrow & c & Hc & Hsid).
    specialize (Hinv _ _ Hrow). unfold count_turns in *.
    unfold delete_older in *. cbn [conversations] in *. split.
    + assert (Hq : str_eqb (c_session_id c) sid' = true)
        by (apply str_eqb_eq; exact Hsid).
      pose proof (filter_member_length
                    (fun c => str_eqb (c_session_id c) sid') _ c Hc Hq).
      lia.
    + pose proof (filter_filter_length
                    (fun c => negb (text_ltb (c_timestamp c) (isoformat cut)))
                    (fun c => str_eqb (c_session_id c) sid')
                    (conversations st)).
      lia.
Qed.

(** X6: the foreign key of [conversations] is never declared to SQLite as
    enforced, yet it holds in every state the logger can reach from a new
    database: every turn belongs to a session that exists, every session
    has at least one turn, and [message_count] is never below the number
    of turns the session still has (a cleanup can make it larger). *)
Theorem sessions_and_turns_agree (st : store) :
  reachable st ->
  sessions_exist st
  /\ forall sid row, sessions st !! sid = Some row ->
                     1 <= count_turns st sid <= message_count row.
Proof.
  induction 1 as [|st st' _ [IH1 IH2] Hstep].
  - split; [intros c []|]. intros sid row Hrow.
    cbn [init_database sessions] in Hrow. rewrite lookup_empty in Hrow.
    discriminate.
  - split.
    + eapply step_keeps_sessions_exist; eauto.
    + eapply step_keeps_session_counts; eauto.
Qed.

Lemma sessions_and_turns_agree_witness :
  reachable (log_turns init_database [Sample.first_turn; Sample.second_turn])
  /\ sessions_exist
       (log_turns init_database [Sample.first_turn; Sample.second_turn]).
Proof.
  assert (H : reachable (log_turns init_database
                           [Sample.first_turn; Sample.second_turn]))
    by (repeat apply log_turn_reachable; apply reach_init).
  split; [exact H|].
  exact (proj1 (sessions_and_turns_agree _ H)).
Defined.

(** *** The ids of the turns *)

Lemma ids_increase_weaken b b' rows :
  b <= b' -> ids_increase b rows -> ids_increase b' rows.
Proof.
  intros Hb. induction rows as [|c rows IH]; [trivial|].
  cbn [ids_increase]. intros (H1 & H2 & H3). repeat split; [lia|exact H2|auto].
Qed.

Lemma ids_increase_bound b rows :
  ids_increase b rows -> Forall (fun c => c_id c <= b) rows.
Proof.
  induction rows as [|c rows IH]; [constructor|].
  cbn [ids_increase]. intros (H1 & _ & H3). constructor; auto.
Qed.

Lemma ids_increase_snoc b rows c :
  ids_increase b rows -> c_id c = b + 1 -> ids_increase (b + 1) (rows ++ [c]).
Proof.
  intros H Hc. induction rows as [|r rows IH].
  - cbn. repeat split; [lia|constructor].
  - cbn [ids_increase] in H. destruct H as (H1 & H2 & H3).
    change ((r :: rows) ++ [c]) with (r :: (rows ++ [c])).
    cbn [ids_increase]. repeat split; [lia| |auto].
    apply Forall_app. split; [exact H2|]. constructor; [lia|constructor].
Qed.

Lemma ids_increase_filter (p : conversation_row -> bool) b rows :
  ids_increase b rows -> ids_increase b (List.filter p rows).
Proof.
  induction rows as [|r rows IH]; [trivial|].
  cbn [ids_increase List.filter]. intros (H1 & H2 & H3).
  destruct (p r); [|auto]. cbn [ids_increase]. repeat split; [exact H1| |auto].
  rewrite List.Forall_forall in *. intros x Hx.
  apply List.filter_In in Hx as [Hx _]. auto.
Qed.

Lemma ids_increase_nodup b rows :
  ids_increase b rows -> List.NoDup (List.map c_id rows).
Proof.
  induction rows as [|r rows IH]; [constructor|].
  cbn [ids_increase List.map]. intros (_ & H2 & H3). constructor; [|auto].
  intros Hin. apply in_map_iff in Hin as (x & Hx & Hin).
  rewrite List.Forall_forall in H2. specialize (H2 _ Hin). lia.
Qed.

Lemma step_keeps_ids (st st' : store) :
  step st st' ->
  ids_increase (conversations_seq st) (conversations st) ->
  ids_increase (conversations_seq st') (conversations st').
Proof.
  intros Hstep IH.
  destruct Hstep as [k st sid um br lang conf cat nh|k st lang cat conf nh|k st days].
  - unfold log_session_and_turn, insert_conversation.
    cbn [conversations conversations_seq].
    apply ids_increase_snoc; [exact IH|reflexivity].
  - exact IH.
  - destruct (cleanup_result k st days) as [E|(cut & _ & E)]; rewrite E;
      [exact IH|]. cbn [fst delete_older conversations conversations_seq].
    now apply ids_increase_filter.
Qed.

(** One step never lowers the counter, and a turn it leaves in the table
    with an id up to the old counter was in the table before. *)
Lemma step_keeps_issued_ids (st st' : store) :
  step st st' ->
  conversations_seq st <= conversations_seq st'
  /\ forall c, In c (conversations st') -> c_id c <= conversations_seq st ->
               In c (conversations st).
Proof.
  intros Hstep.
  destruct Hstep as [k st sid um br lang conf cat nh|k st lang cat conf nh|k st days].
  - unfold log_session_and_turn, insert_conversation.
    cbn [conversations conversations_seq]. split; [lia|].
    intros c Hc Hid. apply in_app_or in Hc as [Hc|[<-|[]]]; [exact Hc|].
    cbn [c_id] in Hid. lia.
  - cbn [_update_daily_stats conversations conversations_seq].
    split; [lia|]. intros c Hc _. exact Hc.
  - destruct (cleanup_result k st days) as [E|(cut & _ & E)]; rewrite E.
    + split; [lia|]. intros c Hc _. exact Hc.
    + cbn [fst delete_older conversations conversations_seq]. split; [lia|].
      intros c Hc _. apply List.filter_In in Hc as [Hc _]. exact Hc.
Qed.

(** X7: ids of turns are never reused.  In every state the logger can
    reach from a new database the ids grow along the table, no two turns
    share an id and none is above the AUTOINCREMENT counter; and along
    every run from such a state, whatever it logs and cleans up, the
    counter never goes down, and a turn found in the table with an id up
    to the earlier counter is a turn that was in the table then and has
    stayed: the id of a turn that a cleanup deleted in between is not
    given to a later turn. *)
Theorem turn_ids_never_reused (st st' : store) :
  reachable st ->
  rtc step st st' ->
  ids_increase (conversations_seq st) (conversations st)
  /\ List.NoDup (List.map c_id (conversations st'))
  /\ conversations_seq st <= conversations_seq st'
  /\ forall c, In c (conversations st') -> c_id c <= conversations_seq st ->
               In c (conversations st).
Proof.
  intros Hr Hrun.
  assert (H : ids_increase (conversations_seq st) (conversations st)).
  { clear Hrun. induction Hr as [|st0 st1 _ IH Hstep]; [exact I|].
    eapply step_keeps_ids; eauto. }
  split; [exact H|].
  assert (Hrun' : ids_increase (conversations_seq st') (conversations st')
                  /\ conversations_seq st <= conversations_seq st'
                  /\ forall c, In c (conversations st') ->
                               c_id c <= conversations_seq st ->
                               In c (conversations st)).
  { clear Hr. induction Hrun as [st|st st1 st2 Hstep _ IH].
    - split; [exact H|]. split; [lia|]. intros c Hc _. exact Hc.
    - destruct (step_keeps_issued_ids _ _ Hstep) as [Hseq Hold].
      destruct (IH (step_keeps_ids _ _ Hstep H)) as (Hids & Hseq' & Hold').
      split; [exact Hids|]. split; [lia|].
      intros c Hc Hid. apply Hold; [|exact Hid].
      apply Hold'; [exact Hc|lia]. }
  destruct Hrun' as (Hids & Hseq & Hold).
  split; [eapply ids_increase_nodup; exact Hids|]. split; assumption.
Qed.

Lemma turn_ids_never_reused_witness :
  let st := log_turn init_database Sample.first_turn in
  let st' := log_turn (fst (cleanup_old_logs Sample.mar01_10am st 30))
                      Sample.second_turn in
  reachable st
  /\ rtc step st st'
  /\ List.map c_id (conversations st) = [1]
  /\ List.map c_id (conversations st') = [2]
  /\ conversations_seq st <= conversations_seq st'.
Proof.
  cbv zeta.
  assert (H : reachable (log_turn init_database Sample.first_turn))
    by (apply log_turn_reachable; apply reach_init).
  assert (Hrun : rtc step (log_turn init_database Sample.first_turn)
                   (log_turn (fst (cleanup_old_logs Sample.mar01_10am
                                     (log_turn init_database Sample.first_turn) 30))
                             Sample.second_turn)).
  { eapply rtc_l; [apply step_cleanup|].
    unfold log_turn at 1, log_conversation, log_conversation_commits.
    cbn [List.last fst].
    eapply rtc_l; [apply step_first_block|].
    eapply rtc_l; [apply step_second_block|]. apply rtc_refl. }
  split; [exact H|]. split; [exact Hrun|].
  split; [vm_compute; reflexivity|]. split; [vm_compute; reflexivity|].
  exact (proj1 (proj2 (proj2 (turn_ids_never_reused _ _ H Hrun)))).
Defined.

(** ** conversation_logger.py: [cleanup_old_logs] *)

Lemma text_ltb_irrefl (a : pystr) : text_ltb a a = false.
Proof.
  induction a as [|c a IH]; [reflexivity|].
  cbn [text_ltb]. rewrite N.ltb_irrefl. exact IH.
Qed.

Lemma text_ltb_app (p a b : pystr) : text_ltb (p ++ a) (p ++ b) = text_ltb a b.
Proof.
  induction p as [|c p IH]; [reflexivity|].
  cbn [Datatypes.app text_ltb]. rewrite N.ltb_irrefl. exact IH.
Qed.

(** On one calendar day the text of [CURRENT_TIMESTAMP] sorts before the
    text of [isoformat()], whatever the two times of day: the texts first
    differ at the separator, a space in the one and a T in the other. *)
Lemma same_day_sorts_before (t cut : datetime) :
  ordinal t = ordinal cut ->
  text_ltb (current_timestamp t) (isoformat cut) = true.
Proof.
  intros Hord. unfold current_timestamp, isoformat. rewrite Hord.
  rewrite text_ltb_app.
  replace (u " ") with [32%N] by (vm_compute; reflexivity).
  replace (u "T") with [84%N] by (vm_compute; reflexivity).
  reflexivity.
Qed.




(** X9: a cleanup that computes its cutoff deletes every turn stored on
    the calendar day of the cutoff, also the turns stored later in that
    day than the cutoff's time of day, and it keeps the statistics row of
    that day. *)
Theorem cleanup_on_the_cutoff_day (k : clock) (st : store) (days_to_keep : Z)
    (c : conversation_row) (t cut : datetime) :
  In c (conversations st) ->
  c_timestamp c = current_timestamp t ->
  cutoff k days_to_keep = Some cut ->
  ordinal t = ordinal cut ->
  snd (cleanup_old_logs k st days_to_keep) = None
  /\ ~ In c (conversations (fst (cleanup_old_logs k st days_to_keep)))
  /\ daily_stats (fst (cleanup_old_logs k st days_to_keep))
       !! date_isoformat (ordinal t)
     = daily_stats st !! date_isoformat (ordinal t).
Proof.
  intros Hin Hts Hcut Hord. unfold cutoff in Hcut.
  unfold cleanup_old_logs. rewrite Hcut. cbn [fst snd].
  split; [reflexivity|]. split.
  - unfold delete_older. cbn [conversations]. intros Hc.
    apply List.filter_In in Hc as [_ Hc].
    rewrite Hts, (same_day_sorts_before t _ Hord) in Hc. discriminate Hc.
  - unfold delete_older. cbn [daily_stats]. rewrite <- Hord.
    apply option_eq. intros row. rewrite map_lookup_filter_Some. cbn [fst].
    rewrite text_ltb_irrefl. tauto.
Qed.

Lemma cleanup_on_the_cutoff_day_witness :
  let row := {| c_id := 1; c_session_id := u "s1";
                c_timestamp := current_timestamp (Sample.at_time 738916 15 0 0);
                c_user_message := u "What is the fee deadline?";
                c_bot_response := u "Fee payment deadline";
                c_language := u "en"; c_confidence := f0_8;
                c_category := None; c_needs_human := false |} in
  let st := {| sessions := ∅; conversations := [row]; conversations_seq := 1;
               daily_stats := ∅ |} in
  In row (conversations st)
  /\ cutoff Sample.mar01_10am 30 = Some (Sample.at_time 738916 10 0 0)
  /\ ~ In row (conversations (fst (cleanup_old_logs Sample.mar01_10am st 30))).
Proof.
  cbv zeta.
  split; [left; reflexivity|]. split; [reflexivity|].
  match goal with
  | |- ~ In ?r (conversations (fst (cleanup_old_logs _ ?s _))) =>
      refine (proj1 (proj2 (cleanup_on_the_cutoff_day Sample.mar01_10am s 30 r
                              (Sample.at_time 738916 15 0 0)
                              (Sample.at_time 738916 10 0 0) _ _ _ _)))
  end; [left; reflexivity|reflexivity|reflexivity|reflexivity].
Defined.

(** ** BACKEND/main.py: what [/chat] answers and what it records *)

Lemma reply_contact (L : PyLib) (kb : knowledge_base)
    now contexts message session_id language :
  let r := fst (process_message L kb now contexts message session_id language) in
  r_contact r = if r_needs_human r then Some (kb_contact kb) else None.
Proof.
  cbv zeta.
  destruct (_find_best_match L kb message language) as [category confidence] eqn:E.
  rewrite (process_message_reply L kb _ _ _ _ _ _ _ E).
  destruct (flt confidence confidence_threshold); reflexivity.
Qed.

(** X10: the hand-off reply never reaches the client.  When no database
    call raises, a reply of [process_message] that asks for a human makes
    [ChatResponse(...)] raise, and [chat] answers HTTP 500; every other
    reply is sent with [needs_human] false and without a contact.  In both
    cases the turn has been stored before. *)
Theorem handoff_reply_is_http_500 (L : PyLib) (kb : knowledge_base)
    (env : request_env) (a : app) (msg : ChatMessage) :
  db_fault env = NoFault ->
  let r := fst (chat_reply L kb env a msg) in
  let out := chat L kb env a msg in
  (r_needs_human r = true -> fst out = Http500 ValidationError)
  /\ (r_needs_human r = false ->
      exists body,
        fst out = Http200 body
        /\ response body = r_response r
        /\ needs_human body = false
        /\ suggested_contact body = None)
  /\ exists row,
       conversations (db (snd out)) = conversations (db a) ++ [row]
       /\ c_user_message row = message msg
       /\ c_bot_response row = r_response r.
Proof.
  intros Hf. cbv zeta. split; [|split].
  - intros Hh. unfold chat.
    pose proof (reply_contact L kb (now_text env) (session_contexts a)
                  (message msg) (chat_session env msg) (chat_language L msg))
      as Hc.
    cbv zeta in Hc. fold (chat_reply L kb env a msg) in Hc. rewrite Hh in Hc.
    destruct (chat_reply L kb env a msg) as [r contexts]. cbn [fst] in *.
    rewrite Hf. unfold log_conversation. cbn [fst snd].
    unfold make_response. rewrite Hc. reflexivity.
  - intros Hh. unfold chat.
    pose proof (reply_contact L kb (now_text env) (session_contexts a)
                  (message msg) (chat_session env msg) (chat_language L msg))
      as Hc.
    cbv zeta in Hc. fold (chat_reply L kb env a msg) in Hc. rewrite Hh in Hc.
    destruct (chat_reply L kb env a msg) as [r contexts]. cbn [fst] in *.
    rewrite Hf. unfold log_conversation. cbn [fst snd].
    unfold make_response. rewrite Hc. eexists. split; [reflexivity|].
    cbn [response needs_human suggested_contact]. auto.
  - rewrite chat_db, Hf. unfold log_conversation, log_conversation_commits.
    cbn [List.last fst]. unfold _update_daily_stats. cbn [conversations].
    unfold log_session_and_turn, insert_conversation. cbn [conversations].
    eexists. split; [reflexivity|]. split; reflexivity.
Qed.

Lemma handoff_reply_is_http_500_witness :
  db_fault (Sample.env_with NoFault) = NoFault
  /\ fst (chat Sample.lib default_knowledge_base (Sample.env_with NoFault)
            Sample.empty_app
            {| message := u "xyz"; session_id := None; language := None |})
     = Http500 ValidationError.
Proof.
  split; [reflexivity|].
  apply (proj1 (handoff_reply_is_http_500 Sample.lib default_knowledge_base
                  (Sample.env_with NoFault) Sample.empty_app
                  {| message := u "xyz"; session_id := None; language := None |}
                  eq_refl)).
  vm_compute. reflexivity.
Defined.

(** What [chat] passes to the logger keeps true of a database: no turn
    carries a category or the hand-off flag, and no daily row counts a
    hand-off or a category. *)
Lemma log_without_category f k st sid um br lang conf :
  (Forall (fun c => c_category c = None /\ c_needs_human c = false)
          (conversations st)
   /\ map_Forall (fun _ row => human_handoff_count row = 0
                               /\ categories_breakdown row = ∅)
                 (daily_stats st)) ->
  let st' := fst (log_conversation f k st sid um br lang conf None false) in
  Forall (fun c => c_category c = None /\ c_needs_human c = false)
         (conversations st')
  /\ map_Forall (fun _ row => human_handoff_count row = 0
                              /\ categories_breakdown row = ∅)
                (daily_stats st').
Proof.
  intros [Hc Hd]. cbv zeta.
  assert (Hc1 : Forall (fun c => c_category c = None /\ c_needs_human c = false)
                  (conversations (log_session_and_turn k st sid um br lang conf
                                    None false))).
  { unfold log_session_and_turn, insert_conversation. cbn [conversations].
    apply Forall_app. split; [exact Hc|]. constructor; [|constructor].
    split; reflexivity. }
  unfold log_conversation, log_conversation_commits.
  destruct f as [|e|e]; cbn [List.last fst].
  - split; [exact Hc1|].
    unfold _update_daily_stats. cbn [daily_stats].
    unfold log_session_and_turn, insert_conversation. cbn [daily_stats].
    apply map_Forall_insert_2; [|exact Hd].
    destruct (daily_stats st !! _) as [row|] eqn:Hrow.
    + destruct (Hd _ _ Hrow) as [Hh Hcat].
      cbn [next_daily_stat truthy human_handoff_count categories_breakdown].
      split; [lia|exact Hcat].
    + cbn [next_daily_stat truthy human_handoff_count categories_breakdown].
      split; reflexivity.
  - split; assumption.
  - split; [exact Hc1|exact Hd].
Qed.

Lemma serve_without_category (L : PyLib) (kb : knowledge_base)
    (requests : list (request_env * ChatMessage)) :
  forall a : app,
    (Forall (fun c => c_category c = None /\ c_needs_human c = false)
            (conversations (db a))
     /\ map_Forall (fun _ row => human_handoff_count row = 0
                                 /\ categories_breakdown row = ∅)
                   (daily_stats (db a))) ->
    Forall (fun c => c_category c = None /\ c_needs_human c = false)
           (conversations (db (serve L kb a requests)))
    /\ map_Forall (fun _ row => human_handoff_count row = 0
                                /\ categories_breakdown row = ∅)
                  (daily_stats (db (serve L kb a requests))).
Proof.
  induction requests as [|rq requests IH]; intros a Ha; [exact Ha|].
  unfold serve. cbn [fold_left]. apply IH. rewrite chat_db.
  now apply log_without_category.
Qed.

(** X11: whatever requests [/chat] serves on a new database, and whether
    or not database calls raise, no stored turn has a category or the
    hand-off flag, and every row of the daily statistics has
    [human_handoff_count] 0 and an empty [categories_breakdown]: [chat]
    passes neither the category nor [needs_human] to the logger. *)
Theorem chat_never_records_handoff (L : PyLib) (kb : knowledge_base)
    (contexts : gmap pystr session_context)
    (requests : list (request_env * ChatMessage)) :
  let a := serve L kb {| session_contexts := contexts; db := init_database |}
                 requests in
  Forall (fun c => c_category c = None /\ c_needs_human c = false)
         (conversations (db a))
  /\ forall d row, get_daily_stats (db a) d = Some row ->
                   human_handoff_count row = 0 /\ categories_breakdown row = ∅.
Proof.
  cbv zeta. unfold get_daily_stats.
  apply (serve_without_category L kb requests
           {| session_contexts := contexts; db := init_database |}).
  cbn [db init_database conversations daily_stats].
  split; [constructor|apply map_Forall_empty].
Qed.

(** ** conversation_logger.py: the counters against the turns logged *)

Lemma count_where_snoc (p : turn -> bool) (ts : list turn) (t : turn) :
  count_where p (ts ++ [t]) = count_where p ts + (if p t then 1 else 0).
Proof.
  unfold count_where. rewrite List.filter_app, List.length_app.
  cbn [List.filter]. destruct (p t); cbn [length]; lia.
Qed.

Lemma count_where_nonneg (p : turn -> bool) (ts : list turn) :
  0 <= count_where p ts.
Proof. unfold count_where. lia. Qed.

Lemma count_where_and (p q : turn -> bool) (ts : list turn) :
  count_where (fun t => p t && q t) ts <= count_where p ts.
Proof.
  unfold count_where. induction ts as [|t ts IH]; [reflexivity|].
  cbn [List.filter]. destruct (p t), (q t); cbn [andb length]; lia.
Qed.

Lemma log_turns_snoc (st : store) (ts : list turn) (t : turn) :
  log_turns st (ts ++ [t]) = log_turn (log_turns st ts) t.
Proof. unfold log_turns. rewrite fold_left_app. reflexivity. Qed.

Lemma incr_lookup (key l : pystr) (d : gmap pystr Z) :
  default 0 (incr key d !! l)
  = default 0 (d !! l) + (if str_eqb key l then 1 else 0).
Proof.
  unfold incr. destruct (str_eqb key l) eqn:E.
  - apply str_eqb_eq in E. subst l. rewrite lookup_insert_eq. reflexivity.
  - apply str_eqb_neq in E. rewrite lookup_insert_ne by exact E. lia.
Qed.

Lemma singleton_lookup (key l : pystr) :
  default 0 (({[ key := 1 ]} : gmap pystr Z) !! l)
  = if str_eqb key l then 1 else 0.
Proof.
  destruct (str_eqb key l) eqn:E.
  - apply str_eqb_eq in E. subst l. rewrite lookup_singleton_eq. reflexivity.
  - apply str_eqb_neq in E. rewrite lookup_singleton_ne by exact E. reflexivity.
Qed.

(** The counters of a daily row against a list of turns. *)
Lemma daily_row_after_turn (d : pystr) (ts : list turn) (t : turn)
    (old : option daily_stat_row) :
  today t = d ->
  match old with
  | None => count_where (on_day d) ts = 0
  | Some row =>
      0 < total_conversations row
      /\ total_conversations row = count_where (on_day d) ts
      /\ human_handoff_count row
         = count_where (fun t => on_day d t && t_needs_human t) ts
      /\ (forall l, default 0 (languages_breakdown row !! l)
                    = count_where (fun t => on_day d t
                                            && str_eqb (t_language t) l) ts)
      /\ (forall c, default 0 (categories_breakdown row !! c)
                    = count_where (fun t => on_day d t && counted_under c t) ts)
  end ->
  let row := next_daily_stat old (t_language t) (t_category t)
                             (t_confidence t) (t_needs_human t) in
  0 < total_conversations row
  /\ total_conversations row = count_where (on_day d) (ts ++ [t])
  /\ human_handoff_count row
     = count_where (fun t => on_day d t && t_needs_human t) (ts ++ [t])
  /\ (forall l, default 0 (languages_breakdown row !! l)
                = count_where (fun t => on_day d t
                                        && str_eqb (t_language t) l) (ts ++ [t]))
  /\ (forall c, default 0 (categories_breakdown row !! c)
                = count_where (fun t => on_day d t && counted_under c t)
                              (ts ++ [t])).
Proof.
  intros Hd Hold. cbv zeta. rewrite !count_where_snoc.
  assert (Hon : on_day d t = true) by (apply str_eqb_eq; exact Hd).
  rewrite Hon. cbn [andb].
  destruct old as [row|].
  - destruct Hold as (Hpos & Htot & Hh & Hl & Hc).
    cbn [next_daily_stat total_conversations human_handoff_count
         languages_breakdown categories_breakdown].
    split; [lia|]. split; [lia|]. split; [rewrite Hh; reflexivity|]. split.
    + intros l. rewrite count_where_snoc, Hon. cbn [andb].
      rewrite incr_lookup, Hl. reflexivity.
    + intros c. rewrite count_where_snoc, Hon. cbn [andb].
      unfold counted_under at 2.
      destruct (truthy (t_category t)) as [c'|].
      * rewrite incr_lookup, Hc. reflexivity.
      * rewrite Hc. lia.
  - assert (Hz : forall q, count_where (fun t => on_day d t && q t) ts = 0).
    { intros q. pose proof (count_where_and (on_day d) q ts).
      pose proof (count_where_nonneg (fun t => on_day d t && q t) ts). lia. }
    cbn [next_daily_stat total_conversations human_handoff_count
         languages_breakdown categories_breakdown].
    split; [lia|]. split; [lia|]. split; [rewrite Hz; reflexivity|]. split.
    + intros l. rewrite count_where_snoc, Hon. cbn [andb].
      rewrite singleton_lookup, Hz. reflexivity.
    + intros c. rewrite count_where_snoc, Hon. cbn [andb].
      unfold counted_under at 2. rewrite Hz.
      destruct (truthy (t_category t)) as [c'|].
      * rewrite singleton_lookup. reflexivity.
      * rewrite lookup_empty. reflexivity.
Qed.

(** X12: after any sequence of calls of [log_conversation] on a new
    database in which nothing raises, [get_daily_stats] has a row for a
    date exactly when a turn was logged on it, and the counters of the row
    are the numbers of turns of that date: all of them, those that needed a
    human, those of each language, and those of each category that is
    neither [None] nor empty. *)
Theorem daily_counters_count_turns (ts : list turn) (d : pystr) :
  match get_daily_stats (log_turns init_database ts) d with
  | None => count_where (on_day d) ts = 0
  | Some row =>
      0 < total_conversations row
      /\ total_conversations row = count_where (on_day d) ts
      /\ human_handoff_count row
         = count_where (fun t => on_day d t && t_needs_human t) ts
      /\ (forall l, default 0 (languages_breakdown row !! l)
                    = count_where (fun t => on_day d t
                                            && str_eqb (t_language t) l) ts)
      /\ (forall c, default 0 (categories_breakdown row !! c)
                    = count_where (fun t => on_day d t && counted_under c t) ts)
  end.
Proof.
  unfold get_daily_stats.
  induction ts as [|t ts IH] using rev_ind.
  - cbn [log_turns fold_left init_database daily_stats].
    rewrite lookup_empty. reflexivity.
  - rewrite log_turns_snoc, daily_stats_log_turn.
    destruct (decide (today t = d)) as [Hd|Hd].
    + subst d. rewrite lookup_insert_eq.
      apply (daily_row_after_turn (today t) ts t _ eq_refl). exact IH.
    + rewrite lookup_insert_ne by exact Hd.
      assert (Hon : on_day d t = false) by (apply str_eqb_neq; exact Hd).
      rewrite !count_where_snoc, Hon. cbn [andb].
      destruct (daily_stats (log_turns init_database ts) !! d) as [row|].
      * destruct IH as (Hpos & Htot & Hh & Hl & Hc).
        split; [exact Hpos|]. split; [lia|]. split; [lia|]. split.
        -- intros l. rewrite count_where_snoc, Hon. cbn [andb].
           rewrite Hl. lia.
        -- intros c. rewrite count_where_snoc, Hon. cbn [andb].
           rewrite Hc. lia.
      * lia.
Qed.

(** *** The counter of a session *)

Lemma sessions_log_turn (st : store) (t : turn) :
  sessions (log_turn st t)
  = upsert_session (sqlite_now (t_clock t)) (t_session_id t) (t_language t)
                   (sessions st).
Proof. reflexivity. Qed.

Lemma count_turns_log_turn (st : store) (t : turn) (sid : pystr) :
  count_turns (log_turn st t) sid
  = count_turns st sid + (if of_session sid t then 1 else 0).
Proof.
  unfold of_session.
  rewrite <- (count_turns_first_block (t_clock t) st (t_session_id t)
                (t_user_message t) (t_bot_response t) (t_language t)
                (t_confidence t) (t_category t) (t_needs_human t) sid).
  reflexivity.
Qed.

(** X13: as long as no cleanup runs, the [message_count] of a session is
    the number of its turns: after any sequence of calls of
    [log_conversation] on a new database in which nothing raises, a session
    has a row exactly when it has a turn, and both the column and the
    count of its rows in [conversations] are the number of calls made for
    it. *)
Theorem message_count_counts_turns (ts : list turn) (sid : pystr) :
  count_turns (log_turns init_database ts) sid = count_where (of_session sid) ts
  /\ match sessions (log_turns init_database ts) !! sid with
     | None => count_where (of_session sid) ts = 0
     | Some row => message_count row = count_where (of_session sid) ts
                   /\ 0 < message_count row
     end.
Proof.
  induction ts as [|t ts [IH1 IH2]] using rev_ind.
  - split; [reflexivity|].
    cbn [log_turns fold_left init_database sessions]. rewrite lookup_empty.
    reflexivity.
  - rewrite log_turns_snoc, count_turns_log_turn, sessions_log_turn.
    rewrite !count_where_snoc. split; [lia|].
    change (of_session sid t) with (str_eqb (t_session_id t) sid).
    destruct (str_eqb (t_session_id t) sid) eqn:E.
    + apply str_eqb_eq in E. subst sid.
      destruct (upsert_session_same (sqlite_now (t_clock t)) (t_session_id t)
                  (t_language t) (sessions (log_turns init_database ts)))
        as (row & -> & Hcount).
      rewrite Hcount. revert IH2.
      destruct (sessions (log_turns init_database ts) !! t_session_id t);
        intros IH2; lia.
    + apply str_eqb_neq in E.
      rewrite upsert_session_other by congruence. revert IH2.
      destruct (sessions (log_turns init_database ts) !! sid); intros IH2; lia.
Qed.

(** ** The readers of a session *)

(** X14: [get_session_info] never returns the data of a session.  For an
    id without a row it returns [None]; for every session that exists it
    raises [TypeError], because the sixth column of the row, which
    [json.loads] is given, is the count of the turns and not the text of
    the languages.  The route [/sessions/{session_id}] therefore answers
    HTTP 500 for every id, the 404 of an unknown id included, which is
    raised inside the [try] that turns every exception into a 500. *)
Theorem session_info_is_never_returned (st : store) (session_id : pystr) :
  ConversationLogger.get_session_info st session_id
  = (if decide (is_Some (sessions st !! session_id))
     then Raises TypeError
     else Returns None)
  /\ get_session_info_route st session_id = SessionHttpError 500.
Proof.
  unfold get_session_info_route, ConversationLogger.get_session_info,
    select_session.
  destruct (sessions st !! session_id) as [row|] eqn:Hrow.
  - rewrite decide_True by eauto. split; reflexivity.
  - rewrite decide_False by (intros [x Hx]; discriminate Hx).
    split; reflexivity.
Qed.

(** ** chatbot_engine.py: the language of the reply *)

Lemma dict_get_key {V : Type} (d : list (pystr * V)) (key : pystr) :
  In key (List.map fst d) -> exists v, dict_get d key = Some v.
Proof.
  induction d as [|[k v] d IH]; intros H; [contradiction|].
  cbn [dict_get]. destruct (str_eqb k key) eqn:E; [eauto|].
  apply IH. destruct H as [H|H]; [|exact H].
  cbn [fst] in H. apply str_eqb_neq in E. contradiction.
Qed.

(** A dict whose keys are supported codes has no value for a code that is
    not supported. *)
Lemma unsupported_not_key (d : list (pystr * pystr)) (language : pystr) :
  is_supported_language language = false ->
  forallb (fun kv => str_in (fst kv) supported_codes) d = true ->
  dict_get d language = None.
Proof.
  intros Hs Hd. apply dict_get_not_key. intros Hin.
  apply in_map_iff in Hin as ([k v] & Hk & Hin). cbn [fst] in Hk. subst k.
  rewrite forallb_forall in Hd. specialize (Hd _ Hin). cbn [fst] in Hd.
  unfold str_in in Hd. apply existsb_exists in Hd as (c & Hc & E).
  apply str_eqb_eq in E. subst c.
  destruct (dict_get_key language_map language Hc) as [v' Hv].
  unfold is_supported_language in Hs. rewrite Hv in Hs. discriminate Hs.
Qed.

Lemma localized_without_language (rs : list (pystr * pystr)) (language : pystr) :
  dict_get rs language = None -> localized rs language = localized rs (u "en").
Proof.
  intros H. unfold localized. rewrite H.
  destruct (dict_get rs (u "en")); reflexivity.
Qed.

(** The texts of the default knowledge base and of the fall-back are
    written for the supported codes only. *)
Lemma default_texts_keys :
  forallb (fun entry => forallb (fun kv => str_in (fst kv) supported_codes)
                                (responses (snd entry)))
          (categories default_knowledge_base) = true
  /\ forallb (fun kv => str_in (fst kv) supported_codes)
             (responses (greetings default_knowledge_base)) = true
  /\ forallb (fun kv => str_in (fst kv) supported_codes)
             fallback_responses = true.
Proof. vm_compute. auto. Qed.

Lemma fallback_unsupported (language : pystr) :
  is_supported_language language = false ->
  _get_fallback_response language = _get_fallback_response (u "en").
Proof.
  intros Hs. unfold _get_fallback_response.
  rewrite (unsupported_not_key fallback_responses language Hs
             (proj2 (proj2 default_texts_keys))).
  destruct (dict_get fallback_responses (u "en")); reflexivity.
Qed.

Lemma default_response_unsupported (category language : pystr) :
  is_supported_language language = false ->
  _get_response default_knowledge_base category language
  = _get_response default_knowledge_base category (u "en").
Proof.
  intros Hs. unfold _get_response.
  destruct (str_eqb category (u "greetings")).
  - apply localized_without_language.
    apply (unsupported_not_key _ language Hs (proj1 (proj2 default_texts_keys))).
  - destruct (dict_get (categories default_knowledge_base) category)
      as [data|] eqn:Hd.
    + apply localized_without_language.
      apply (unsupported_not_key _ language Hs).
      apply dict_get_some_in in Hd.
      pose proof (proj1 default_texts_keys) as Hall.
      rewrite forallb_forall in Hall. exact (Hall _ Hd).
    + now apply fallback_unsupported.
Qed.

(** X15: with the built-in knowledge base, a message sent with a language
    code that is not supported gets, word for word, the reply the same
    message gets with "en": the same category, confidence and hand-off
    decision, and the English text. *)
Theorem unsupported_language_is_answered_in_english (L : PyLib)
    (now : pystr) (contexts : gmap pystr session_context)
    (message session_id language : pystr) :
  is_supported_language language = false ->
  fst (process_message L default_knowledge_base now contexts message
         session_id language)
  = fst (process_message L default_knowledge_base now contexts message
           session_id (u "en")).
Proof.
  intros Hs.
  destruct (_find_best_match L default_knowledge_base message language)
    as [category confidence] eqn:E.
  assert (E' : _find_best_match L default_knowledge_base message (u "en")
               = (category, confidence)) by exact E.
  rewrite (process_message_reply L _ _ _ _ _ _ _ _ E).
  rewrite (process_message_reply L _ _ _ _ _ _ _ _ E').
  rewrite (fallback_unsupported language Hs).
  rewrite (default_response_unsupported category language Hs).
  reflexivity.
Qed.

Lemma unsupported_language_is_answered_in_english_witness :
  is_supported_language (u "fr") = false
  /\ fst (process_message Sample.lib default_knowledge_base
            (u "2024-01-31 15:00:00") ∅ fee_question (u "s1") (u "fr"))
     = fst (process_message Sample.lib default_knowledge_base
              (u "2024-01-31 15:00:00") ∅ fee_question (u "s1") (u "en")).
Proof.
  assert (H : is_supported_language (u "fr") = false) by (vm_compute; reflexivity).
  split; [exact H|].
  exact (unsupported_language_is_answered_in_english Sample.lib _ _ _ _ _ H).
Defined.

(** ** chatbot_engine.py: the context of a session *)

(** The context [process_message] leaves for the session of the call. *)
Lemma process_message_context (L : PyLib) (kb : knowledge_base)
    now contexts message session_id language :
  let r := fst (process_message L kb now contexts message session_id language) in
  let ctx0 := match contexts !! session_id with
              | Some c => c
              | None => {| messages := []; last_category := None;
                           ctx_language := language |}
              end in
  snd (process_message L kb now contexts message session_id language)
  = <[session_id :=
        {| messages := messages ctx0
                       ++ [ {| m_user := message; m_timestamp := now;
                               m_bot := Some (r_response r) |} ];
           last_category := Some (r_category r);
           ctx_language := ctx_language ctx0 |}]> contexts.
Proof.
  cbv zeta. unfold process_message.
  destruct (_find_best_match L kb message language) as [category confidence].
  destruct (flt confidence confidence_threshold); reflexivity.
Qed.

Lemma converse_snoc (L : PyLib) (kb : knowledge_base) contexts calls k :
  converse L kb contexts (calls ++ [k])
  = snd (process_message L kb (k_now k) (converse L kb contexts calls)
           (k_message k) (k_session_id k) (k_language k)).
Proof. unfold converse. rewrite fold_left_app. reflexivity. Qed.

Lemma calls_of_snoc sid calls k :
  calls_of sid (calls ++ [k])
  = calls_of sid calls ++ (if str_eqb (k_session_id k) sid then [k] else []).
Proof.
  unfold calls_of. rewrite List.filter_app. cbn [List.filter].
  destruct (str_eqb (k_session_id k) sid); reflexivity.
Qed.

(** X16: the context of a session follows its calls.  After any sequence
    of [process_message] calls on an engine without contexts,
    [get_session_context] has a context for a session exactly when a call
    was made for it; the context lists the messages of the calls of the
    session in order, each with its timestamp and with a reply; and its
    language is the language of the first call of the session, whatever
    the languages of the later ones.  [clear_session_context] removes the
    context of its session and no other. *)
Theorem context_follows_the_calls (L : PyLib) (kb : knowledge_base)
    (calls : list call) (sid : pystr) :
  match get_session_context (converse L kb ∅ calls) sid with
  | None => calls_of sid calls = []
  | Some ctx =>
      List.map m_user (messages ctx) = List.map k_message (calls_of sid calls)
      /\ List.map m_timestamp (messages ctx) = List.map k_now (calls_of sid calls)
      /\ Forall (fun m => m_bot m <> None) (messages ctx)
      /\ head (List.map k_language (calls_of sid calls)) = Some (ctx_language ctx)
  end
  /\ get_session_context
       (clear_session_context (converse L kb ∅ calls) sid) sid = None
  /\ forall sid', sid' <> sid ->
       get_session_context
         (clear_session_context (converse L kb ∅ calls) sid) sid'
       = get_session_context (converse L kb ∅ calls) sid'.
Proof.
  unfold get_session_context. split; [|split].
  - induction calls as [|k calls IH] using rev_ind.
    + unfold converse. cbn [fold_left]. rewrite lookup_empty. reflexivity.
    + rewrite converse_snoc, process_message_context, calls_of_snoc.
      destruct (str_eqb (k_session_id k) sid) eqn:E.
      * apply str_eqb_eq in E. subst sid. rewrite lookup_insert_eq.
        cbn [messages ctx_language].
        rewrite !List.map_app. cbn [List.map m_user m_timestamp].
        destruct (converse L kb ∅ calls !! k_session_id k) as [ctx|].
        -- destruct IH as (Hu & Ht & Hb & Hl).
           split; [now rewrite Hu|]. split; [now rewrite Ht|]. split.
           ++ apply Forall_app. split; [exact Hb|].
              constructor; [discriminate|constructor].
           ++ destruct (calls_of (k_session_id k) calls); [discriminate Hl|].
              exact Hl.
        -- rewrite IH. cbn [messages ctx_language List.map Datatypes.app head].
           repeat split. constructor; [discriminate|constructor].
      * apply str_eqb_neq in E. rewrite lookup_insert_ne by exact E.
        rewrite app_nil_r. exact IH.
  - unfold clear_session_context.
    destruct (converse L kb ∅ calls !! sid) eqn:E; [apply lookup_delete_eq|exact E].
  - intros sid' Hne. unfold clear_session_context.
    destruct (converse L kb ∅ calls !! sid); [|reflexivity].
    apply lookup_delete_ne. congruence.
Qed.

(** ** conversation_logger.py: the languages of a session, written and read *)










(** *** LIKE on the text of the array *)











(** ** language_processor.py: the keywords of a text *)

Lemma split_spaces_words (s : pystr) :
  forall cur : pystr,
    Forall (fun c => is_space c = false) cur ->
    Forall (fun w => w <> [] /\ Forall (fun c => is_space c = false) w)
           (split_spaces cur s).
Proof.
  induction s as [|c s IH]; intros cur Hcur.
  - cbn [split_spaces]. destruct cur as [|d cur]; [constructor|].
    constructor; [|constructor]. split.
    + intros E. apply (f_equal (@length _)) in E.
      rewrite length_rev in E. discriminate E.
    + apply List.Forall_rev. exact Hcur.
  - cbn [split_spaces]. destruct (is_space c) eqn:E.
    + destruct cur as [|d cur]; [apply IH; constructor|].
      constructor; [|apply IH; constructor]. split.
      * intros E'. apply (f_equal (@length _)) in E'.
        rewrite length_rev in E'. discriminate E'.
      * apply List.Forall_rev. exact Hcur.
    + apply IH. constructor; assumption.
Qed.

Lemma str_in_false (x : pystr) (l : list pystr) :
  str_in x l = false -> ~ In x l.
Proof.
  unfold str_in. intros H Hin.
  assert (E : existsb (str_eqb x) l = true).
  { apply existsb_exists. exists x. split; [exact Hin|apply str_eqb_refl]. }
  congruence.
Qed.

(** X18: every keyword [extract_keywords] returns is a word of at least
    three characters without a whitespace character in it, and is not a
    stop word of the language, or of English when the language has no stop
    list; this holds for every text, whatever [str.lower] and the language
    detector do to it. *)
Theorem keywords_are_long_words (L : PyLib) (text language : pystr) :
  Forall (fun w => 3 <= len w
                   /\ Forall (fun c => is_space c = false) w
                   /\ ~ In w (stop_list language))
         (extract_keywords L text language).
Proof.
  unfold extract_keywords. apply List.Forall_forall. intros w Hw.
  apply List.filter_In in Hw as [Hw Hp].
  apply andb_true_iff in Hp as [Hstop Hlen].
  apply negb_true_iff in Hstop. apply Z.ltb_lt in Hlen.
  pose proof (split_spaces_words (normalize_text L text) [] (List.Forall_nil _)) as Hall.
  rewrite List.Forall_forall in Hall. destruct (Hall w Hw) as [_ Hns].
  split; [lia|]. split; [exact Hns|]. now apply str_in_false.
Qed.
